(** * GitWorth API (server1.py): a shallow embedding and its properties

    The development follows the layout of [server1.py]:

    - [PyStr]: the [str] methods the server calls ([strip], [in],
      [split]);
    - [Py]: exceptions and the error monad in which fallible code runs;
    - [Json]: decoded JSON values, dictionaries and the dynamic operations
      applied to them ([.get], [[k]], truthiness, [sum], [join]);
    - [DateTime]: [datetime.isoformat] and [datetime.fromisoformat];
    - [Model]: the pydantic models, [GitHubAnalyzer], [AIAnalyzer] and the
      two route handlers, over an explicit environment ([World]) and an
      explicit collection of stored documents;
    - [Spec] and [Samples]: the vocabulary of the statements and a few
      concrete environments; the properties follow.

    Strings are [string]s whose characters stand for the code points
    U+0000..U+00FF.  JSON numbers are Python [int]s; non-integer numerals
    (Python [float]s) are not represented. *)

From Stdlib Require Import ZArith List String Ascii Bool Lia.
From Stdlib Require Import Permutation Sorted.
Import ListNotations.

Set Warnings "-register-all".

Local Open Scope string_scope.
Local Open Scope list_scope.
Local Open Scope Z_scope.

Infix "+++" := String.append (right associativity, at level 60).

(* ================================================================== *)
(** * Python strings *)

Module PyStr.

(** [str.isspace] on a single character, for code points below 256. *)
Definition isspace (c : ascii) : bool :=
  let n := nat_of_ascii c in
  ((9 <=? n) && (n <=? 13) || (28 <=? n) && (n <=? 32)
   || (n =? 133) || (n =? 160))%nat.

(** [lstrip]/[rstrip]/[strip] over a predicate on characters:
    [s.strip()] is [strip_ws s] and [s.strip(chars)] is
    [strip_chars chars s], both defined below. *)
Fixpoint lstrip (p : ascii -> bool) (s : string) : string :=
  match s with
  | EmptyString => EmptyString
  | String c s' => if p c then lstrip p s' else s
  end.

Fixpoint rstrip (p : ascii -> bool) (s : string) : string :=
  match s with
  | EmptyString => EmptyString
  | String c s' =>
      match rstrip p s' with
      | EmptyString => if p c then EmptyString else String c EmptyString
      | r => String c r
      end
  end.

Definition strip (p : ascii -> bool) (s : string) : string :=
  rstrip p (lstrip p s).

Definition strip_ws (s : string) : string := strip isspace s.

(** [c in chars]. *)
Definition in_chars (chars : string) (c : ascii) : bool :=
  existsb (Ascii.eqb c) (list_ascii_of_string chars).

Definition strip_chars (chars : string) (s : string) : string :=
  strip (in_chars chars) s.

Fixpoint drop (n : nat) (s : string) : string :=
  match n, s with
  | O, _ => s
  | S _, EmptyString => EmptyString
  | S n', String _ s' => drop n' s'
  end.

(** [cut sep s]: the text before and after the leftmost occurrence of
    [sep] in [s] (what [s.partition(sep)] computes), if there is one. *)
Fixpoint cut (sep s : string) : option (string * string) :=
  if String.prefix sep s then Some (EmptyString, drop (String.length sep) s)
  else match s with
       | EmptyString => None
       | String c s' =>
           match cut sep s' with
           | Some (b, a) => Some (String c b, a)
           | None => None
           end
       end.

(** [sep in s]. *)
Fixpoint contains (sep s : string) : bool :=
  String.prefix sep s
  || match s with
     | EmptyString => false
     | String _ s' => contains sep s'
     end.

(** [s.split(sep)] for a non-empty [sep]: the pieces between the
    occurrences of [sep] found scanning left to right.  Each cut consumes
    at least one character, so [length s] rounds are enough (see
    [split_fuel_enough]). *)
Fixpoint split_fuel (fuel : nat) (sep s : string) : list string :=
  match fuel with
  | O => [s]
  | S fuel' =>
      match cut sep s with
      | None => [s]
      | Some (b, a) => b :: split_fuel fuel' sep a
      end
  end.

Definition split (sep s : string) : list string :=
  split_fuel (String.length s) sep s.

End PyStr.

(* ================================================================== *)
(** * Exceptions and fallible computations *)

Module Py.

(** The exceptions that the modelled code can raise.  [HTTPException] is
    FastAPI's; [HTTPError] stands for [httpx.HTTPError] and its subclasses
    (transport errors and the [HTTPStatusError] of [raise_for_status]);
    [InvalidURL] is [httpx.InvalidURL], which is not one of them (it
    derives from [Exception] directly); [LlmError] stands for whatever
    the chat client raises. *)
Inductive exn : Type :=
| HTTPException (status_code : Z) (detail : string)
| HTTPError
| InvalidURL
| KeyError (key : string)
| IndexError
| TypeError
| AttributeError
| ZeroDivisionError
| ValueError
| ValidationError
| LlmError.

Inductive result (A : Type) : Type :=
| Ok (a : A)
| Raise (e : exn).
Arguments Ok {A} a.
Arguments Raise {A} e.

Definition bind {A B} (m : result A) (k : A -> result B) : result B :=
  match m with
  | Ok a => k a
  | Raise e => Raise e
  end.

(** [try: body / except Exception: handler]. *)
Definition try_except {A} (body : result A) (handler : exn -> result A)
  : result A :=
  match body with
  | Ok a => Ok a
  | Raise e => handler e
  end.

(** A [for] loop whose body may raise, threading the loop state. *)
Fixpoint for_each {A S} (body : S -> A -> result S) (xs : list A) (st : S)
  : result S :=
  match xs with
  | [] => Ok st
  | x :: xs' => bind (body st x) (for_each body xs')
  end.

(** [xs[i]] for a non-negative index. *)
Definition index {A} (xs : list A) (i : nat) : result A :=
  match nth_error xs i with
  | Some x => Ok x
  | None => Raise IndexError
  end.

(** [xs[-1]]. *)
Definition index_last {A} (xs : list A) : result A :=
  match xs with
  | [] => Raise IndexError
  | x :: xs' => Ok (List.last xs' x)
  end.

(** The interpreter writes an [int] with at most
    [sys.int_info.default_max_str_digits] digits; [str(n)], and [{n}] in
    an f-string, raise [ValueError] for an [int] with more.  The same
    limit holds when an [int] is read from text, so the numbers that
    [json.loads] and [response.json()] give are within it; the numbers
    that the program computes from them need not be. *)
Definition max_str_digits : Z := 4300.

(** The number of decimal digits of [n >= 0], one division by ten for
    each digit after the first. *)
Fixpoint digits_fuel (fuel : nat) (n : Z) : Z :=
  match fuel with
  | O => 1
  | S fuel' => if n <? 10 then 1 else 1 + digits_fuel fuel' (n / 10)
  end.

(** The number of decimal digits of [n], its sign apart.  There are no
    more digits than bits (see [digits_spec]). *)
Definition digits (n : Z) : Z :=
  digits_fuel (Z.to_nat (Z.log2 (Z.abs n))) (Z.abs n).

(** [str(n)]; the result stands for the text of [n]. *)
Definition str_int (n : Z) : result Z :=
  if digits n <=? max_str_digits then Ok n else Raise ValueError.

End Py.
Import Py.

Notation "x <- m ;; k" := (Py.bind m (fun x => k))
  (at level 61, m at next level, right associativity).
Notation "' pat <- m ;; k" :=
  (Py.bind m (fun x => match x with pat => k end))
  (at level 61, pat pattern, m at next level, right associativity).

(* ================================================================== *)
(** * JSON values as Python objects *)

Module Json.

(** What [json.loads] and [response.json()] produce. *)
Inductive json : Type :=
| JNull
| JBool (b : bool)
| JInt (z : Z)
| JStr (s : string)
| JList (items : list json)
| JDict (entries : list (string * json)).

(** A [dict] with string keys, in insertion order.  The keys of a dict
    are pairwise distinct; [lookup] reads the first entry of a key. *)
Definition dict : Type := list (string * json).

Fixpoint lookup (k : string) (d : dict) : option json :=
  match d with
  | [] => None
  | (k', v) :: d' => if String.eqb k' k then Some v else lookup k d'
  end.

(** [d.get(k, default)] and [d.get(k)]. *)
Definition get (d : dict) (k : string) (default : json) : json :=
  match lookup k d with
  | Some v => v
  | None => default
  end.

Definition get_none (d : dict) (k : string) : json := get d k JNull.

(** [d[k]] on a dict. *)
Definition item (d : dict) (k : string) : result json :=
  match lookup k d with
  | Some v => Ok v
  | None => Raise (KeyError k)
  end.

(** [v[k]] on an arbitrary value with a string subscript: only a dict
    can answer; lists and strings want integer indices, the other
    values are not subscriptable. *)
Definition subscript (v : json) (k : string) : result json :=
  match v with
  | JDict d => item d k
  | _ => Raise TypeError
  end.

Definition keys (d : dict) : list string := map fst d.
Definition values (d : dict) : list json := map snd d.

(** [v.values()] and [len(v)] on an arbitrary value. *)
Definition values_of (v : json) : result (list json) :=
  match v with
  | JDict d => Ok (values d)
  | _ => Raise AttributeError
  end.

Definition len (v : json) : result Z :=
  match v with
  | JDict d => Ok (Z.of_nat (List.length d))
  | JList l => Ok (Z.of_nat (List.length l))
  | JStr s => Ok (Z.of_nat (String.length s))
  | _ => Raise TypeError
  end.

(** Truth value of an object in an [if]. *)
Definition truthy (v : json) : bool :=
  match v with
  | JNull => false
  | JBool b => b
  | JInt z => negb (z =? 0)
  | JStr s => negb (String.eqb s "")
  | JList l => match l with [] => false | _ => true end
  | JDict d => match d with [] => false | _ => true end
  end.

(** The integer a value counts as in arithmetic ([bool] is a subclass of
    [int]). *)
Definition as_int (v : json) : option Z :=
  match v with
  | JInt z => Some z
  | JBool b => Some (if b then 1 else 0)
  | _ => None
  end.

(** [sum(vs)]: starts from [0] and adds left to right; adding anything
    that is not a number to an [int] is a [TypeError]. *)
Fixpoint sum_from (acc : Z) (vs : list json) : result Z :=
  match vs with
  | [] => Ok acc
  | v :: vs' =>
      match as_int v with
      | Some z => sum_from (acc + z) vs'
      | None => Raise TypeError
      end
  end.

Definition sum (vs : list json) : result Z := sum_from 0 vs.

(** [a // b] on integers. *)
Definition floordiv (a b : Z) : result Z :=
  if b =? 0 then Raise ZeroDivisionError else Ok (a / b).

(** Values that can be dict keys, and [==] between them ([True == 1]). *)
Definition hashable (v : json) : bool :=
  match v with
  | JList _ | JDict _ => false
  | _ => true
  end.

Definition key_eqb (a b : json) : bool :=
  match a, b with
  | JNull, JNull => true
  | JStr s, JStr t => String.eqb s t
  | (JInt _ | JBool _), (JInt _ | JBool _) =>
      match as_int a, as_int b with
      | Some x, Some y => x =? y
      | _, _ => false
      end
  | _, _ => false
  end.

(** A dict from hashable values to counts, in insertion order. *)
Definition tally : Type := list (json * Z).

Fixpoint tally_get (k : json) (t : tally) : Z :=
  match t with
  | [] => 0
  | (k', n) :: t' => if key_eqb k' k then n else tally_get k t'
  end.

(** [t[k] = t.get(k, 0) + 1]. *)
Fixpoint tally_incr (k : json) (t : tally) : tally :=
  match t with
  | [] => [(k, 1)]
  | (k', n) :: t' =>
      if key_eqb k' k then (k', n + 1) :: t' else (k', n) :: tally_incr k t'
  end.

(** [sep.join(xs)]: every item has to be a [str]. *)
Fixpoint strings_of (xs : list json) : result (list string) :=
  match xs with
  | [] => Ok []
  | JStr s :: xs' => ss <- strings_of xs' ;; Ok (s :: ss)
  | _ :: _ => Raise TypeError
  end.

Definition join (sep : string) (xs : list json) : result string :=
  ss <- strings_of xs ;; Ok (String.concat sep ss).

End Json.
Import Json.

(* ================================================================== *)
(** * [datetime]: ISO-8601 text *)

Module DateTime.

(** A [datetime] object.  [utcoffset] is the offset of its [tzinfo] in
    minutes ([None] for a naive object, [Some 0] for [timezone.utc]). *)
Record datetime : Type := {
  year : Z;
  month : Z;
  day : Z;
  hour : Z;
  minute : Z;
  second : Z;
  microsecond : Z;
  utcoffset : option Z
}.

Definition is_leap (y : Z) : bool :=
  (y mod 4 =? 0) && (negb (y mod 100 =? 0) || (y mod 400 =? 0)).

Definition days_in_month (y m : Z) : Z :=
  if m =? 2 then (if is_leap y then 29 else 28)
  else if (m =? 4) || (m =? 6) || (m =? 9) || (m =? 11) then 30
  else 31.

Definition between (lo x hi : Z) : bool := (lo <=? x) && (x <=? hi).

(** The invariant of the class: the constructor raises [ValueError]
    outside these ranges. *)
Definition valid (d : datetime) : bool :=
  between 1 (year d) 9999 && between 1 (month d) 12
  && between 1 (day d) (days_in_month (year d) (month d))
  && between 0 (hour d) 23 && between 0 (minute d) 59
  && between 0 (second d) 59 && between 0 (microsecond d) 999999
  && match utcoffset d with
     | None => true
     | Some m => between (-1439) m 1439
     end.

Definition digit (d : Z) : ascii := ascii_of_N (Z.to_N (48 + d)).

Definition digit_val (c : ascii) : option Z :=
  let n := Z.of_N (N_of_ascii c) in
  if between 48 n 57 then Some (n - 48) else None.

(** ["%0<w>d" % n] for [0 <= n < 10 ^ w], most significant digit first. *)
Fixpoint zpad (w : nat) (n : Z) : string :=
  match w with
  | O => EmptyString
  | S w' =>
      String (digit (n / 10 ^ Z.of_nat w')) (zpad w' (n mod 10 ^ Z.of_nat w'))
  end.

Definition offset_text (o : option Z) : string :=
  match o with
  | None => ""
  | Some m =>
      (if m <? 0 then "-" else "+")
      +++ zpad 2 (Z.abs m / 60) +++ ":" +++ zpad 2 (Z.abs m mod 60)
  end.

(** [d.isoformat()]: the fraction is printed only when it is not zero. *)
Definition isoformat (d : datetime) : string :=
  zpad 4 (year d) +++ "-" +++ zpad 2 (month d) +++ "-" +++ zpad 2 (day d)
  +++ "T" +++ zpad 2 (hour d) +++ ":" +++ zpad 2 (minute d) +++ ":"
  +++ zpad 2 (second d)
  +++ (if microsecond d =? 0 then "" else "." +++ zpad 6 (microsecond d))
  +++ offset_text (utcoffset d).

(** Reading [w] digits. *)
Fixpoint take_digits (w : nat) (acc : Z) (s : string) : result (Z * string) :=
  match w with
  | O => Ok (acc, s)
  | S w' =>
      match s with
      | EmptyString => Raise ValueError
      | String c s' =>
          match digit_val c with
          | Some d => take_digits w' (acc * 10 + d) s'
          | None => Raise ValueError
          end
      end
  end.

Definition expect (c : ascii) (s : string) : result string :=
  match s with
  | EmptyString => Raise ValueError
  | String c' s' => if Ascii.eqb c' c then Ok s' else Raise ValueError
  end.

Definition any_char (s : string) : result string :=
  match s with
  | EmptyString => Raise ValueError
  | String _ s' => Ok s'
  end.

Definition parse_fraction (s : string) : result (Z * string) :=
  match s with
  | String "." s' => take_digits 6 0 s'
  | _ => Ok (0, s)
  end.

Definition parse_offset (s : string) : result (option Z) :=
  match s with
  | EmptyString => Ok None
  | String c s' =>
      sign <- (if Ascii.eqb c "+" then Ok 1
               else if Ascii.eqb c "-" then Ok (-1)
               else Raise ValueError) ;;
      ' (hh, s1) <- take_digits 2 0 s' ;;
      s2 <- expect ":" s1 ;;
      ' (mm, s3) <- take_digits 2 0 s2 ;;
      match s3 with
      | EmptyString => Ok (Some (sign * (hh * 60 + mm)))
      | _ => Raise ValueError
      end
  end.

(** [datetime.fromisoformat(s)] on the texts that [isoformat] writes:
    [YYYY-MM-DD], one separator character, [HH:MM:SS], an optional
    six-digit fraction and an optional [+HH:MM] or [-HH:MM] offset.
    On a text of this shape every version of Python that has the
    function gives the value computed here.  A text of another shape is
    a [ValueError] here, while Python from 3.11 on reads further
    ISO-8601 variants (a date alone, a fraction of three digits, a Z):
    for such a text the model does not stand for the library, and the
    statements about the routes are about collections whose texts have
    the shape above. *)
Definition fromisoformat (s : string) : result datetime :=
  ' (y, s) <- take_digits 4 0 s ;;
  s <- expect "-" s ;;
  ' (mo, s) <- take_digits 2 0 s ;;
  s <- expect "-" s ;;
  ' (d, s) <- take_digits 2 0 s ;;
  s <- any_char s ;;
  ' (h, s) <- take_digits 2 0 s ;;
  s <- expect ":" s ;;
  ' (mi, s) <- take_digits 2 0 s ;;
  s <- expect ":" s ;;
  ' (se, s) <- take_digits 2 0 s ;;
  ' (us, s) <- parse_fraction s ;;
  off <- parse_offset s ;;
  let r := {| year := y; month := mo; day := d; hour := h; minute := mi;
              second := se; microsecond := us; utcoffset := off |} in
  if valid r then Ok r else Raise ValueError.

(** The wall-clock fields, most significant first.  Comparing them
    lexicographically orders the instants of two objects that carry the
    same UTC offset. *)
Definition fields (d : datetime) : list Z :=
  [year d; month d; day d; hour d; minute d; second d; microsecond d].

Fixpoint lex_compare (a b : list Z) : comparison :=
  match a, b with
  | [], [] => Eq
  | [], _ :: _ => Lt
  | _ :: _, [] => Gt
  | x :: a', y :: b' =>
      match x ?= y with
      | Eq => lex_compare a' b'
      | c => c
      end
  end.

Definition compare (a b : datetime) : comparison :=
  lex_compare (fields a) (fields b).

(** [a <= b]. *)
Definition leb (a b : datetime) : bool :=
  match compare a b with
  | Gt => false
  | _ => true
  end.

End DateTime.
Import DateTime.

(* ================================================================== *)
(** * The server *)

Module Model.

Import PyStr.

(** ** Models *)

Record AnalyzeRequest : Type := { github_url : string }.

Record ScoreBreakdown : Type := {
  documentation : Z;
  code_structure : Z;
  activity_consistency : Z;
  repository_organization : Z;
  project_impact : Z;
  technical_depth : Z
}.

(** The [profile_data] dict that the analyze handler builds. *)
Record ProfileData : Type := {
  pd_name : json;
  pd_bio : json;
  pd_avatar_url : json;
  pd_public_repos : json;
  pd_followers : json;
  pd_total_stars : Z;
  pd_languages : tally
}.

(** [Analysis] and [AnalysisResponse] have the same fields.  [T] is the
    type of the [timestamp] field: a [datetime] in the model object, a
    [str] in the stored document. *)
Record AnalysisOf (T : Type) : Type := {
  id : string;
  username : string;
  overall_score : Z;
  score_breakdown : ScoreBreakdown;
  strengths : list string;
  weaknesses : list string;
  recommendations : list string;
  profile_data : ProfileData;
  timestamp : T
}.
Arguments id {T} _.
Arguments username {T} _.
Arguments overall_score {T} _.
Arguments score_breakdown {T} _.
Arguments strengths {T} _.
Arguments weaknesses {T} _.
Arguments recommendations {T} _.
Arguments profile_data {T} _.
Arguments timestamp {T} _.

Definition Analysis : Type := AnalysisOf datetime.

(** A document of the [analyses] collection, as [insert_one] receives
    it.  The collection holds what this server writes, so the
    [timestamp] of a document is a [str] and the [isinstance] test of
    [get_recent_analyses] holds. *)
Definition Document : Type := AnalysisOf string.

Definition with_timestamp {T U} (a : AnalysisOf T) (t : U) : AnalysisOf U :=
  {| id := id a; username := username a; overall_score := overall_score a;
     score_breakdown := score_breakdown a; strengths := strengths a;
     weaknesses := weaknesses a; recommendations := recommendations a;
     profile_data := profile_data a; timestamp := t |}.

(** What a route answers: the body with status 200, an [HTTPException]
    passed through, or the [HTTPException(500, "Analysis failed: ...")]
    wrapped around another exception. *)
Inductive response (A : Type) : Type :=
| Http200 (body : A)
| HttpError (status_code : Z) (detail : string)
| HttpAnalysisFailed (e : exn).
Arguments Http200 {A} body.
Arguments HttpError {A} status_code detail.
Arguments HttpAnalysisFailed {A} e.

Definition status {A} (r : response A) : Z :=
  match r with
  | Http200 _ => 200
  | HttpError st _ => st
  | HttpAnalysisFailed _ => 500
  end.

(** The body of a request, as FastAPI reads it for a handler that
    takes a model: reading the body or decoding its bytes raises (bytes
    that are not UTF-8 text, for instance); or there is no JSON value
    (no body, a content type that is not JSON, or a text that
    [json.loads] rejects with [JSONDecodeError]); or the body decodes to
    a JSON value. *)
Inductive request_body : Type :=
| BodyUnreadable
| BodyNotJson
| BodyJson (value : json).

(** What FastAPI answers on such a route: 400 ("There was an error
    parsing the body") when the body cannot be read, 422 when it does
    not validate against the model (the handler runs in neither case),
    and the answer of the handler otherwise. *)
Inductive served (A : Type) : Type :=
| BadRequest
| Unprocessable
| Handled (answer : response A).
Arguments BadRequest {A}.
Arguments Unprocessable {A}.
Arguments Handled {A} answer.

Definition served_status {A} (r : served A) : Z :=
  match r with
  | BadRequest => 400
  | Unprocessable => 422
  | Handled answer => status answer
  end.

(** ** The environment *)

(** What [self.client.get(url)] does.  The client refuses the URL
    before it sends anything, raising [httpx.InvalidURL] (a username or a
    repository name with a control character in it ends in such a URL);
    or the request raises an [httpx.HTTPError]; or it gives a
    response. *)
Inductive http_reply (A : Type) : Type :=
| BadURL
| NoReply
| Reply (status_code : Z) (body : A).
Arguments BadURL {A}.
Arguments NoReply {A}.
Arguments Reply {A} status_code body.

(** What the [try] of [generate_analysis] gets from the chat client: an
    exception (from building the client, from [send_message], or from a
    response that is not a [str]), or the text of the response. *)
Inductive llm_reply : Type :=
| LlmRaises
| LlmText (response : string).

(** The values interpolated into the prompt; the layout of the text
    around them is left out.  Writing them as text fails for no value
    taken from a decoded JSON body and for no count of the loop over the
    top repositories (they are at most 10); it fails for a total that has
    more than [max_str_digits] digits (see [str_int]). *)
Record repo_line : Type := {
  rl_name : json;
  rl_description : json;
  rl_stars : json;
  rl_language : json
}.

Record prompt : Type := {
  p_username : json;
  p_public_repos : json;
  p_followers : json;
  p_total_stars : Z;
  p_total_forks : Z;
  p_languages : string;
  p_repos_with_readme : Z;
  p_repos_with_description : Z;
  p_bio : json;
  p_location : json;
  p_top_repos : list repo_line
}.

(** Everything outside the server that one request observes.  A JSON
    body is [None] when [response.json()] cannot decode it; the profile
    decodes to a dict and the repository listing to a list of dicts, as
    the annotations of the fetchers say. *)
Record World : Type := {
  http_get_user : string -> http_reply (option dict);
  http_get_repos : string -> http_reply (option (list dict));
  http_get_readme : string -> json -> http_reply string;
  send_message : prompt -> llm_reply;
  uuid4 : string;
  utcnow : datetime
}.

(** ** GitHubAnalyzer *)

(** [response.raise_for_status()]. *)
Definition raise_for_status (status_code : Z) : result unit :=
  if between 200 status_code 299 then Ok tt else Raise HTTPError.

Definition json_body {A} (body : option A) : result A :=
  match body with
  | Some v => Ok v
  | None => Raise ValueError
  end.

(** [except httpx.HTTPError as e: handler]. *)
Definition except_HTTPError {A} (body : result A) (handler : result A)
  : result A :=
  match body with
  | Raise HTTPError => handler
  | r => r
  end.

Definition get_user_profile (w : World) (username : string) : result dict :=
  except_HTTPError
    (match http_get_user w username with
     | BadURL => Raise InvalidURL
     | NoReply => Raise HTTPError
     | Reply status_code body =>
         if status_code =? 404
         then Raise (HTTPException 404 "GitHub user not found")
         else _ <- raise_for_status status_code ;; json_body body
     end)
    (Raise (HTTPException 500 "Failed to fetch GitHub profile")).

Definition get_repositories (w : World) (username : string)
  : result (list dict) :=
  except_HTTPError
    (match http_get_repos w username with
     | BadURL => Raise InvalidURL
     | NoReply => Raise HTTPError
     | Reply status_code body =>
         _ <- raise_for_status status_code ;; json_body body
     end)
    (Ok []).

Definition get_readme (w : World) (username : string) (repo : json)
  : option string :=
  match http_get_readme w username repo with
  | BadURL | NoReply => None
  | Reply status_code text => if status_code =? 200 then Some text else None
  end.

Record Stats : Type := {
  public_repos : json;
  followers : json;
  following : json;
  total_stars : Z;
  total_forks : Z;
  languages : tally;
  repos_with_readme : Z;
  repos_with_description : Z;
  top_repos : list dict
}.

Record Summary : Type := {
  profile : dict;
  repositories : list dict;
  stats : Stats
}.

(** The state of the loop over the top repositories. *)
Record Scan : Type := {
  scan_languages : tally;
  scan_readme : Z;
  scan_description : Z
}.

Definition scan_repo (w : World) (username : string) (st : Scan) (repo : dict)
  : result Scan :=
  languages' <-
    (if truthy (get_none repo "language") then
       language <- item repo "language" ;;
       if hashable language
       then Ok (tally_incr language (scan_languages st))
       else Raise TypeError
     else Ok (scan_languages st)) ;;
  let description' :=
    if truthy (get_none repo "description")
    then scan_description st + 1 else scan_description st in
  name <- item repo "name" ;;
  let readme' :=
    match get_readme w username name with
    | Some text => if String.eqb text "" then scan_readme st
                   else scan_readme st + 1
    | None => scan_readme st
    end in
  Ok {| scan_languages := languages'; scan_readme := readme';
        scan_description := description' |}.

Definition analyze_profile (w : World) (username : string) : result Summary :=
  profile <- get_user_profile w username ;;
  repos <- get_repositories w username ;;
  total_stars <-
    sum (map (fun repo => get repo "stargazers_count" (JInt 0)) repos) ;;
  total_forks <-
    sum (map (fun repo => get repo "forks_count" (JInt 0)) repos) ;;
  st <- for_each (scan_repo w username) (firstn 10 repos)
          {| scan_languages := []; scan_readme := 0;
             scan_description := 0 |} ;;
  Ok {| profile := profile;
        repositories := repos;
        stats := {| public_repos := get profile "public_repos" (JInt 0);
                    followers := get profile "followers" (JInt 0);
                    following := get profile "following" (JInt 0);
                    total_stars := total_stars;
                    total_forks := total_forks;
                    languages := scan_languages st;
                    repos_with_readme := scan_readme st;
                    repos_with_description := scan_description st;
                    top_repos := firstn 10 repos |} |}.

(** ** AIAnalyzer *)

Definition format_repos (repos : list dict) : result (list repo_line) :=
  for_each
    (fun lines repo =>
       name <- item repo "name" ;;
       Ok (lines ++ [ {| rl_name := name;
                         rl_description :=
                           get repo "description" (JStr "No description");
                         rl_stars := get repo "stargazers_count" (JInt 0);
                         rl_language := get repo "language" (JStr "N/A") |} ]))
    repos [].

(** The f-string of [generate_analysis], evaluated before its [try]:
    its fields are computed and written from the first to the last, so
    the two totals are written before the languages are joined, and the
    repository lines come last. *)
Definition build_prompt (github_data : Summary) : result prompt :=
  let stats := stats github_data in
  let profile := profile github_data in
  stars <- str_int (total_stars stats) ;;
  forks <- str_int (total_forks stats) ;;
  languages_used <- join ", " (map fst (languages stats)) ;;
  top <- format_repos (firstn 5 (top_repos stats)) ;;
  Ok {| p_username := get profile "name" (get_none profile "login");
        p_public_repos := public_repos stats;
        p_followers := followers stats;
        p_total_stars := stars;
        p_total_forks := forks;
        p_languages := languages_used;
        p_repos_with_readme := repos_with_readme stats;
        p_repos_with_description := repos_with_description stats;
        p_bio := get profile "bio" (JStr "Not provided");
        p_location := get profile "location" (JStr "Not provided");
        p_top_repos := top |}.

Definition default_breakdown : dict :=
  [ ("documentation", JInt 60);
    ("code_structure", JInt 65);
    ("activity_consistency", JInt 55);
    ("repository_organization", JInt 60);
    ("project_impact", JInt 50);
    ("technical_depth", JInt 60) ].

Definition default_analysis (stats : Stats) : json :=
  JDict
    [ ("score_breakdown", JDict default_breakdown);
      ("strengths",
        JList [ JStr "Active GitHub presence";
                JStr "Multiple programming languages";
                JStr "Public repositories available" ]);
      ("weaknesses",
        JList [ JStr "Analysis incomplete - AI service temporarily unavailable";
                JStr "Consider adding more detailed README files";
                JStr "Enhance project descriptions" ]);
      ("recommendations",
        JList [ JStr "Add comprehensive README files to all repositories";
                JStr "Include project setup instructions and usage examples";
                JStr "Write detailed commit messages";
                JStr "Contribute to open source projects";
                JStr "Pin your best projects to your profile" ]) ].

Definition fence_json : string := "```json".
Definition fence : string := "```".

(** The text taken out of the response, before its final [strip()]. *)
Definition fenced_text (response : string) : result string :=
  let response_text := strip_ws response in
  if contains fence_json response_text then
    body <- index (split fence_json response_text) 1 ;;
    index (split fence body) 0
  else if contains fence response_text then
    body <- index (split fence response_text) 1 ;;
    index (split fence body) 0
  else Ok response_text.

(** The argument of [json.loads]. *)
Definition json_text (response : string) : result string :=
  response_text <- fenced_text response ;;
  Ok (strip_ws response_text).

Section Server.

(** [json.loads]: [None] when it raises [JSONDecodeError]. *)
Variable json_loads : string -> option json.

Definition loads (text : string) : result json :=
  match json_loads text with
  | Some v => Ok v
  | None => Raise ValueError
  end.

Definition generate_analysis (w : World) (github_data : Summary)
  : result json :=
  prompt <- build_prompt github_data ;;
  try_except
    (match send_message w prompt with
     | LlmRaises => Raise LlmError
     | LlmText response =>
         text <- json_text response ;;
         loads text
     end)
    (fun _ => Ok (default_analysis (stats github_data))).

(** ** Routes *)

(** Lines 297-299: the username out of the request. *)
Definition derive_username (github_url : string) : result string :=
  let username := strip_ws github_url in
  if contains "github.com/" username then
    piece <- index_last (split "github.com/" username) ;;
    Ok (strip_chars "/" piece)
  else Ok username.

(** Lines 310-311. *)
Definition calculate_overall_score (ai_analysis : json)
  : result (json * Z) :=
  breakdown <- subscript ai_analysis "score_breakdown" ;;
  vs <- values_of breakdown ;;
  total <- sum vs ;;
  n <- len breakdown ;;
  overall_score <- floordiv total n ;;
  Ok (breakdown, overall_score).

(** An [int] field of a pydantic model in lax mode takes an [int] or a
    [bool].  (The values that reach [ScoreBreakdown] have all been
    added up by [sum] before.) *)
Definition int_field (d : dict) (k : string) : result Z :=
  match lookup k d with
  | Some v =>
      match as_int v with
      | Some z => Ok z
      | None => Raise ValidationError
      end
  | None => Raise ValidationError
  end.

(** [ScoreBreakdown] built from the unpacked [breakdown]; keys outside
    the six fields are ignored. *)
Definition make_ScoreBreakdown (breakdown : json) : result ScoreBreakdown :=
  match breakdown with
  | JDict d =>
      a <- int_field d "documentation" ;;
      b <- int_field d "code_structure" ;;
      c <- int_field d "activity_consistency" ;;
      e <- int_field d "repository_organization" ;;
      f <- int_field d "project_impact" ;;
      g <- int_field d "technical_depth" ;;
      Ok {| documentation := a; code_structure := b;
            activity_consistency := c; repository_organization := e;
            project_impact := f; technical_depth := g |}
  | _ => Raise TypeError
  end.

(** A [List[str]] field. *)
Fixpoint str_items (xs : list json) : option (list string) :=
  match xs with
  | [] => Some []
  | JStr s :: xs' =>
      match str_items xs' with
      | Some ss => Some (s :: ss)
      | None => None
      end
  | _ :: _ => None
  end.

Definition str_list_field (v : json) : result (list string) :=
  match v with
  | JList xs =>
      match str_items xs with
      | Some ss => Ok ss
      | None => Raise ValidationError
      end
  | _ => Raise ValidationError
  end.

(** Lines 314-330: [Analysis(...)], with its two default factories
    read from the environment. *)
Definition make_Analysis (w : World) (username : string)
    (github_data : Summary) (ai_analysis breakdown : json)
    (overall_score : Z) : result Analysis :=
  sb <- make_ScoreBreakdown breakdown ;;
  strengths_arg <- subscript ai_analysis "strengths" ;;
  weaknesses_arg <- subscript ai_analysis "weaknesses" ;;
  recommendations_arg <- subscript ai_analysis "recommendations" ;;
  let pd :=
    {| pd_name := get (profile github_data) "name" (JStr username);
       pd_bio := get (profile github_data) "bio" (JStr "");
       pd_avatar_url := get (profile github_data) "avatar_url" (JStr "");
       pd_public_repos := public_repos (stats github_data);
       pd_followers := followers (stats github_data);
       pd_total_stars := total_stars (stats github_data);
       pd_languages := languages (stats github_data) |} in
  ss <- str_list_field strengths_arg ;;
  ws <- str_list_field weaknesses_arg ;;
  rs <- str_list_field recommendations_arg ;;
  Ok {| id := uuid4 w; username := username;
        overall_score := overall_score; score_breakdown := sb;
        strengths := ss; weaknesses := ws; recommendations := rs;
        profile_data := pd; timestamp := utcnow w |}.

(** [model_dump()] followed by [doc['timestamp'] =
    doc['timestamp'].isoformat()]. *)
Definition dump (analysis : Analysis) : Document :=
  with_timestamp analysis (isoformat (timestamp analysis)).

(** [db.analyses.insert_one(doc)]: the collection is the list of the
    documents inserted so far, and an insert appends to it.  The write is
    taken to succeed: an unreachable database, or a document that the
    driver cannot encode (a number beyond eight bytes), is outside the
    model. *)
Definition insert_one (db : list Document) (doc : Document)
  : list Document := db ++ [doc].

(** The body of the [try] of [analyze_github_profile]. *)
Definition analyze_try (w : World) (db : list Document)
    (request : AnalyzeRequest) : result (Analysis * list Document) :=
  username <- derive_username (github_url request) ;;
  github_data <- analyze_profile w username ;;
  ai_analysis <- generate_analysis w github_data ;;
  ' (breakdown, overall_score) <- calculate_overall_score ai_analysis ;;
  analysis <- make_Analysis w username github_data ai_analysis breakdown
                overall_score ;;
  Ok (analysis, insert_one db (dump analysis)).

(** POST /api/analyze: the response and the collection afterwards. *)
Definition analyze_github_profile (w : World) (db : list Document)
    (request : AnalyzeRequest) : response Analysis * list Document :=
  match analyze_try w db request with
  | Ok (analysis, db') => (Http200 analysis, db')
  | Raise (HTTPException status_code detail) =>
      (HttpError status_code detail, db)
  | Raise e => (HttpAnalysisFailed e, db)
  end.

(** The route as FastAPI serves it.  The parameter of the handler is
    declared [request: AnalyzeRequest], so the body of the request is
    validated before the handler runs: it has to be a JSON object with a
    [str] under "github_url" (pydantic does not turn another value into
    a [str]; keys besides it are ignored). *)
Definition validate_AnalyzeRequest (value : json) : option AnalyzeRequest :=
  match value with
  | JDict fields =>
      match lookup "github_url" fields with
      | Some (JStr url) => Some {| github_url := url |}
      | _ => None
      end
  | _ => None
  end.

Definition post_analyze (w : World) (db : list Document)
    (body : request_body) : served Analysis * list Document :=
  match body with
  | BodyUnreadable => (BadRequest, db)
  | BodyNotJson => (Unprocessable, db)
  | BodyJson value =>
      match validate_AnalyzeRequest value with
      | None => (Unprocessable, db)
      | Some request =>
          let (answer, db') := analyze_github_profile w db request in
          (Handled answer, db')
      end
  end.

(** [find({}, {"_id": 0}).sort("timestamp", -1)]: the documents by
    decreasing [timestamp], strings being compared character by
    character.  Documents with equal timestamps keep their order of
    insertion here; MongoDB promises no order between them, and no
    statement below depends on it. *)
Fixpoint insert_desc (doc : Document) (sorted : list Document)
  : list Document :=
  match sorted with
  | [] => [doc]
  | doc' :: rest =>
      if String.leb (timestamp doc') (timestamp doc)
      then doc :: sorted
      else doc' :: insert_desc doc rest
  end.

Definition sort_desc (docs : list Document) : list Document :=
  fold_right insert_desc [] docs.

(** Lines 353-355. *)
Definition load (doc : Document) : result Analysis :=
  t <- fromisoformat (timestamp doc) ;;
  Ok (with_timestamp doc t).

Fixpoint load_all (docs : list Document) : result (list Analysis) :=
  match docs with
  | [] => Ok []
  | doc :: docs' =>
      a <- load doc ;;
      rest <- load_all docs' ;;
      Ok (a :: rest)
  end.

(** GET /api/analyses. *)
Definition get_recent_analyses (db : list Document)
  : response (list Analysis) :=
  match load_all (firstn 10 (sort_desc db)) with
  | Ok analyses => Http200 analyses
  | Raise _ => HttpError 500 "Failed to fetch analyses"
  end.

(** ** The states of the collection *)

(** The clock of a request: [datetime.now(timezone.utc)] is a valid
    [datetime] whose offset is zero. *)
Definition utc_clock (w : World) : Prop :=
  valid (utcnow w) = true /\ utcoffset (utcnow w) = Some 0.

(** The collection starts empty and changes only through
    POST /api/analyze. *)
Inductive reachable : list Document -> Prop :=
| reachable_empty : reachable []
| reachable_analyze (w : World) (db : list Document)
    (request : AnalyzeRequest) :
    reachable db -> utc_clock w ->
    reachable (snd (analyze_github_profile w db request)).

End Server.

End Model.
Import Model.

(* ================================================================== *)
(** * Vocabulary of the statements *)

Module Spec.

Import PyStr.

(** [first_cut sep s b a]: [sep] occurs in [s] between [b] and [a], and
    it does not occur further to the left. *)
Definition first_cut (sep s b a : string) : Prop :=
  s = b +++ sep +++ a
  /\ forall b' a', s = b' +++ sep +++ a' ->
     (String.length b <= String.length b')%nat.

(** [upto sep s b]: [b] is [s] up to its first [sep], all of [s] when
    [sep] does not occur in it. *)
Definition upto (sep s b : string) : Prop :=
  (exists a, first_cut sep s b a) \/ (contains sep s = false /\ b = s).

(** Every character of [s] is in [p]. *)
Fixpoint all_in (p : ascii -> bool) (s : string) : bool :=
  match s with
  | EmptyString => true
  | String c s' => p c && all_in p s'
  end.

(** [s] is empty or ends with a character outside [p]. *)
Fixpoint clean_last (p : ascii -> bool) (s : string) : Prop :=
  match s with
  | EmptyString => True
  | String c EmptyString => p c = false
  | String _ s' => clean_last p s'
  end.

(** [s] is empty or starts with a character outside [p]. *)
Definition clean_head (p : ascii -> bool) (s : string) : Prop :=
  match s with
  | EmptyString => True
  | String c _ => p c = false
  end.

(** [t] is [s] without the characters of [p] that surround it. *)
Definition trimmed (p : ascii -> bool) (s t : string) : Prop :=
  exists l r,
    s = l +++ t +++ r
    /\ all_in p l = true /\ all_in p r = true
    /\ clean_head p t /\ clean_last p t.

(** The numbers that a list of values counts as, if all of them are
    numbers. *)
Fixpoint ints_of (vs : list json) : option (list Z) :=
  match vs with
  | [] => Some []
  | v :: vs' =>
      match as_int v, ints_of vs' with
      | Some z, Some zs => Some (z :: zs)
      | _, _ => None
      end
  end.

(** The sum of a list of integers. *)
Definition total (zs : list Z) : Z := fold_right Z.add 0 zs.

(** A breakdown made of the six fields, with integer values. *)
Definition six_fields (a b c d e f : Z) : dict :=
  [ ("documentation", JInt a);
    ("code_structure", JInt b);
    ("activity_consistency", JInt c);
    ("repository_organization", JInt d);
    ("project_impact", JInt e);
    ("technical_depth", JInt f) ].

(** How many items of a list satisfy a test. *)
Definition count {A} (f : A -> bool) (l : list A) : Z :=
  Z.of_nat (List.length (List.filter f l)).

Definition stars_of (repo : dict) : json := get repo "stargazers_count" (JInt 0).
Definition forks_of (repo : dict) : json := get repo "forks_count" (JInt 0).

(** The repository has a primary language equal to [key]. *)
Definition has_language (key : json) (repo : dict) : bool :=
  truthy (get_none repo "language") && key_eqb (get_none repo "language") key.

Definition has_description (repo : dict) : bool :=
  truthy (get_none repo "description").

(** The README of the repository is fetched and is not empty. *)
Definition has_readme (w : World) (username : string) (repo : dict) : bool :=
  match lookup "name" repo with
  | Some name =>
      match get_readme w username name with
      | Some text => negb (String.eqb text "")
      | None => false
      end
  | None => false
  end.

(** What the loop over the top repositories needs of an entry: a name,
    and a language that is absent, falsy or hashable. *)
Definition scannable (repo : dict) : bool :=
  (negb (truthy (get_none repo "language"))
   || hashable (get_none repo "language"))
  && match lookup "name" repo with Some _ => true | None => false end.

Definition is_str (v : json) : bool :=
  match v with
  | JStr _ => true
  | _ => false
  end.

(** Every key of the language tally is a string. *)
(** [n] can be written as text: it has at most [max_str_digits]
    digits. *)
Definition writable (n : Z) : bool := digits n <=? max_str_digits.

(** The two totals of a summary can be written. *)
Definition totals_writable (github_data : Summary) : bool :=
  writable (total_stars (stats github_data))
  && writable (total_forks (stats github_data)).

Definition languages_are_strings (github_data : Summary) : bool :=
  forallb (fun entry => is_str (fst entry)) (languages (stats github_data)).

Definition is_HTTPException (e : exn) : bool :=
  match e with
  | HTTPException _ _ => true
  | _ => false
  end.

Definition present (d : dict) (k : string) : bool :=
  match lookup k d with
  | Some _ => true
  | None => false
  end.

Definition is_number (v : json) : bool :=
  match as_int v with
  | Some _ => true
  | None => false
  end.

Definition number_at (d : dict) (k : string) : bool :=
  match lookup k d with
  | Some v => is_number v
  | None => false
  end.

Definition strings_at (d : dict) (k : string) : bool :=
  match lookup k d with
  | Some (JList xs) =>
      match str_items xs with
      | Some _ => true
      | None => false
      end
  | _ => false
  end.

Definition field_names : list string :=
  [ "documentation"; "code_structure"; "activity_consistency";
    "repository_organization"; "project_impact"; "technical_depth" ].

(** The shape that the analyze handler expects of the scoring payload: an
    object whose [score_breakdown] is an object holding numbers only, the
    six fields among them, and whose [strengths], [weaknesses] and
    [recommendations] are lists of strings. *)
Definition accepted (payload : json) : bool :=
  match payload with
  | JDict d =>
      match lookup "score_breakdown" d with
      | Some (JDict breakdown) =>
          forallb is_number (values breakdown)
          && forallb (number_at breakdown) field_names
          && strings_at d "strengths"
          && strings_at d "weaknesses"
          && strings_at d "recommendations"
      | _ => false
      end
  | _ => false
  end.

(** The analyze handler from line 309 on, once the scoring payload is
    known. *)
Definition conclude (w : World) (db : list Document) (username : string)
    (github_data : Summary) (ai_analysis : json)
  : result (Analysis * list Document) :=
  ' (breakdown, overall_score) <- calculate_overall_score ai_analysis ;;
  analysis <- make_Analysis w username github_data ai_analysis breakdown
                overall_score ;;
  Ok (analysis, insert_one db (dump analysis)).

(** A computation that raises no [HTTPException]. *)
Definition raises_no_http {A} (m : result A) : Prop :=
  match m with
  | Ok _ => True
  | Raise e => is_HTTPException e = false
  end.

(** The breakdown of [_default_analysis]. *)
Definition default_scores : ScoreBreakdown :=
  {| documentation := 60; code_structure := 65; activity_consistency := 55;
     repository_organization := 60; project_impact := 50;
     technical_depth := 60 |}.

(** The timestamp of a record is a valid [datetime]; it is a valid UTC
    one. *)
Definition well_stamped (a : Analysis) : Prop := valid (timestamp a) = true.

Definition utc_stamped (a : Analysis) : Prop :=
  valid (timestamp a) = true /\ utcoffset (timestamp a) = Some 0.

(** The order of [sort("timestamp", -1)] on documents, and the order
    "not older than" on records. *)
Definition text_desc (x y : Document) : Prop :=
  String.leb (timestamp y) (timestamp x) = true.

Definition not_older (a b : Analysis) : Prop :=
  DateTime.leb (timestamp b) (timestamp a) = true.

(** Timestamps do not increase from the first record to the last. *)
Definition newest_first (records : list Analysis) : Prop :=
  StronglySorted not_older records.

End Spec.
Import Spec.

(* ================================================================== *)
(** * Sample environments *)

Module Samples.

Definition leap_day : datetime :=
  {| year := 2024; month := 2; day := 29; hour := 12; minute := 30;
     second := 15; microsecond := 250000; utcoffset := Some 0 |}.

Definition hello_world : dict :=
  [ ("name", JStr "hello-world");
    ("description", JStr "My first repository");
    ("language", JStr "Python");
    ("stargazers_count", JInt 3);
    ("forks_count", JInt 1) ].

(** A repository entry whose language is a number. *)
Definition odd_repo : dict := [ ("name", JStr "r"); ("language", JInt 5) ].

Definition octocat : dict := [ ("login", JStr "octocat"); ("followers", JInt 7) ].

(** GitHub knows the user and lists [repos]; the chat client answers
    [llm]. *)
Definition world (repos : list dict) (llm : llm_reply) : World :=
  {| http_get_user := fun _ => Reply 200 (Some octocat);
     http_get_repos := fun _ => Reply 200 (Some repos);
     http_get_readme := fun _ _ => Reply 200 "# hello";
     send_message := fun _ => llm;
     uuid4 := "3f2b8c1e-0000-4000-8000-000000000001";
     utcnow := leap_day |}.

(** GitHub does not know the user. *)
Definition world_404 : World :=
  {| http_get_user := fun _ => Reply 404 None;
     http_get_repos := fun _ => Reply 404 None;
     http_get_readme := fun _ _ => Reply 404 "";
     send_message := fun _ => LlmRaises;
     uuid4 := "3f2b8c1e-0000-4000-8000-000000000002";
     utcnow := leap_day |}.

(** A decoder that reads two texts only. *)
Definition loads_brackets (text : string) : option json :=
  if String.eqb text "[]" then Some (JList [])
  else if String.eqb text "{}" then Some (JDict [])
  else None.

Definition octocat_request : AnalyzeRequest :=
  {| github_url := "https://github.com/octocat" |}.

(** Twelve repositories: two more than the loop looks at. *)
Definition dozen : list dict := List.repeat hello_world 12.

(** The default breakdown with its first two fields exchanged. *)
Definition swapped_breakdown : dict :=
  [ ("code_structure", JInt 65);
    ("documentation", JInt 60);
    ("activity_consistency", JInt 55);
    ("repository_organization", JInt 60);
    ("project_impact", JInt 50);
    ("technical_depth", JInt 60) ].

Definition record : Analysis :=
  {| id := "3f2b8c1e-0000-4000-8000-000000000003";
     username := "octocat";
     overall_score := 58;
     score_breakdown := default_scores;
     strengths := ["Active GitHub presence"];
     weaknesses := ["Enhance project descriptions"];
     recommendations := ["Write detailed commit messages"];
     profile_data :=
       {| pd_name := JStr "octocat"; pd_bio := JStr "";
          pd_avatar_url := JStr ""; pd_public_repos := JInt 1;
          pd_followers := JInt 7; pd_total_stars := 3;
          pd_languages := [(JStr "Python", 1)] |};
     timestamp := leap_day |}.

End Samples.

(* ================================================================== *)
(** * The rest of the server *)

Module Rest.

Import PyStr.

(** GET /api/: the body of the answer. *)
Definition root : string := "GitWorth API - GitHub Portfolio Analyzer".

(** [os.environ.get('CORS_ORIGINS', '*').split(',')]: the origins given
    to the CORS middleware, from the setting of the environment ([None]
    when the variable is not set). *)
Definition allow_origins (cors_origins : option string) : list string :=
  split "," match cors_origins with
            | Some setting => setting
            | None => "*"
            end.

End Rest.
Import Rest.

(* ================================================================== *)
(** * Vocabulary of the further statements *)

Module Terms.

(** GitHub answers with a status of success. *)
Definition success (status_code : Z) : bool := between 200 status_code 299.

(** The request for the repositories fails: the client raises, or the
    status is not one of success. *)
Definition repos_unavailable (w : World) (username : string) : Prop :=
  http_get_repos w username = NoReply
  \/ exists status_code body,
       http_get_repos w username = Reply status_code body
       /\ success status_code = false.

(** The keys of a tally are pairwise different (for [==]). *)
Fixpoint distinct_keys (t : tally) : Prop :=
  match t with
  | [] => True
  | (k, _) :: t' =>
      (forall k' n, In (k', n) t' -> key_eqb k k' = false) /\ distinct_keys t'
  end.

(** The repository has a primary language. *)
Definition with_language (repo : dict) : bool :=
  truthy (get_none repo "language").

(** The invariant of the loop on its tally. *)
Record tally_ok (repos : list dict) (t : tally) (n : Z) : Prop := {
  tally_distinct : distinct_keys t;
  tally_positive : forall k m, In (k, m) t -> 1 <= m;
  tally_total : total (map snd t) = n;
  tally_from :
    forall k m, In (k, m) t ->
    truthy k = true /\ hashable k = true
    /\ exists repo, In repo repos /\ get_none repo "language" = k
}.

(** The line of the prompt for a repository: its name, and its
    description, star count and language, or their placeholders when the
    key is missing. *)
Definition line_of (repo : dict) : repo_line :=
  {| rl_name := get_none repo "name";
     rl_description := get repo "description" (JStr "No description");
     rl_stars := get repo "stargazers_count" (JInt 0);
     rl_language := get repo "language" (JStr "N/A") |}.

Definition named (repo : dict) : bool := present repo "name".

(** [t] is a contiguous part of [s]. *)
Definition part_of (t s : string) : Prop := exists l r, s = l +++ t +++ r.

(** Two summaries that differ by their README count at most. *)
Definition same_but_readme (g1 g2 : Summary) : Prop :=
  profile g1 = profile g2
  /\ repositories g1 = repositories g2
  /\ public_repos (stats g1) = public_repos (stats g2)
  /\ followers (stats g1) = followers (stats g2)
  /\ following (stats g1) = following (stats g2)
  /\ total_stars (stats g1) = total_stars (stats g2)
  /\ total_forks (stats g1) = total_forks (stats g2)
  /\ languages (stats g1) = languages (stats g2)
  /\ repos_with_description (stats g1) = repos_with_description (stats g2)
  /\ top_repos (stats g1) = top_repos (stats g2).

End Terms.
Import Terms.

(* ================================================================== *)
(** * More sample environments *)

Module Cases.

Import Samples.

(** GitHub cannot be reached for the profile. *)
Definition world_offline : World :=
  {| http_get_user := fun _ => NoReply;
     http_get_repos := fun _ => NoReply;
     http_get_readme := fun _ _ => NoReply;
     send_message := fun _ => LlmRaises;
     uuid4 := "3f2b8c1e-0000-4000-8000-000000000004";
     utcnow := leap_day |}.

(** The client refuses every URL, as it does for a username with a
    tab in it. *)
Definition world_bad_url : World :=
  {| http_get_user := fun _ => BadURL;
     http_get_repos := fun _ => BadURL;
     http_get_readme := fun _ _ => BadURL;
     send_message := fun _ => LlmRaises;
     uuid4 := "3f2b8c1e-0000-4000-8000-000000000006";
     utcnow := leap_day |}.

Definition tab_request : AnalyzeRequest :=
  {| github_url := "octo" +++ String (ascii_of_nat 9) "cat" |}.

(** GitHub knows the user; the listing of the repositories answers
    [repos_reply], the README requests [readme_reply]. *)
Definition world_with (repos_reply : http_reply (option (list dict)))
    (readme_reply : http_reply string) : World :=
  {| http_get_user := fun _ => Reply 200 (Some octocat);
     http_get_repos := fun _ => repos_reply;
     http_get_readme := fun _ _ => readme_reply;
     send_message := fun _ => LlmRaises;
     uuid4 := "3f2b8c1e-0000-4000-8000-000000000005";
     utcnow := leap_day |}.

(** A repository entry without a name, and one with a list as language. *)
Definition nameless : dict := [ ("language", JStr "Go") ].

Definition polyglot : dict :=
  [ ("name", JStr "mix"); ("language", JList [JStr "Go"; JStr "C"]) ].

(** A payload whose breakdown has two fields only. *)
Definition short_breakdown : dict := [ ("a", JInt 7); ("b", JInt 4) ].

(** The first second of 2025, and the sample record stamped with it. *)
Definition new_year : datetime :=
  {| year := 2025; month := 1; day := 1; hour := 0; minute := 0;
     second := 0; microsecond := 0; utcoffset := Some 0 |}.

Definition later_record : Analysis := with_timestamp record new_year.

(** The sample world when the clock shows second [s] of the minute of
    [leap_day]. *)
Definition world_at (s : Z) : World :=
  {| http_get_user := http_get_user (world [hello_world] LlmRaises);
     http_get_repos := http_get_repos (world [hello_world] LlmRaises);
     http_get_readme := http_get_readme (world [hello_world] LlmRaises);
     send_message := fun _ => LlmRaises;
     uuid4 := uuid4 (world [hello_world] LlmRaises);
     utcnow :=
       {| year := 2024; month := 2; day := 29; hour := 12; minute := 30;
          second := s; microsecond := 0; utcoffset := Some 0 |} |}.

(** The collection after one POST /api/analyze at each of the clocks,
    from the empty collection. *)
Definition posts (clocks : list Z) : list Document :=
  fold_left
    (fun db s =>
       snd (analyze_github_profile loads_brackets (world_at s) db
              octocat_request))
    clocks [].

Definition twelve_posts : list Document :=
  posts [0; 1; 2; 3; 4; 5; 6; 7; 8; 9; 10; 11].

(** A collection that this server did not write alone: the document of
    [record], and a document of the same day's evening whose text has a
    space where [isoformat()] puts a T ([fromisoformat] reads both). *)
Definition evening : Document :=
  with_timestamp (dump record) "2024-02-29 23:59:59+00:00".

Definition mixed_store : list Document := [dump record; evening].

End Cases.

(* ================================================================== *)
(** * Properties *)

(** ** Strings *)

Module PyStrFacts.

Import PyStr.

Example split_github :
  split "github.com/" "https://github.com/octocat" = ["https://"; "octocat"].
Proof. reflexivity. Qed.

Example split_scans_left_to_right : split "aa" "aaa" = [""; "a"].
Proof. reflexivity. Qed.

Example strip_slashes : strip_chars "/" "//a/b//" = "a/b".
Proof. reflexivity. Qed.

Lemma append_empty_r (s : string) : s +++ "" = s.
Proof. induction s; simpl; congruence. Qed.

Lemma append_assoc (a b c : string) : (a +++ b) +++ c = a +++ b +++ c.
Proof. induction a; simpl; congruence. Qed.

Lemma length_append (a b : string) :
  String.length (a +++ b) = (String.length a + String.length b)%nat.
Proof. induction a; simpl; congruence. Qed.

Lemma prefix_iff (sep s : string) :
  String.prefix sep s = true <-> exists t, s = sep +++ t.
Proof.
  revert s; induction sep as [|c sep IH]; intros s.
  - destruct s; simpl; split; eauto.
  - destruct s as [|c' s]; simpl.
    + split; [discriminate | intros [t Ht]; discriminate].
    + destruct (ascii_dec c c') as [->|Hne].
      * rewrite IH. split; intros [t Ht]; exists t; congruence.
      * split; [discriminate | intros [t Ht]; congruence].
Qed.

Lemma drop_append (sep t : string) : drop (String.length sep) (sep +++ t) = t.
Proof. induction sep; simpl; auto. Qed.

(** [cut] finds an occurrence... *)
Lemma cut_sound (sep s b a : string) :
  cut sep s = Some (b, a) -> s = b +++ sep +++ a.
Proof.
  revert b; induction s as [|c s IH]; intros b; cbn [cut].
  - destruct sep; cbn [String.prefix]; [|discriminate].
    intros [= <- <-]. reflexivity.
  - destruct (String.prefix sep (String c s)) eqn:Hp.
    + intros [= <- <-]. apply prefix_iff in Hp as [t Ht].
      rewrite Ht, drop_append. reflexivity.
    + destruct (cut sep s) as [[b0 a0]|] eqn:Hc; [|discriminate].
      intros [= <- <-]. cbn [String.append]. f_equal. apply IH. reflexivity.
Qed.

(** ... and the leftmost one. *)
Lemma cut_leftmost (sep s b a : string) :
  cut sep s = Some (b, a) ->
  forall b' a', s = b' +++ sep +++ a' ->
  (String.length b <= String.length b')%nat.
Proof.
  revert b; induction s as [|c s IH]; intros b; cbn [cut].
  - destruct (String.prefix sep ""); [|discriminate].
    intros [= <- <-] b' a' _. simpl. lia.
  - destruct (String.prefix sep (String c s)) eqn:Hp.
    + intros [= <- <-] b' a' _. simpl. lia.
    + destruct (cut sep s) as [[b0 a0]|] eqn:Hc; [|discriminate].
      intros [= <- <-] b' a' Hs. destruct b' as [|c' b'].
      * cbn [String.append] in Hs.
        assert (String.prefix sep (String c s) = true).
        { apply prefix_iff. eauto. }
        congruence.
      * cbn [String.append] in Hs. injection Hs as -> Hs. simpl.
        apply le_n_S. eapply IH; eauto.
Qed.

Lemma contains_cut (sep s : string) :
  contains sep s = match cut sep s with Some _ => true | None => false end.
Proof.
  induction s as [|c s IH]; cbn [contains cut].
  - destruct (String.prefix sep ""); reflexivity.
  - destruct (String.prefix sep (String c s)); cbn [orb]; [reflexivity|].
    rewrite IH. destruct (cut sep s) as [[? ?]|]; reflexivity.
Qed.

Lemma contains_append (sep b a : string) : contains sep (b +++ sep +++ a) = true.
Proof.
  induction b as [|c b IH]; cbn [String.append].
  - assert (H : String.prefix sep (sep +++ a) = true) by (apply prefix_iff; eauto).
    destruct (sep +++ a); cbn [contains]; rewrite H; reflexivity.
  - cbn [contains]. rewrite IH. apply orb_true_r.
Qed.

Lemma contains_iff (sep s : string) :
  contains sep s = true <-> exists b a, s = b +++ sep +++ a.
Proof.
  split.
  - rewrite contains_cut. destruct (cut sep s) as [[b a]|] eqn:Hc; [|discriminate].
    intros _. exists b, a. apply cut_sound, Hc.
  - intros (b & a & ->). apply contains_append.
Qed.

Lemma cut_shrinks (sep s b a : string) :
  sep <> "" -> cut sep s = Some (b, a) ->
  (String.length a < String.length s)%nat.
Proof.
  intros Hsep Hc. apply cut_sound in Hc. subst s.
  rewrite !length_append. destruct sep; [congruence|]. simpl. lia.
Qed.

(** The fuel of [split] is sufficient: more of it changes nothing. *)
Lemma split_fuel_enough (sep : string) :
  sep <> "" ->
  forall n s, (String.length s <= n)%nat -> split_fuel n sep s = split sep s.
Proof.
  intros Hsep. unfold split.
  assert (H : forall n m s, (String.length s <= n)%nat ->
              (String.length s <= m)%nat ->
              split_fuel n sep s = split_fuel m sep s).
  { induction n as [|n IH]; intros m s Hn Hm.
    - destruct s; [|simpl in Hn; lia].
      destruct m; cbn [split_fuel]; [reflexivity|].
      destruct (cut sep "") as [[b a]|] eqn:Hc; [|reflexivity].
      apply cut_shrinks in Hc; [simpl in Hc; lia | assumption].
    - destruct m as [|m]; cbn [split_fuel].
      + destruct s; [|simpl in Hm; lia].
        destruct (cut sep "") as [[b a]|] eqn:Hc; [|reflexivity].
        apply cut_shrinks in Hc; [simpl in Hc; lia | assumption].
      + destruct (cut sep s) as [[b a]|] eqn:Hc; [|reflexivity].
        f_equal. pose proof (cut_shrinks _ _ _ _ Hsep Hc).
        apply IH; lia. }
  intros n s Hn. apply H; [assumption | lia].
Qed.

(** The equation of [split]. *)
Lemma split_eq (sep s : string) :
  sep <> "" ->
  split sep s = match cut sep s with
                | None => [s]
                | Some (b, a) => b :: split sep a
                end.
Proof.
  intros Hsep. unfold split at 1.
  destruct (String.length s) as [|n] eqn:Hlen.
  - cbn [split_fuel]. destruct (cut sep s) as [[b a]|] eqn:Hc; [|reflexivity].
    apply cut_shrinks in Hc; [lia | assumption].
  - cbn [split_fuel]. destruct (cut sep s) as [[b a]|] eqn:Hc; [|reflexivity].
    f_equal. apply split_fuel_enough; [assumption|].
    apply cut_shrinks in Hc; [lia | assumption].
Qed.

Lemma cut_first_cut (sep s b a : string) :
  cut sep s = Some (b, a) -> first_cut sep s b a.
Proof.
  intros Hc. split; [apply cut_sound, Hc | apply (cut_leftmost _ _ _ _ Hc)].
Qed.

Lemma cut_upto (sep s : string) :
  upto sep s (match cut sep s with Some (b, _) => b | None => s end).
Proof.
  destruct (cut sep s) as [[b a]|] eqn:Hc.
  - left. exists a. apply cut_first_cut, Hc.
  - right. rewrite contains_cut, Hc. auto.
Qed.

(** The text up to the first separator holds no separator. *)
Lemma upto_clean (sep s b : string) :
  sep <> "" -> upto sep s b -> contains sep b = false.
Proof.
  intros Hsep [[a [Hs Hmin]]|[Hc ->]]; [|assumption].
  destruct (contains sep b) eqn:Hb; [|reflexivity].
  apply contains_iff in Hb as (x & y & ->).
  specialize (Hmin x (y +++ sep +++ a)).
  rewrite !append_assoc in Hs. specialize (Hmin Hs).
  rewrite !length_append in Hmin. destruct sep; [congruence|].
  simpl in Hmin. lia.
Qed.

Lemma upto_self (sep s b : string) :
  contains sep s = false -> upto sep s b -> b = s.
Proof.
  intros Hc [[a [Hs _]]|[_ ->]]; [|reflexivity].
  rewrite Hs, contains_append in Hc. discriminate.
Qed.

(** [s.split(sep)[0]]. *)
Lemma split_index_0 (sep s : string) :
  sep <> "" -> exists b, index (split sep s) 0 = Ok b /\ upto sep s b.
Proof.
  intros Hsep. rewrite split_eq by assumption.
  pose proof (cut_upto sep s) as Hu.
  destruct (cut sep s) as [[b a]|]; eexists; split; try reflexivity; exact Hu.
Qed.

(** [s.split(sep)[1]] when [sep in s]. *)
Lemma split_index_1 (sep s : string) :
  sep <> "" -> contains sep s = true ->
  exists b a piece,
    first_cut sep s b a /\ index (split sep s) 1 = Ok piece /\ upto sep a piece.
Proof.
  intros Hsep Hc. rewrite contains_cut in Hc.
  rewrite split_eq by assumption.
  destruct (cut sep s) as [[b a]|] eqn:Hcut; [|discriminate].
  destruct (split_index_0 sep a Hsep) as (piece & Hp & Hu).
  exists b, a, piece. split; [apply cut_first_cut, Hcut|]. split; [|exact Hu].
  unfold index in *. cbn [nth_error]. exact Hp.
Qed.

Lemma last_cons {A} (l : list A) (x d : A) : last (x :: l) d = last l x.
Proof.
  revert x d; induction l as [|y l IH]; intros x d; [reflexivity|].
  change (last (x :: y :: l) d) with (last (y :: l) d).
  rewrite IH. symmetry. apply IH.
Qed.

(** [s.split(sep)[-1]]: what follows the last separator. *)
Lemma split_index_last (sep : string) :
  sep <> "" ->
  forall s, exists t,
    index_last (split sep s) = Ok t
    /\ contains sep t = false
    /\ (contains sep s = false -> t = s)
    /\ (contains sep s = true -> exists p, s = p +++ sep +++ t).
Proof.
  intros Hsep s.
  remember (String.length s) as n eqn:Hn. revert s Hn.
  induction n as [n IH] using lt_wf_ind. intros s Hn.
  rewrite split_eq by assumption. rewrite contains_cut.
  destruct (cut sep s) as [[b a]|] eqn:Hc.
  - pose proof (cut_shrinks _ _ _ _ Hsep Hc) as Hlt.
    destruct (IH (String.length a) ltac:(lia) a eq_refl)
      as (t & Ht & Hclean & Hnone & Hsome).
    exists t. apply cut_sound in Hc.
    split; [|split; [exact Hclean|split; [discriminate|]]].
    + unfold index_last in *.
      destruct (split sep a) as [|x l]; [discriminate|].
      injection Ht as <-. rewrite last_cons. reflexivity.
    + intros _. destruct (contains sep a) eqn:Ha.
      * destruct (Hsome eq_refl) as [p Hp].
        exists (b +++ sep +++ p). rewrite Hc, Hp at 1.
        rewrite !append_assoc. reflexivity.
      * exists b. rewrite (Hnone eq_refl). exact Hc.
  - exists s. split; [reflexivity|].
    split; [rewrite contains_cut, Hc; reflexivity|].
    split; [reflexivity | discriminate].
Qed.

(** *** [strip] *)

Lemma lstrip_clean_head p s : clean_head p (lstrip p s).
Proof.
  induction s as [|c s IH]; cbn [lstrip]; [exact I|].
  destruct (p c) eqn:Hc; [exact IH | exact Hc].
Qed.

Lemma lstrip_id p s : clean_head p s -> lstrip p s = s.
Proof. destruct s as [|c s]; cbn; [reflexivity|]. intros ->. reflexivity. Qed.

Lemma rstrip_clean_head p s : clean_head p s -> clean_head p (rstrip p s).
Proof.
  destruct s as [|c s]; cbn [rstrip clean_head]; [auto|]. intros Hc.
  destruct (rstrip p s); [rewrite Hc|]; exact Hc.
Qed.

Lemma rstrip_idem p s : rstrip p (rstrip p s) = rstrip p s.
Proof.
  induction s as [|c s IH]; cbn [rstrip]; [reflexivity|].
  destruct (rstrip p s) as [|c2 r2] eqn:Hr.
  - destruct (p c) eqn:Hc; cbn [rstrip]; [reflexivity | rewrite Hc; reflexivity].
  - change (rstrip p (String c (String c2 r2)))
      with (match rstrip p (String c2 r2) with
            | EmptyString => if p c then EmptyString else String c EmptyString
            | r => String c r
            end).
    rewrite IH. reflexivity.
Qed.

Lemma strip_idem p s : strip p (strip p s) = strip p s.
Proof.
  unfold strip.
  rewrite (lstrip_id p (rstrip p (lstrip p s))).
  - apply rstrip_idem.
  - apply rstrip_clean_head, lstrip_clean_head.
Qed.

Lemma strip_ws_idem s : strip_ws (strip_ws s) = strip_ws s.
Proof. apply strip_idem. Qed.

Lemma lstrip_spec p s : exists l, s = l +++ lstrip p s /\ all_in p l = true.
Proof.
  induction s as [|c s (l & Hs & Hl)]; cbn [lstrip].
  - exists "". auto.
  - destruct (p c) eqn:Hc.
    + exists (String c l). cbn [String.append all_in]. rewrite Hc, Hl, <- Hs.
      auto.
    + exists "". auto.
Qed.

Lemma rstrip_spec p s :
  exists r,
    s = rstrip p s +++ r /\ all_in p r = true /\ clean_last p (rstrip p s).
Proof.
  induction s as [|c s (r & Hs & Hr & Hlast)]; cbn [rstrip].
  - exists "". cbn. auto.
  - destruct (rstrip p s) as [|c2 r2] eqn:Hrs.
    + cbn [String.append] in Hs. subst s. destruct (p c) eqn:Hc.
      * exists (String c r). cbn [String.append all_in clean_last].
        rewrite Hc, Hr. auto.
      * exists r. cbn [String.append clean_last]. auto.
    + exists r. cbn [String.append]. rewrite Hs at 1.
      cbn [String.append]. auto.
Qed.

(** [strip p s] is [s] without its longest prefix and suffix made of
    characters of [p]. *)
Lemma strip_spec p s : trimmed p s (strip p s).
Proof.
  unfold trimmed.
  destruct (lstrip_spec p s) as (l & Hs & Hl).
  destruct (rstrip_spec p (lstrip p s)) as (r & Hm & Hr & Hlast).
  exists l, r. unfold strip. rewrite <- Hm.
  repeat split; try assumption.
  apply rstrip_clean_head, lstrip_clean_head.
Qed.


End PyStrFacts.

(* ================================================================== *)
(** ** The username of a request *)

Section Username.

Import PyStr PyStrFacts.

Let host : string := "github.com/".

Lemma host_not_empty : host <> "".
Proof. discriminate. Qed.

(** [derive_username] always has a result. *)
Lemma derive_username_total (github_url : string) :
  exists username, derive_username github_url = Ok username.
Proof.
  unfold derive_username.
  destruct (contains "github.com/" (strip_ws github_url)); [|eauto].
  destruct (split_index_last host host_not_empty (strip_ws github_url))
    as (t & Ht & _).
  fold host. rewrite Ht. cbn. eauto.
Qed.

(** C4: the username of a request is its [github_url] stripped of
    surrounding whitespace when that does not contain "github.com/";
    when it does, the username is the segment that follows the last
    "github.com/" (the last piece of the split at that substring),
    trimmed of the slashes at its two ends.  "https://github.com/octocat"
    and "octocat" both give "octocat". *)
Theorem derive_username_spec (github_url : string) :
  let stripped := strip_ws github_url in
  trimmed isspace github_url stripped
  /\ (contains "github.com/" stripped = false ->
      derive_username github_url = Ok stripped)
  /\ (contains "github.com/" stripped = true ->
      exists before segment username,
        stripped = before +++ "github.com/" +++ segment
        /\ contains "github.com/" segment = false
        /\ trimmed (in_chars "/") segment username
        /\ derive_username github_url = Ok username)
  /\ derive_username "https://github.com/octocat" = Ok "octocat"
  /\ derive_username "octocat" = Ok "octocat".
Proof.
  cbv zeta. unfold derive_username.
  split; [apply strip_spec|].
  split; [intros ->; reflexivity|].
  split; [|split; reflexivity].
  intros Hc. rewrite Hc.
  destruct (split_index_last host host_not_empty (strip_ws github_url))
    as (t & Ht & Hclean & _ & Hsome).
  destruct (Hsome Hc) as [p Hp].
  exists p, t, (strip_chars "/" t). fold host. rewrite Ht. cbn [bind].
  repeat split; try assumption. apply strip_spec.
Qed.

Example derive_username_trims :
  derive_username "  https://github.com/octocat/ " = Ok "octocat".
Proof. reflexivity. Qed.

Example derive_username_keeps_inner_slashes :
  derive_username "https://github.com/octocat/hello-world"
  = Ok "octocat/hello-world".
Proof. reflexivity. Qed.

Example derive_username_last_host :
  derive_username "github.com/github.com/octocat" = Ok "octocat".
Proof. reflexivity. Qed.

End Username.

(* ================================================================== *)
(** ** The text given to the JSON parser *)

Section Fences.

Import PyStr PyStrFacts.

Lemma fence_json_not_empty : fence_json <> "".
Proof. discriminate. Qed.

Lemma fence_not_empty : fence <> "".
Proof. discriminate. Qed.

Lemma fence_json_has_fence (s : string) :
  contains fence_json s = true -> contains fence s = true.
Proof.
  intros H. apply contains_iff in H as (b & a & ->).
  apply contains_iff. exists b, ("json" +++ a). reflexivity.
Qed.

(** The two branches of [fenced_text] that subscript a split. *)
Lemma fenced_pick (sep s : string) :
  sep <> "" -> contains sep s = true ->
  exists before rest piece body,
    first_cut sep s before rest
    /\ upto sep rest piece
    /\ upto fence piece body
    /\ (body <- index (split sep s) 1 ;; index (split fence body) 0) = Ok body.
Proof.
  intros Hsep Hc.
  destruct (split_index_1 _ _ Hsep Hc) as (b & a & piece & Hcut & Hi & Hpiece).
  destruct (split_index_0 fence piece fence_not_empty) as (body & Hb & Hbody).
  exists b, a, piece, body. rewrite Hi. cbn [bind]. auto.
Qed.

(** [json_text] always has a result: the two subscripts are in range. *)
Lemma json_text_total (response : string) :
  exists text, json_text response = Ok text.
Proof.
  unfold json_text, fenced_text.
  destruct (contains fence_json (strip_ws response)) eqn:Hj.
  - destruct (fenced_pick _ _ fence_json_not_empty Hj)
      as (b & a & piece & body & _ & _ & _ & ->).
    cbn. eauto.
  - destruct (contains fence (strip_ws response)) eqn:Hf; [|cbn; eauto].
    destruct (fenced_pick _ _ fence_not_empty Hf)
      as (b & a & piece & body & _ & _ & _ & ->).
    cbn. eauto.
Qed.

Variable json_loads : string -> option json.

(** C5, as amended.  With [text] the stripped response:
    - if [text] contains a [fence_json] marker, the parser gets the piece
      between the first [fence_json] marker and the following [fence_json]
      marker (the end of the text when there is none), cut at its first
      [fence] marker when it has one; when there is no second [fence_json]
      marker this is the content between the first [fence_json] marker
      and the next [fence] marker;
    - otherwise, if [text] contains a [fence] marker, the parser gets the
      content between the first [fence] marker and the next one (the end
      of the text when the block is not closed);
    - otherwise the parser gets [text].
    In the first two cases the content is stripped of surrounding
    whitespace as well.  [generate_analysis] returns what [json.loads]
    reads in that text (any JSON value), and its default when
    [json.loads] fails. *)
Theorem json_text_spec (response : string) :
  let text := strip_ws response in
  (contains fence_json text = true ->
   exists before rest piece body,
     first_cut fence_json text before rest
     /\ upto fence_json rest piece
     /\ upto fence piece body
     /\ (contains fence_json rest = false -> upto fence rest body)
     /\ json_text response = Ok (strip_ws body))
  /\ (contains fence_json text = false -> contains fence text = true ->
      exists before rest body,
        first_cut fence text before rest
        /\ upto fence rest body
        /\ json_text response = Ok (strip_ws body))
  /\ (contains fence text = false -> json_text response = Ok text)
  /\ (forall w github_data prompt,
        build_prompt github_data = Ok prompt ->
        send_message w prompt = LlmText response ->
        exists parsed,
          json_text response = Ok parsed
          /\ generate_analysis json_loads w github_data
             = Ok (match json_loads parsed with
                   | Some analysis => analysis
                   | None => default_analysis (stats github_data)
                   end)).
Proof.
  cbv zeta. unfold json_text, fenced_text.
  split; [|split; [|split]].
  - intros Hj. rewrite Hj.
    destruct (fenced_pick _ _ fence_json_not_empty Hj)
      as (b & a & piece & body & Hcut & Hpiece & Hbody & ->).
    exists b, a, piece, body. repeat split; try assumption; try apply Hcut.
    intros Hnone. rewrite (upto_self _ _ _ Hnone Hpiece) in Hbody. exact Hbody.
  - intros Hj Hf. rewrite Hj, Hf.
    destruct (fenced_pick _ _ fence_not_empty Hf)
      as (b & a & piece & body & Hcut & Hpiece & Hbody & ->).
    exists b, a, body. split; [exact Hcut|].
    pose proof (upto_clean _ _ _ fence_not_empty Hpiece) as Hclean.
    rewrite (upto_self _ _ _ Hclean Hbody). split; [exact Hpiece | reflexivity].
  - intros Hf.
    destruct (contains fence_json (strip_ws response)) eqn:Hj.
    + apply fence_json_has_fence in Hj. congruence.
    + rewrite Hf. cbn. rewrite strip_ws_idem. reflexivity.
  - intros w github_data prompt Hp Hsend.
    destruct (json_text_total response) as [parsed Hparsed].
    exists parsed. split; [exact Hparsed|].
    unfold generate_analysis. rewrite Hp. cbn [bind]. rewrite Hsend, Hparsed.
    cbn [bind]. unfold loads. destruct (json_loads parsed); reflexivity.
Qed.

Example json_text_fenced :
  json_text "Here it is: ```json
{}
``` Done." = Ok "{}".
Proof. reflexivity. Qed.

Example json_text_bare_fence : json_text "``` [] ``` and ```json" = Ok "".
Proof. reflexivity. Qed.

Example json_text_unclosed : json_text "```json [] " = Ok "[]".
Proof. reflexivity. Qed.

Example json_text_raw : json_text "  {}  " = Ok "{}".
Proof. reflexivity. Qed.

End Fences.

(** The text between the first [fence_json] marker and the next [fence]
    marker is not always what the parser gets: in the response below the
    next [fence] overlaps the second [fence_json] marker; the text between
    the two is "{}", and the parser is handed "{}`". *)
Lemma json_fence_overlap :
  PyStr.contains fence_json (PyStr.strip_ws "```json{}````json") = true
  /\ first_cut fence_json (PyStr.strip_ws "```json{}````json") "" "{}````json"
  /\ upto fence "{}````json" "{}"
  /\ json_text "```json{}````json" = Ok "{}`"
  /\ json_text "```json{}````json" <> Ok (PyStr.strip_ws "{}").
Proof.
  split; [reflexivity|].
  split; [exact (PyStrFacts.cut_first_cut fence_json "```json{}````json" ""
                   "{}````json" eq_refl)|].
  split; [exact (PyStrFacts.cut_upto fence "{}````json")|].
  split; [reflexivity | discriminate].
Qed.

(* ================================================================== *)
(** ** Dictionaries and sums *)

Module JsonFacts.

Lemma sum_from_ints (vs : list json) :
  forall acc,
    sum_from acc vs = match ints_of vs with
                      | Some zs => Ok (acc + total zs)
                      | None => Raise TypeError
                      end.
Proof.
  induction vs as [|v vs IH]; intros acc; cbn [sum_from ints_of total fold_right].
  - f_equal. lia.
  - destruct (as_int v) as [z|]; [|reflexivity].
    rewrite IH. destruct (ints_of vs) as [zs|]; [|reflexivity].
    cbn [total fold_right]. f_equal. fold (total zs). lia.
Qed.

(** [sum] adds up the numbers, and raises as soon as one item is not a
    number. *)
Lemma sum_ints (vs : list json) :
  sum vs = match ints_of vs with
           | Some zs => Ok (total zs)
           | None => Raise TypeError
           end.
Proof. unfold sum. rewrite sum_from_ints. reflexivity. Qed.

Lemma ints_of_JInt (zs : list Z) : ints_of (map JInt zs) = Some zs.
Proof. induction zs as [|z zs IH]; cbn; [|rewrite IH]; reflexivity. Qed.

Lemma total_perm (xs ys : list Z) : Permutation xs ys -> total xs = total ys.
Proof. unfold total. induction 1; cbn in *; lia. Qed.

Lemma ints_of_perm (xs ys : list json) (zs : list Z) :
  Permutation xs ys -> ints_of ys = Some zs ->
  exists zs', ints_of xs = Some zs' /\ Permutation zs' zs.
Proof.
  intros HP; revert zs. induction HP; intros zs; cbn [ints_of].
  - intros [= <-]. eauto.
  - destruct (as_int x) as [z|]; [|discriminate].
    destruct (ints_of l') as [zl|] eqn:Hl; [|discriminate].
    intros [= <-]. destruct (IHHP _ eq_refl) as (zs' & -> & HP').
    eexists; split; [reflexivity|]. constructor. exact HP'.
  - destruct (as_int x) as [zx|]; destruct (as_int y) as [zy|]; try discriminate;
      destruct (ints_of l) as [zl|]; try discriminate.
    intros [= <-]. eexists; split; [reflexivity|]. constructor.
  - intros H. destruct (IHHP2 _ H) as (z2 & H2 & P2).
    destruct (IHHP1 _ H2) as (z1 & H1 & P1).
    exists z1. split; [exact H1|]. eapply Permutation_trans; eassumption.
Qed.

Lemma lookup_In (d : dict) (k : string) (v : json) :
  NoDup (keys d) -> (lookup k d = Some v <-> In (k, v) d).
Proof.
  induction d as [|[k' v'] d IH]; cbn [lookup keys map fst In].
  - intros _. split; [discriminate | contradiction].
  - intros Hnd. inversion Hnd as [|? ? Hnotin Hnd']; subst.
    destruct (String.eqb_spec k' k) as [->|Hne].
    + split.
      * intros [= ->]. left. reflexivity.
      * intros [[= ->]|Hin]; [reflexivity|].
        exfalso. apply Hnotin. apply (in_map fst) in Hin. exact Hin.
    + rewrite (IH Hnd'). split; [auto|].
      intros [[= -> ->]|Hin]; [congruence | exact Hin].
Qed.

(** The order of the entries of a dict does not matter to [[k]]. *)
Lemma lookup_perm (d1 d2 : dict) (k : string) :
  NoDup (keys d2) -> Permutation d1 d2 -> lookup k d1 = lookup k d2.
Proof.
  intros Hnd2 HP.
  assert (Hnd1 : NoDup (keys d1)).
  { eapply Permutation_NoDup; [|exact Hnd2].
    apply Permutation_map, Permutation_sym, HP. }
  destruct (lookup k d1) as [v|] eqn:H1.
  - symmetry. apply lookup_In; [assumption|].
    eapply Permutation_in; [exact HP|]. apply lookup_In; assumption.
  - destruct (lookup k d2) as [v|] eqn:H2; [|reflexivity].
    apply lookup_In in H2; [|assumption].
    eapply Permutation_in in H2; [|apply Permutation_sym, HP].
    apply lookup_In in H2; [congruence | assumption].
Qed.

Lemma str_items_JStr (ss : list string) : str_items (map JStr ss) = Some ss.
Proof. induction ss as [|x ss IH]; cbn; [|rewrite IH]; reflexivity. Qed.

End JsonFacts.

(* ================================================================== *)
(** ** The overall score *)

Section OverallScore.

Import JsonFacts.

Lemma six_fields_keys (a b c d e f : Z) : NoDup (keys (six_fields a b c d e f)).
Proof.
  cbn. repeat (constructor; [cbn; intuition discriminate|]). constructor.
Qed.

Lemma six_fields_lookup (breakdown : dict) (a b c d e f : Z) (k : string) :
  Permutation breakdown (six_fields a b c d e f) ->
  lookup k breakdown = lookup k (six_fields a b c d e f).
Proof. apply lookup_perm, six_fields_keys. Qed.

(** Lines 310-311 on a breakdown made of the six fields, in any order. *)
Lemma calculate_six_fields (payload breakdown : dict) (a b c d e f : Z) :
  lookup "score_breakdown" payload = Some (JDict breakdown) ->
  Permutation breakdown (six_fields a b c d e f) ->
  calculate_overall_score (JDict payload)
  = Ok (JDict breakdown, (a + b + c + d + e + f) / 6).
Proof.
  intros Hsb HP. unfold calculate_overall_score, subscript, item.
  rewrite Hsb. cbn [bind values_of len].
  rewrite sum_ints.
  assert (HPv : Permutation (values breakdown) (values (six_fields a b c d e f)))
    by (apply Permutation_map, HP).
  destruct (ints_of_perm _ _ [a; b; c; d; e; f] HPv eq_refl) as (zs & -> & HPz).
  rewrite (total_perm _ _ HPz). cbn [bind].
  rewrite (Permutation_length HP). cbn. do 3 f_equal. lia.
Qed.

(** [ScoreBreakdown] out of the six fields. *)
Lemma make_ScoreBreakdown_six_fields (breakdown : dict) (a b c d e f : Z) :
  Permutation breakdown (six_fields a b c d e f) ->
  make_ScoreBreakdown (JDict breakdown)
  = Ok {| documentation := a; code_structure := b;
          activity_consistency := c; repository_organization := d;
          project_impact := e; technical_depth := f |}.
Proof.
  intros HP. unfold make_ScoreBreakdown, int_field.
  rewrite !(six_fields_lookup _ _ _ _ _ _ _ _ HP). reflexivity.
Qed.

(** C1: when the [score_breakdown] of the scoring payload consists of the
    six fields with integer values (in any order), the overall score that
    the analyze handler computes is the floor of their sum divided by 6,
    and this is the [overall_score] of the record it answers with; the
    breakdown 60, 65, 55, 60, 50, 60 (sum 350) gives 58. *)
Theorem overall_score_floor_mean
    (payload breakdown : dict) (a b c d e f : Z) :
  lookup "score_breakdown" payload = Some (JDict breakdown) ->
  Permutation breakdown (six_fields a b c d e f) ->
  calculate_overall_score (JDict payload)
  = Ok (JDict breakdown, (a + b + c + d + e + f) / 6)
  /\ (forall json_loads w db request username github_data ss ws rs,
        derive_username (github_url request) = Ok username ->
        analyze_profile w username = Ok github_data ->
        generate_analysis json_loads w github_data = Ok (JDict payload) ->
        lookup "strengths" payload = Some (JList (map JStr ss)) ->
        lookup "weaknesses" payload = Some (JList (map JStr ws)) ->
        lookup "recommendations" payload = Some (JList (map JStr rs)) ->
        exists analysis,
          analyze_github_profile json_loads w db request
          = (Http200 analysis, insert_one db (dump analysis))
          /\ overall_score analysis = (a + b + c + d + e + f) / 6
          /\ score_breakdown analysis
             = {| documentation := a; code_structure := b;
                  activity_consistency := c; repository_organization := d;
                  project_impact := e; technical_depth := f |})
  /\ calculate_overall_score
       (JDict [("score_breakdown", JDict (six_fields 60 65 55 60 50 60))])
     = Ok (JDict (six_fields 60 65 55 60 50 60), 58).
Proof.
  intros Hsb HP. split; [apply calculate_six_fields; assumption|].
  split; [|reflexivity].
  intros json_loads w db request username github_data ss ws rs
    Hu Hgd Hai Hss Hws Hrs.
  unfold analyze_github_profile, analyze_try.
  rewrite Hu. cbn [bind]. rewrite Hgd. cbn [bind]. rewrite Hai. cbn [bind].
  rewrite (calculate_six_fields _ _ _ _ _ _ _ _ Hsb HP). cbn [bind].
  unfold make_Analysis.
  rewrite (make_ScoreBreakdown_six_fields _ _ _ _ _ _ _ HP). cbn [bind].
  unfold subscript, item. rewrite Hss, Hws, Hrs. cbn [bind str_list_field].
  rewrite !str_items_JStr. cbn [bind].
  eexists. split; [reflexivity|]. split; reflexivity.
Qed.

(** With a seventh number in the breakdown the sum is divided by 7. *)
Example overall_score_seven_fields :
  calculate_overall_score
    (JDict [("score_breakdown",
             JDict (six_fields 60 65 55 60 50 60 ++ [("bonus", JInt 100)]))])
  = Ok (JDict (six_fields 60 65 55 60 50 60 ++ [("bonus", JInt 100)]), 64).
Proof. reflexivity. Qed.

(** Floor division rounds towards minus infinity. *)
Example overall_score_negative :
  calculate_overall_score
    (JDict [("score_breakdown", JDict (six_fields (-1) 0 0 0 0 0))])
  = Ok (JDict (six_fields (-1) 0 0 0 0 0), -1).
Proof. reflexivity. Qed.

End OverallScore.

(* ================================================================== *)
(** ** The aggregate of a profile *)

Module AggregateFacts.

Import JsonFacts.

Lemma count_nil {A} (f : A -> bool) : count f [] = 0.
Proof. reflexivity. Qed.

Lemma count_cons {A} (f : A -> bool) (x : A) (l : list A) :
  count f (x :: l) = (if f x then 1 else 0) + count f l.
Proof.
  unfold count. cbn [filter]. destruct (f x); cbn [List.length]; lia.
Qed.

Lemma key_eqb_sym (a b : json) : key_eqb a b = key_eqb b a.
Proof.
  destruct a, b; cbn; try reflexivity;
    try apply Z.eqb_sym; try apply String.eqb_sym.
Qed.

Lemma key_eqb_trans (a b c : json) :
  key_eqb a b = true -> key_eqb b c = true -> key_eqb a c = true.
Proof.
  destruct a, b, c; cbn; try discriminate; try reflexivity;
    rewrite ?Z.eqb_eq, ?String.eqb_eq; congruence.
Qed.

(** [t[l] = t.get(l, 0) + 1] adds one to the count of [l] and leaves the
    other counts alone. *)
Lemma tally_get_incr (l k : json) (t : tally) :
  tally_get k (tally_incr l t)
  = tally_get k t + (if key_eqb l k then 1 else 0).
Proof.
  induction t as [|[k' n] t IH]; cbn [tally_incr tally_get].
  - destruct (key_eqb l k); reflexivity.
  - destruct (key_eqb k' l) eqn:Hl; cbn [tally_get].
    + destruct (key_eqb k' k) eqn:Hk.
      * rewrite key_eqb_sym in Hl. rewrite (key_eqb_trans _ _ _ Hl Hk). reflexivity.
      * destruct (key_eqb l k) eqn:Hlk; [|lia].
        rewrite (key_eqb_trans _ _ _ Hl Hlk) in Hk. discriminate.
    + destruct (key_eqb k' k) eqn:Hk; [|exact IH].
      destruct (key_eqb l k) eqn:Hlk; [|lia].
      rewrite key_eqb_sym in Hlk. rewrite (key_eqb_trans _ _ _ Hk Hlk) in Hl.
      discriminate.
Qed.

Lemma truthy_present (repo : dict) (k : string) :
  truthy (get_none repo k) = true -> item repo k = Ok (get_none repo k).
Proof.
  unfold get_none, get, item. destruct (lookup k repo); [reflexivity|].
  discriminate.
Qed.

(** One round of the loop, on an entry that can be scanned. *)
Lemma scan_repo_ok (w : World) (username : string) (st : Scan) (repo : dict) :
  scannable repo = true ->
  exists st',
    scan_repo w username st repo = Ok st'
    /\ (forall key, tally_get key (scan_languages st')
                   = tally_get key (scan_languages st)
                     + (if has_language key repo then 1 else 0))
    /\ scan_description st'
       = scan_description st + (if has_description repo then 1 else 0)
    /\ scan_readme st'
       = scan_readme st + (if has_readme w username repo then 1 else 0).
Proof.
  unfold scannable, scan_repo, has_language, has_description, has_readme.
  intros H. apply andb_true_iff in H as [Hlang Hname].
  unfold item at 2. destruct (lookup "name" repo) as [name|]; [|discriminate].
  destruct (truthy (get_none repo "language")) eqn:Ht.
  - rewrite (truthy_present _ _ Ht). cbn [bind].
    cbn [negb orb] in Hlang. rewrite Hlang. cbn [bind].
    eexists. split; [reflexivity|]. cbn [scan_languages scan_description scan_readme].
    split; [|split].
    + intros key. rewrite tally_get_incr. reflexivity.
    + destruct (truthy (get_none repo "description")); lia.
    + destruct (get_readme w username name) as [text|]; [|lia].
      destruct (String.eqb text ""); cbn [negb]; lia.
  - cbn [bind]. eexists. split; [reflexivity|].
    cbn [scan_languages scan_description scan_readme andb].
    split; [|split].
    + intros key. lia.
    + destruct (truthy (get_none repo "description")); lia.
    + destruct (get_readme w username name) as [text|]; [|lia].
      destruct (String.eqb text ""); cbn [negb]; lia.
Qed.

(** A round that does not raise was on an entry that can be scanned. *)
Lemma scan_repo_inv (w : World) (username : string) (st st' : Scan) (repo : dict) :
  scan_repo w username st repo = Ok st' -> scannable repo = true.
Proof.
  unfold scannable, scan_repo, item.
  destruct (truthy (get_none repo "language")) eqn:Ht; cbn [negb orb].
  - pose proof (truthy_present _ _ Ht) as Hi. unfold item in Hi.
    destruct (lookup "language" repo) as [language|]; [|discriminate].
    injection Hi as ->. cbn [bind].
    destruct (hashable (get_none repo "language")); [|discriminate].
    cbn [bind andb]. destruct (lookup "name" repo); [reflexivity | discriminate].
  - cbn [bind andb]. destruct (lookup "name" repo); [reflexivity | discriminate].
Qed.

(** The whole loop. *)
Lemma scan_loop_ok (w : World) (username : string) (repos : list dict) :
  forallb scannable repos = true ->
  forall st, exists st',
    for_each (scan_repo w username) repos st = Ok st'
    /\ (forall key, tally_get key (scan_languages st')
                   = tally_get key (scan_languages st)
                     + count (has_language key) repos)
    /\ scan_description st' = scan_description st + count has_description repos
    /\ scan_readme st' = scan_readme st + count (has_readme w username) repos.
Proof.
  induction repos as [|repo repos IH]; cbn [forallb for_each]; intros H st.
  - exists st. split; [reflexivity|].
    split; [intros key; rewrite count_nil; lia|].
    rewrite !count_nil. split; lia.
  - apply andb_true_iff in H as [Hrepo Hrest].
    destruct (scan_repo_ok w username st repo Hrepo) as (st1 & -> & Hl1 & Hd1 & Hr1).
    cbn [bind].
    destruct (IH Hrest st1) as (st' & -> & Hl & Hd & Hr).
    exists st'. rewrite !count_cons. split; [reflexivity|].
    split; [|split].
    + intros key. rewrite Hl, Hl1, count_cons. lia.
    + rewrite Hd, Hd1. lia.
    + rewrite Hr, Hr1. lia.
Qed.

Lemma scan_loop_inv (w : World) (username : string) (repos : list dict) :
  forall st st',
    for_each (scan_repo w username) repos st = Ok st' ->
    forallb scannable repos = true.
Proof.
  induction repos as [|repo repos IH]; cbn [forallb for_each]; intros st st' H.
  - reflexivity.
  - destruct (scan_repo w username st repo) as [st1|e] eqn:H1; [|discriminate].
    cbn [bind] in H. rewrite (scan_repo_inv _ _ _ _ _ H1), (IH _ _ H). reflexivity.
Qed.

(** What a successful [analyze_profile] went through. *)
Lemma analyze_profile_inv (w : World) (username : string) (github_data : Summary) :
  analyze_profile w username = Ok github_data ->
  exists st,
    get_user_profile w username = Ok (profile github_data)
    /\ get_repositories w username = Ok (repositories github_data)
    /\ sum (map stars_of (repositories github_data))
       = Ok (total_stars (stats github_data))
    /\ sum (map forks_of (repositories github_data))
       = Ok (total_forks (stats github_data))
    /\ for_each (scan_repo w username) (firstn 10 (repositories github_data))
         {| scan_languages := []; scan_readme := 0; scan_description := 0 |}
       = Ok st
    /\ languages (stats github_data) = scan_languages st
    /\ repos_with_readme (stats github_data) = scan_readme st
    /\ repos_with_description (stats github_data) = scan_description st
    /\ top_repos (stats github_data) = firstn 10 (repositories github_data).
Proof.
  unfold analyze_profile. intros H.
  change (fun repo : dict => get repo "stargazers_count" (JInt 0))
    with stars_of in H.
  change (fun repo : dict => get repo "forks_count" (JInt 0))
    with forks_of in H.
  destruct (get_user_profile w username) as [p|]; [|discriminate].
  cbn [bind] in H.
  destruct (get_repositories w username) as [repos|]; [|discriminate].
  cbn [bind] in H.
  destruct (sum (map stars_of repos)) as [ts|] eqn:Hs; [|discriminate].
  cbn [bind] in H.
  destruct (sum (map forks_of repos)) as [tf|] eqn:Hf; [|discriminate].
  cbn [bind] in H.
  destruct (for_each _ _ _) as [st|] eqn:Hloop; [|discriminate].
  cbn [bind] in H. injection H as <-. exists st.
  cbn [profile repositories stats total_stars total_forks languages
       repos_with_description repos_with_readme top_repos].
  repeat split; assumption.
Qed.

End AggregateFacts.

Section Aggregate.

Import JsonFacts AggregateFacts.

(** C7: for the repository list [repos] that the fetcher returns,
    [analyze_profile] adds up the stars and the forks of all the entries
    of [repos], and computes the language tally, the description count,
    the README count and the top list over the first 10 entries only;
    with no repository the counts are zero and the tally and the top list
    are empty.  The aggregate is produced whenever every star and fork
    count is a number and the first 10 entries have a name and a hashable
    (or no) language. *)
Theorem analyze_profile_aggregate
    (w : World) (username : string) (user : dict) (repos : list dict)
    (stars forks : list Z) :
  get_user_profile w username = Ok user ->
  get_repositories w username = Ok repos ->
  ints_of (map stars_of repos) = Some stars ->
  ints_of (map forks_of repos) = Some forks ->
  forallb scannable (firstn 10 repos) = true ->
  exists github_data,
    analyze_profile w username = Ok github_data
    /\ profile github_data = user
    /\ repositories github_data = repos
    /\ total_stars (stats github_data) = total stars
    /\ total_forks (stats github_data) = total forks
    /\ (forall key, tally_get key (languages (stats github_data))
                   = count (has_language key) (firstn 10 repos))
    /\ repos_with_description (stats github_data)
       = count has_description (firstn 10 repos)
    /\ repos_with_readme (stats github_data)
       = count (has_readme w username) (firstn 10 repos)
    /\ top_repos (stats github_data) = firstn 10 repos
    /\ (repos = [] ->
        total_stars (stats github_data) = 0
        /\ total_forks (stats github_data) = 0
        /\ languages (stats github_data) = []
        /\ repos_with_description (stats github_data) = 0
        /\ repos_with_readme (stats github_data) = 0
        /\ top_repos (stats github_data) = []).
Proof.
  intros Hu Hr Hs Hf Hscan. unfold analyze_profile.
  rewrite Hu, Hr. cbn [bind].
  change (fun repo : dict => get repo "stargazers_count" (JInt 0)) with stars_of.
  change (fun repo : dict => get repo "forks_count" (JInt 0)) with forks_of.
  rewrite !sum_ints, Hs, Hf. cbn [bind].
  destruct (scan_loop_ok w username _ Hscan
              {| scan_languages := []; scan_readme := 0; scan_description := 0 |})
    as (st & Hloop & Hl & Hd & Hrd).
  rewrite Hloop. cbn [bind]. eexists. split; [reflexivity|].
  cbn [profile repositories stats total_stars total_forks languages
       repos_with_description repos_with_readme top_repos].
  cbn [scan_languages scan_description scan_readme tally_get] in Hl, Hd, Hrd.
  do 4 (split; [reflexivity|]).
  split; [intros key; rewrite Hl; lia|].
  split; [rewrite Hd; lia|].
  split; [rewrite Hrd; lia|].
  split; [reflexivity|].
  intros ->. cbn in Hs, Hf, Hloop.
  injection Hs as <-. injection Hf as <-. injection Hloop as <-.
  repeat split.
Qed.

End Aggregate.

(* ================================================================== *)
(** ** The scoring client *)

Module DigitFacts.

Lemma digits_fuel_pos (fuel : nat) (n : Z) : 1 <= digits_fuel fuel n.
Proof.
  revert n; induction fuel as [|fuel IH]; intros n; cbn [digits_fuel]; [lia|].
  destruct (n <? 10); [lia|]. specialize (IH (n / 10)). lia.
Qed.

Lemma ten_le_pow (k : Z) : 1 <= k -> 10 <= 10 ^ k.
Proof.
  intros Hk. change 10 with (10 ^ 1) at 1.
  apply Z.pow_le_mono_r; lia.
Qed.

Lemma digits_fuel_spec (fuel : nat) :
  forall n k,
    0 <= n < 2 ^ (Z.of_nat fuel + 1) -> 1 <= k ->
    (digits_fuel fuel n <= k <-> n < 10 ^ k).
Proof.
  induction fuel as [|fuel IH]; intros n k Hn Hk; cbn [digits_fuel].
  - pose proof (ten_le_pow k Hk). change (2 ^ (Z.of_nat 0 + 1)) with 2 in Hn.
    lia.
  - destruct (Z.ltb_spec n 10) as [Hlt|Hge].
    + pose proof (ten_le_pow k Hk). lia.
    + assert (Hq : 0 <= n / 10 < 2 ^ (Z.of_nat fuel + 1)).
      { split; [apply Z.div_pos; lia|].
        apply Z.div_lt_upper_bound; [lia|].
        replace (Z.of_nat (S fuel) + 1) with (Z.succ (Z.of_nat fuel + 1)) in Hn
          by lia.
        rewrite Z.pow_succ_r in Hn by lia. lia. }
      pose proof (digits_fuel_pos fuel (n / 10)) as Hpos.
      destruct (Z.eq_dec k 1) as [->|Hk1].
      * change (10 ^ 1) with 10. lia.
      * specialize (IH (n / 10) (k - 1) Hq ltac:(lia)).
        replace k with (Z.succ (k - 1)) at 2 by lia.
        rewrite Z.pow_succ_r by lia.
        assert (Hdiv : n / 10 < 10 ^ (k - 1) <-> n < 10 * 10 ^ (k - 1)).
        { split; intros H.
          - destruct (Z.lt_ge_cases n (10 * 10 ^ (k - 1))) as [|Hge'];
              [assumption|].
            apply Z.div_le_lower_bound in Hge'; lia.
          - apply Z.div_lt_upper_bound; lia. }
        lia.
Qed.

(** [n] has at most [k] digits exactly when it lies strictly between
    the two powers of ten with exponent [k]. *)
Lemma digits_spec (n k : Z) :
  1 <= k -> (digits n <= k <-> Z.abs n < 10 ^ k).
Proof.
  intros Hk. unfold digits. apply digits_fuel_spec; [|exact Hk].
  pose proof (Z.log2_nonneg (Z.abs n)) as Hlog.
  rewrite Z2Nat.id by exact Hlog.
  split; [lia|].
  destruct (Z.eq_dec (Z.abs n) 0) as [->|Hne]; [reflexivity|].
  apply (Z.log2_spec (Z.abs n)). lia.
Qed.

Lemma writable_spec (n : Z) :
  writable n = true <-> Z.abs n < 10 ^ max_str_digits.
Proof.
  unfold writable. rewrite Z.leb_le. apply digits_spec. unfold max_str_digits.
  lia.
Qed.

Lemma str_int_writable (n : Z) :
  str_int n = if writable n then Ok n else Raise ValueError.
Proof. reflexivity. Qed.

(** A decoded number is writable, the sum of two such numbers need not
    be: the largest number of [max_str_digits] digits added to itself
    has one digit more. *)
Lemma sum_not_writable :
  let nines := 10 ^ max_str_digits - 1 in
  writable nines = true /\ writable (nines + nines) = false.
Proof.
  cbv zeta. pose proof (ten_le_pow max_str_digits ltac:(unfold max_str_digits; lia))
    as Hp.
  split.
  - apply writable_spec. lia.
  - destruct (writable _) eqn:Hw; [|reflexivity].
    apply writable_spec in Hw. lia.
Qed.

End DigitFacts.

Module ScoringFacts.

Import AggregateFacts DigitFacts.

Lemma strings_of_ok (t : tally) :
  forallb (fun entry => is_str (fst entry)) t = true ->
  exists ss, strings_of (map fst t) = Ok ss.
Proof.
  induction t as [|[k n] t IH]; cbn [forallb map fst strings_of].
  - eauto.
  - intros H. apply andb_true_iff in H as [Hk Ht].
    destruct k; try discriminate. destruct (IH Ht) as [ss ->].
    cbn [bind]. eauto.
Qed.

Lemma strings_of_inv (t : tally) (ss : list string) :
  strings_of (map fst t) = Ok ss ->
  forallb (fun entry => is_str (fst entry)) t = true.
Proof.
  revert ss; induction t as [|[k n] t IH]; intros ss;
    cbn [forallb map fst strings_of]; [reflexivity|].
  destruct k; try discriminate.
  destruct (strings_of (map fst t)) as [ss'|] eqn:Hs; [|discriminate].
  intros _. cbn [is_str andb]. eapply IH. reflexivity.
Qed.

Lemma strings_of_raise (t : tally) :
  forallb (fun entry => is_str (fst entry)) t = false ->
  strings_of (map fst t) = Raise TypeError.
Proof.
  induction t as [|[k n] t IH]; cbn [forallb map fst strings_of];
    [discriminate|].
  destruct k; try reflexivity. cbn [is_str andb]. intros H.
  rewrite (IH H). reflexivity.
Qed.

Lemma named_of_scannable (repos : list dict) :
  forallb scannable repos = true ->
  Forall (fun repo => present repo "name" = true) repos.
Proof.
  induction repos as [|repo repos IH]; cbn [forallb]; intros H; constructor.
  - apply andb_true_iff in H as [H _]. unfold scannable in H.
    apply andb_true_iff in H as [_ H]. exact H.
  - apply IH. apply andb_true_iff in H as [_ H]. exact H.
Qed.

Lemma format_loop_ok (repos : list dict) :
  Forall (fun repo => present repo "name" = true) repos ->
  forall lines, exists lines',
    for_each
      (fun lines repo =>
         name <- item repo "name" ;;
         Ok (lines ++ [ {| rl_name := name;
                           rl_description :=
                             get repo "description" (JStr "No description");
                           rl_stars := get repo "stargazers_count" (JInt 0);
                           rl_language := get repo "language" (JStr "N/A") |} ]))
      repos lines = Ok lines'.
Proof.
  induction 1 as [|repo repos Hname _ IH]; intros lines; cbn [for_each].
  - eauto.
  - unfold present in Hname. unfold item at 1.
    destruct (lookup "name" repo) as [name|]; [|discriminate].
    cbn [bind]. apply IH.
Qed.

Lemma format_repos_ok (repos : list dict) :
  Forall (fun repo => present repo "name" = true) repos ->
  exists lines, format_repos repos = Ok lines.
Proof. intros H. apply format_loop_ok, H. Qed.

Lemma Forall_firstn {A} (P : A -> Prop) (n : nat) (l : list A) :
  Forall P l -> Forall P (firstn n l).
Proof.
  intros H. revert n. induction H as [|x l Hx _ IH]; intros [|n]; cbn [firstn];
    constructor; auto.
Qed.

(** The prompt of a summary of [analyze_profile] can be built exactly when
    the tallied languages are strings. *)
Lemma build_prompt_ok (w : World) (username : string) (github_data : Summary) :
  analyze_profile w username = Ok github_data ->
  totals_writable github_data = true ->
  languages_are_strings github_data = true ->
  exists prompt, build_prompt github_data = Ok prompt.
Proof.
  intros Hgd Hw Hstr.
  destruct (analyze_profile_inv _ _ _ Hgd)
    as (st & _ & _ & _ & _ & Hloop & _ & _ & _ & Htop).
  apply scan_loop_inv, named_of_scannable in Hloop.
  apply andb_true_iff in Hw as [Hstars Hforks].
  unfold build_prompt, join. rewrite !str_int_writable, Hstars, Hforks.
  cbn [bind].
  destruct (strings_of_ok _ Hstr) as [ss ->]. cbn [bind].
  rewrite Htop.
  destruct (format_repos_ok (firstn 5 (firstn 10 (repositories github_data))))
    as [lines ->]; [apply Forall_firstn, Hloop|].
  cbn [bind]. eauto.
Qed.

Lemma build_prompt_inv (github_data : Summary) (prompt : prompt) :
  build_prompt github_data = Ok prompt ->
  totals_writable github_data = true
  /\ languages_are_strings github_data = true.
Proof.
  unfold build_prompt, join, languages_are_strings, totals_writable.
  rewrite !str_int_writable.
  destruct (writable (total_stars (stats github_data))); [|discriminate].
  cbn [bind].
  destruct (writable (total_forks (stats github_data))); [|discriminate].
  cbn [bind].
  destruct (strings_of (map fst (languages (stats github_data)))) as [ss|] eqn:Hs;
    [|discriminate].
  intros _. split; [reflexivity|]. eapply strings_of_inv, Hs.
Qed.

(** The two ways in which the f-string raises on a summary: a total
    that cannot be written, and then a language that is not a [str]. *)
Lemma build_prompt_raises (github_data : Summary) :
  (totals_writable github_data = false ->
   build_prompt github_data = Raise ValueError)
  /\ (totals_writable github_data = true ->
      languages_are_strings github_data = false ->
      build_prompt github_data = Raise TypeError).
Proof.
  unfold build_prompt, join, languages_are_strings, totals_writable.
  rewrite !str_int_writable.
  destruct (writable (total_stars (stats github_data))); cbn [bind andb];
    [|split; [reflexivity | discriminate]].
  destruct (writable (total_forks (stats github_data))); cbn [bind];
    [|split; [reflexivity | discriminate]].
  split; [discriminate|]. intros _ Hs.
  rewrite (strings_of_raise _ Hs). reflexivity.
Qed.

End ScoringFacts.

Section Scoring.

Import ScoringFacts.

Variable json_loads : string -> option json.

(** Once the prompt is built, [generate_analysis] cannot raise: it
    returns what [json.loads] read, and [_default_analysis] otherwise. *)
Lemma generate_analysis_cases (w : World) (github_data : Summary) (prompt : prompt) :
  build_prompt github_data = Ok prompt ->
  generate_analysis json_loads w github_data
  = Ok match send_message w prompt with
       | LlmRaises => default_analysis (stats github_data)
       | LlmText response =>
           match json_text response with
           | Ok text =>
               match json_loads text with
               | Some analysis => analysis
               | None => default_analysis (stats github_data)
               end
           | Raise _ => default_analysis (stats github_data)
           end
       end.
Proof.
  intros Hp. unfold generate_analysis. rewrite Hp. cbn [bind].
  destruct (send_message w prompt) as [|response]; [reflexivity|].
  destruct (json_text response) as [text|]; [|reflexivity].
  cbn [bind]. unfold loads. destruct (json_loads text); reflexivity.
Qed.

(** C6, as amended: on every summary that [analyze_profile] produces,
    whose two totals have at most 4300 digits and whose tallied
    languages are all strings, [generate_analysis] does not raise; it
    returns the analysis parsed from the response, or the default
    analysis when the call or the parse fails.  On every other summary
    of [analyze_profile] it raises, from the f-string before its [try]:
    [ValueError] for a total that cannot be written, [TypeError] for a
    language that is not a string. *)
Theorem generate_analysis_returns
    (w : World) (username : string) (github_data : Summary) :
  analyze_profile w username = Ok github_data ->
  (totals_writable github_data = true ->
   languages_are_strings github_data = true ->
   exists payload,
     generate_analysis json_loads w github_data = Ok payload
     /\ (payload = default_analysis (stats github_data)
         \/ exists prompt response text,
              build_prompt github_data = Ok prompt
              /\ send_message w prompt = LlmText response
              /\ json_text response = Ok text
              /\ json_loads text = Some payload))
  /\ (totals_writable github_data = false ->
      generate_analysis json_loads w github_data = Raise ValueError)
  /\ (totals_writable github_data = true ->
      languages_are_strings github_data = false ->
      generate_analysis json_loads w github_data = Raise TypeError).
Proof.
  intros Hgd. split; [|split].
  - intros Hw Hstr.
    destruct (build_prompt_ok _ _ _ Hgd Hw Hstr) as [prompt Hp].
    rewrite (generate_analysis_cases w _ _ Hp).
    eexists. split; [reflexivity|].
    destruct (send_message w prompt) as [|response] eqn:Hsend;
      [left; reflexivity|].
    destruct (json_text response) as [text|] eqn:Ht; [|left; reflexivity].
    destruct (json_loads text) as [analysis|] eqn:Hl; [|left; reflexivity].
    right. exists prompt, response, text. auto.
  - intros Hw. unfold generate_analysis.
    rewrite (proj1 (build_prompt_raises github_data) Hw). reflexivity.
  - intros Hw Hstr. unfold generate_analysis.
    rewrite (proj2 (build_prompt_raises github_data) Hw Hstr). reflexivity.
Qed.

End Scoring.

(** A repository entry whose language is a number gets through
    [analyze_profile] and makes the ", ".join of [generate_analysis]
    raise, outside its [try]. *)
Lemma generate_analysis_can_raise :
  exists github_data,
    analyze_profile (Samples.world [Samples.odd_repo] LlmRaises) "octocat"
    = Ok github_data
    /\ generate_analysis Samples.loads_brackets
         (Samples.world [Samples.odd_repo] LlmRaises) github_data
       = Raise TypeError.
Proof. eexists. split; reflexivity. Qed.

(** Two star counts that can each be read from a body add up to a total
    that cannot be written: the f-string raises [ValueError], although
    no language is in the way. *)
Lemma generate_analysis_total_too_long
    (json_loads : string -> option json) (llm : llm_reply) :
  let nines := 10 ^ max_str_digits - 1 in
  let repo := [("name", JStr "r"); ("stargazers_count", JInt nines)] in
  writable nines = true
  /\ exists github_data,
       analyze_profile (Samples.world [repo; repo] llm) "octocat"
       = Ok github_data
       /\ total_stars (stats github_data) = nines + nines
       /\ languages_are_strings github_data = true
       /\ generate_analysis json_loads (Samples.world [repo; repo] llm)
            github_data
          = Raise ValueError.
Proof.
  cbv zeta. destruct DigitFacts.sum_not_writable as [Hone Htwo].
  cbv zeta in Hone, Htwo.
  remember (10 ^ max_str_digits - 1) as nines eqn:Hnines. clear Hnines.
  split; [exact Hone|].
  eexists. split; [reflexivity|].
  cbn [stats total_stars]. split; [apply Z.add_0_l|].
  split; [reflexivity|].
  unfold generate_analysis.
  rewrite (proj1 (ScoringFacts.build_prompt_raises _)); [reflexivity|].
  unfold totals_writable. cbn [stats total_stars total_forks].
  rewrite Z.add_0_l, Htwo. reflexivity.
Qed.

(* ================================================================== *)
(** ** POST /api/analyze *)

Section Analyze.

Variable json_loads : string -> option json.

Lemma analyze_try_conclude (w : World) (db : list Document)
    (request : AnalyzeRequest) (username : string) (github_data : Summary)
    (ai_analysis : json) :
  derive_username (github_url request) = Ok username ->
  analyze_profile w username = Ok github_data ->
  generate_analysis json_loads w github_data = Ok ai_analysis ->
  analyze_try json_loads w db request
  = conclude w db username github_data ai_analysis.
Proof.
  intros Hu Hgd Hai. unfold analyze_try.
  rewrite Hu. cbn [bind]. rewrite Hgd. cbn [bind]. rewrite Hai. reflexivity.
Qed.

(** The default analysis always goes through. *)
Lemma conclude_default (w : World) (db : list Document) (username : string)
    (github_data : Summary) :
  exists analysis,
    conclude w db username github_data (default_analysis (stats github_data))
    = Ok (analysis, insert_one db (dump analysis))
    /\ score_breakdown analysis = default_scores
    /\ overall_score analysis = 58
    /\ Model.username analysis = username
    /\ timestamp analysis = utcnow w.
Proof.
  eexists. split; [reflexivity|]. repeat split.
Qed.

(** C2: if the scoring call raises, or answers a text that [json.loads]
    cannot read, POST /api/analyze still answers 200 with the default
    breakdown (60, 65, 55, 60, 50, 60), and the record is persisted: the
    collection afterwards is the collection before followed by the
    document of the record in the answer (the write to the database
    being taken to succeed). *)
Theorem scoring_failure_defaults
    (w : World) (db : list Document) (request : AnalyzeRequest)
    (username : string) (github_data : Summary) (prompt : prompt) :
  derive_username (github_url request) = Ok username ->
  analyze_profile w username = Ok github_data ->
  build_prompt github_data = Ok prompt ->
  (send_message w prompt = LlmRaises
   \/ exists response text,
        send_message w prompt = LlmText response
        /\ json_text response = Ok text
        /\ json_loads text = None) ->
  exists analysis,
    analyze_github_profile json_loads w db request
    = (Http200 analysis, db ++ [dump analysis])
    /\ status (fst (analyze_github_profile json_loads w db request)) = 200
    /\ score_breakdown analysis = default_scores
    /\ overall_score analysis = 58
    /\ Model.username analysis = username
    /\ timestamp analysis = utcnow w.
Proof.
  intros Hu Hgd Hp Hfail.
  assert (Hai : generate_analysis json_loads w github_data
                = Ok (default_analysis (stats github_data))).
  { rewrite (generate_analysis_cases json_loads w _ _ Hp).
    destruct Hfail as [-> | (response & text & -> & -> & ->)]; reflexivity. }
  destruct (conclude_default w db username github_data)
    as (analysis & Hc & Hsb & Hos & Hname & Hts).
  exists analysis. unfold analyze_github_profile.
  rewrite (analyze_try_conclude _ _ _ _ _ _ Hu Hgd Hai), Hc.
  unfold insert_one. repeat split; assumption.
Qed.

Lemma no_http_bind {A B} (m : result A) (k : A -> result B) :
  raises_no_http m -> (forall a, raises_no_http (k a)) ->
  raises_no_http (bind m k).
Proof. destruct m; cbn; auto. Qed.

Lemma no_http_item (d : dict) (k : string) : raises_no_http (item d k).
Proof. unfold item. destruct (lookup k d); cbn; auto. Qed.

Lemma no_http_subscript (v : json) (k : string) : raises_no_http (subscript v k).
Proof. destruct v; cbn; auto. apply no_http_item. Qed.

Lemma no_http_sum (vs : list json) : raises_no_http (sum vs).
Proof. rewrite JsonFacts.sum_ints. destruct (ints_of vs); cbn; auto. Qed.

Lemma no_http_int_field (d : dict) (k : string) : raises_no_http (int_field d k).
Proof.
  unfold int_field. destruct (lookup k d) as [v|]; cbn; auto.
  destruct (as_int v); cbn; auto.
Qed.

Lemma no_http_str_list_field (v : json) : raises_no_http (str_list_field v).
Proof.
  destruct v; cbn; auto. destruct (str_items items); cbn; auto.
Qed.

Lemma no_http_values_of (v : json) : raises_no_http (values_of v).
Proof. destruct v; cbn; auto. Qed.

Lemma no_http_len (v : json) : raises_no_http (len v).
Proof. destruct v; cbn; auto. Qed.

Lemma no_http_floordiv (a b : Z) : raises_no_http (floordiv a b).
Proof. unfold floordiv. destruct (b =? 0); cbn; auto. Qed.

Lemma no_http_Ok {A} (a : A) : raises_no_http (Ok a).
Proof. exact I. Qed.

Create HintDb no_http discriminated.

#[local] Hint Resolve no_http_item no_http_subscript no_http_sum
  no_http_int_field no_http_str_list_field no_http_values_of no_http_len
  no_http_floordiv no_http_Ok : no_http.

(** One [x <- m ;; ...] of a computation whose parts raise no
    [HTTPException]. *)
Ltac no_http_step :=
  apply no_http_bind; [solve [auto with no_http] | intros ?].

Lemma no_http_calculate (ai_analysis : json) :
  raises_no_http (calculate_overall_score ai_analysis).
Proof.
  unfold calculate_overall_score. repeat no_http_step. auto with no_http.
Qed.

Lemma no_http_make_ScoreBreakdown (breakdown : json) :
  raises_no_http (make_ScoreBreakdown breakdown).
Proof.
  destruct breakdown; cbn [make_ScoreBreakdown]; try reflexivity.
  repeat no_http_step. auto with no_http.
Qed.

#[local] Hint Resolve no_http_calculate no_http_make_ScoreBreakdown : no_http.

Lemma no_http_make_Analysis (w : World) (username : string)
    (github_data : Summary) (ai_analysis breakdown : json) (overall : Z) :
  raises_no_http
    (make_Analysis w username github_data ai_analysis breakdown overall).
Proof.
  unfold make_Analysis. repeat no_http_step. auto with no_http.
Qed.

#[local] Hint Resolve no_http_make_Analysis : no_http.

(** Whatever the payload, the end of the handler raises no
    [HTTPException] of its own. *)
Lemma no_http_conclude (w : World) (db : list Document) (username : string)
    (github_data : Summary) (ai_analysis : json) :
  raises_no_http (conclude w db username github_data ai_analysis).
Proof.
  unfold conclude. no_http_step.
  destruct a as [breakdown overall]. no_http_step. auto with no_http.
Qed.

Lemma ints_of_numbers (vs : list json) :
  forallb is_number vs = true <-> exists zs, ints_of vs = Some zs.
Proof.
  induction vs as [|v vs IH]; cbn [forallb ints_of].
  - split; eauto.
  - unfold is_number at 1. destruct (as_int v) as [z|]; cbn [andb].
    + rewrite IH. split; intros [zs Hzs].
      * rewrite Hzs. eauto.
      * destruct (ints_of vs); [eauto | discriminate].
    + split; [discriminate | intros [zs Hzs]; discriminate].
Qed.

Lemma int_field_number (d : dict) (k : string) :
  number_at d k = true <-> exists z, int_field d k = Ok z.
Proof.
  unfold number_at, int_field, is_number.
  destruct (lookup k d) as [v|]; [destruct (as_int v) as [z|]|];
    (split; [intros H; try discriminate; eauto
            | intros [z' Hz]; try discriminate; reflexivity]).
Qed.

Lemma str_list_field_strings (d : dict) (k : string) :
  strings_at d k = true
  <-> exists ss, (v <- subscript (JDict d) k ;; str_list_field v) = Ok ss.
Proof.
  unfold strings_at, subscript, item, str_list_field.
  destruct (lookup k d) as [v|]; cbn [bind].
  - destruct v; try (split; [discriminate | intros [ss Hss]; discriminate]).
    destruct (str_items items) as [ss|];
      (split; [intros H; try discriminate; eauto
              | intros [ss' Hss]; try discriminate; reflexivity]).
  - split; [discriminate | intros [ss Hss]; discriminate].
Qed.

(** The end of the handler on a payload of the expected shape. *)
Lemma conclude_accepted (w : World) (db : list Document) (username : string)
    (github_data : Summary) (payload : json) :
  accepted payload = true ->
  exists analysis,
    conclude w db username github_data payload
    = Ok (analysis, insert_one db (dump analysis)).
Proof.
  unfold accepted.
  destruct payload as [| | | | |d]; try discriminate.
  destruct (lookup "score_breakdown" d) as [[| | | | |breakdown]|] eqn:Hsb;
    try discriminate.
  intros H. repeat (apply andb_true_iff in H as [H ?]).
  apply ints_of_numbers in H as [zs Hzs].
  match goal with
  | Hn : forallb (number_at breakdown) field_names = true |- _ =>
      cbn [forallb field_names] in Hn;
      repeat (apply andb_true_iff in Hn as [?Hf Hn])
  end.
  repeat match goal with
         | Hf : number_at _ _ = true |- _ =>
             apply int_field_number in Hf as [? Hf]
         | Hs : strings_at _ _ = true |- _ =>
             apply str_list_field_strings in Hs as [? Hs];
             unfold subscript, item in Hs
         end.
  assert (Hlen : Z.of_nat (List.length breakdown) <> 0).
  { destruct breakdown; [discriminate|]. cbn [List.length]. lia. }
  unfold conclude, calculate_overall_score, subscript, item.
  rewrite Hsb. cbn [bind values_of len]. rewrite JsonFacts.sum_ints, Hzs.
  cbn [bind]. unfold floordiv.
  destruct (Z.eqb_spec (Z.of_nat (List.length breakdown)) 0) as [E|_];
    [contradiction|].
  cbn [bind]. unfold make_Analysis, make_ScoreBreakdown.
  repeat match goal with
         | Hf : int_field _ _ = Ok _ |- _ => rewrite Hf; clear Hf; cbn [bind]
         end.
  unfold subscript, item.
  repeat match goal with
         | Hs : context [lookup ?k d] |- context [lookup ?k d] =>
             destruct (lookup k d); [|discriminate]; cbn [bind] in Hs |- *
         end.
  repeat match goal with
         | Hs : str_list_field _ = Ok _ |- _ => rewrite Hs; clear Hs; cbn [bind]
         end.
  eexists. reflexivity.
Qed.

(** The end of the handler succeeds on such payloads only. *)
Lemma conclude_ok_accepted (w : World) (db : list Document) (username : string)
    (github_data : Summary) (payload : json) (r : Analysis * list Document) :
  conclude w db username github_data payload = Ok r ->
  accepted payload = true.
Proof.
  unfold conclude, calculate_overall_score, accepted.
  destruct payload as [| | | | |d]; try discriminate.
  cbn [subscript]. unfold item at 1.
  destruct (lookup "score_breakdown" d) as [breakdown|]; [|discriminate].
  cbn [bind].
  destruct breakdown as [| | | | |breakdown]; try discriminate.
  cbn [values_of bind]. rewrite JsonFacts.sum_ints.
  destruct (ints_of (values breakdown)) as [zs|] eqn:Hzs; [|discriminate].
  cbn [bind len].
  destruct (floordiv (total zs) (Z.of_nat (List.length breakdown)));
    [|discriminate].
  cbn [bind]. unfold make_Analysis.
  destruct (make_ScoreBreakdown (JDict breakdown)) as [sb|] eqn:Hsb;
    [|discriminate].
  cbn [bind].
  destruct (subscript (JDict d) "strengths") as [v1|] eqn:H1; [|discriminate].
  cbn [bind].
  destruct (subscript (JDict d) "weaknesses") as [v2|] eqn:H2; [|discriminate].
  cbn [bind].
  destruct (subscript (JDict d) "recommendations") as [v3|] eqn:H3;
    [|discriminate].
  cbn [bind].
  destruct (str_list_field v1) as [ss|] eqn:Hs1; [|discriminate]. cbn [bind].
  destruct (str_list_field v2) as [ws|] eqn:Hs2; [|discriminate]. cbn [bind].
  destruct (str_list_field v3) as [rs|] eqn:Hs3; [|discriminate].
  intros _.
  assert (Hnum : forallb is_number (values breakdown) = true)
    by (apply ints_of_numbers; eauto).
  assert (Hfields : forallb (number_at breakdown) field_names = true).
  { unfold make_ScoreBreakdown in Hsb. cbn [forallb field_names].
    repeat match type of Hsb with
           | bind (int_field ?b ?k) _ = _ =>
               let E := fresh "E" in
               destruct (int_field b k) eqn:E; [|discriminate];
               cbn [bind] in Hsb;
               rewrite (proj2 (int_field_number b k)) by eauto
           end.
    reflexivity. }
  assert (Hstr : forall k v ss,
            subscript (JDict d) k = Ok v -> str_list_field v = Ok ss ->
            strings_at d k = true).
  { intros k v ss' Hv Hss. apply str_list_field_strings. exists ss'.
    rewrite Hv. exact Hss. }
  rewrite Hnum, Hfields, (Hstr _ _ _ H1 Hs1), (Hstr _ _ _ H2 Hs2),
    (Hstr _ _ _ H3 Hs3).
  reflexivity.
Qed.

Lemma accepted_object (payload : json) :
  accepted payload = true ->
  exists d breakdown,
    payload = JDict d /\ lookup "score_breakdown" d = Some (JDict breakdown).
Proof.
  unfold accepted. destruct payload as [| | | | |d]; try discriminate.
  destruct (lookup "score_breakdown" d) as [[| | | | |breakdown]|] eqn:Hsb;
    try discriminate.
  intros _. exists d, breakdown. split; [reflexivity | exact Hsb].
Qed.

(** C10: when the response of the generator parses as JSON,
    [generate_analysis] returns the parsed value as it is, whatever its
    shape (the default analysis stands in only for a failed call or a
    failed parse).  When that value has not the shape the handler expects
    (it is not an object, it has no [score_breakdown] key, ...) the
    accesses of the analyze handler raise, and POST /api/analyze answers
    500 instead of a 200 backed by the default analysis; the collection
    is left as it was.  A value of the expected shape is answered with
    200. *)
Theorem misshapen_payload_fails
    (w : World) (db : list Document) (request : AnalyzeRequest)
    (username : string) (github_data : Summary) (prompt : prompt)
    (response text : string) (payload : json) :
  derive_username (github_url request) = Ok username ->
  analyze_profile w username = Ok github_data ->
  build_prompt github_data = Ok prompt ->
  send_message w prompt = LlmText response ->
  json_text response = Ok text ->
  json_loads text = Some payload ->
  generate_analysis json_loads w github_data = Ok payload
  /\ (accepted payload = false ->
      exists e,
        analyze_github_profile json_loads w db request
        = (HttpAnalysisFailed e, db)
        /\ status (fst (analyze_github_profile json_loads w db request)) = 500)
  /\ (accepted payload = true ->
      exists analysis,
        analyze_github_profile json_loads w db request
        = (Http200 analysis, insert_one db (dump analysis)))
  /\ ((forall d, payload <> JDict d) -> accepted payload = false)
  /\ (forall d, payload = JDict d -> lookup "score_breakdown" d = None ->
      accepted payload = false).
Proof.
  intros Hu Hgd Hp Hsend Htext Hloads.
  assert (Hai : generate_analysis json_loads w github_data = Ok payload).
  { rewrite (generate_analysis_cases json_loads w _ _ Hp), Hsend, Htext, Hloads.
    reflexivity. }
  split; [exact Hai|]. split; [|split; [|split]].
  - intros Hshape. unfold analyze_github_profile.
    rewrite (analyze_try_conclude _ _ _ _ _ _ Hu Hgd Hai).
    pose proof (no_http_conclude w db username github_data payload) as Hno.
    destruct (conclude w db username github_data payload) as [r|e] eqn:Hc.
    + apply conclude_ok_accepted in Hc. congruence.
    + exists e. cbn in Hno. destruct e; try discriminate; split; reflexivity.
  - intros Hshape. unfold analyze_github_profile.
    rewrite (analyze_try_conclude _ _ _ _ _ _ Hu Hgd Hai).
    destruct (conclude_accepted w db username github_data payload Hshape)
      as [analysis ->].
    exists analysis. reflexivity.
  - intros Hnot. destruct (accepted payload) eqn:Ha; [|reflexivity].
    destruct (accepted_object _ Ha) as (d & _ & -> & _).
    exfalso. eapply Hnot. reflexivity.
  - intros d -> Hnone. destruct (accepted (JDict d)) eqn:Ha; [|reflexivity].
    destruct (accepted_object _ Ha) as (d' & b & [= <-] & Hsb). congruence.
Qed.

(** C3: if GitHub answers 404 for the user, POST /api/analyze answers 404
    with the detail "GitHub user not found" and leaves the collection as
    it was. *)
Theorem profile_not_found
    (w : World) (db : list Document) (request : AnalyzeRequest)
    (username : string) (body : option dict) :
  derive_username (github_url request) = Ok username ->
  http_get_user w username = Reply 404 body ->
  analyze_github_profile json_loads w db request
  = (HttpError 404 "GitHub user not found", db).
Proof.
  intros Hu H404. unfold analyze_github_profile, analyze_try.
  rewrite Hu. cbn [bind]. unfold analyze_profile, get_user_profile.
  rewrite H404. reflexivity.
Qed.

End Analyze.

(* ================================================================== *)
(** ** ISO-8601 timestamps *)

Module DateTimeFacts.

Import PyStrFacts.

Example isoformat_microseconds :
  isoformat Samples.leap_day = "2024-02-29T12:30:15.250000+00:00".
Proof. reflexivity. Qed.

Example isoformat_whole_second :
  isoformat {| year := 987; month := 1; day := 2; hour := 3; minute := 4;
               second := 5; microsecond := 0; utcoffset := Some (-330) |}
  = "0987-01-02T03:04:05-05:30".
Proof. reflexivity. Qed.

Example fromisoformat_microsecond :
  fromisoformat "2024-02-29T12:30:15.000001+00:00"
  = Ok {| year := 2024; month := 2; day := 29; hour := 12; minute := 30;
          second := 15; microsecond := 1; utcoffset := Some 0 |}.
Proof. reflexivity. Qed.

Example fromisoformat_not_a_date :
  fromisoformat "2023-02-29T12:30:15+00:00" = Raise ValueError.
Proof. reflexivity. Qed.

Lemma digit_code (d : Z) :
  0 <= d <= 9 -> Z.of_N (N_of_ascii (digit d)) = 48 + d.
Proof.
  intros Hd. unfold digit. rewrite N_ascii_embedding by lia. lia.
Qed.

Lemma digit_val_digit (d : Z) : 0 <= d <= 9 -> digit_val (digit d) = Some d.
Proof.
  intros Hd. unfold digit_val. rewrite digit_code by assumption.
  unfold between.
  replace (48 <=? 48 + d) with true by (symmetry; apply Z.leb_le; lia).
  replace (48 + d <=? 57) with true by (symmetry; apply Z.leb_le; lia).
  cbn [andb]. f_equal. lia.
Qed.

Lemma pow10_succ (w : nat) : 10 ^ Z.of_nat (S w) = 10 * 10 ^ Z.of_nat w.
Proof. rewrite Nat2Z.inj_succ, Z.pow_succ_r by lia. reflexivity. Qed.

Lemma pow10_pos (w : nat) : 0 < 10 ^ Z.of_nat w.
Proof. apply Z.pow_pos_nonneg; lia. Qed.

(** The leading digit and the rest of a number below [10 ^ (w + 1)]. *)
Lemma leading_digit (w : nat) (n : Z) :
  0 <= n < 10 ^ Z.of_nat (S w) ->
  0 <= n / 10 ^ Z.of_nat w <= 9
  /\ 0 <= n mod 10 ^ Z.of_nat w < 10 ^ Z.of_nat w
  /\ n = n / 10 ^ Z.of_nat w * 10 ^ Z.of_nat w + n mod 10 ^ Z.of_nat w.
Proof.
  rewrite pow10_succ. intros Hn. pose proof (pow10_pos w) as Hp.
  split; [|split].
  - split; [apply Z.div_pos; lia|].
    apply Z.lt_succ_r. apply Z.div_lt_upper_bound; lia.
  - apply Z.mod_pos_bound. lia.
  - rewrite Z.mul_comm. apply Z.div_mod. lia.
Qed.

(** Reading back the digits that [zpad] wrote. *)
Lemma take_digits_zpad (w : nat) :
  forall (n acc : Z) (rest : string),
    0 <= n < 10 ^ Z.of_nat w ->
    take_digits w acc (zpad w n +++ rest) = Ok (acc * 10 ^ Z.of_nat w + n, rest).
Proof.
  induction w as [|w IH]; intros n acc rest Hn.
  - cbn in *. do 2 f_equal. lia.
  - destruct (leading_digit w n Hn) as (Hq & Hr & Hsplit).
    cbn [zpad String.append take_digits].
    rewrite digit_val_digit by assumption.
    rewrite IH by assumption. do 2 f_equal.
    rewrite pow10_succ. lia.
Qed.

Lemma take_digits_zpad_end (w : nat) (n acc : Z) :
  0 <= n < 10 ^ Z.of_nat w ->
  take_digits w acc (zpad w n) = Ok (acc * 10 ^ Z.of_nat w + n, "").
Proof.
  intros Hn. rewrite <- (append_empty_r (zpad w n)) at 1.
  apply take_digits_zpad, Hn.
Qed.

Lemma valid_ranges (d : datetime) :
  valid d = true ->
  1 <= year d <= 9999 /\ 1 <= month d <= 12
  /\ 1 <= day d <= 31
  /\ 0 <= hour d <= 23 /\ 0 <= minute d <= 59 /\ 0 <= second d <= 59
  /\ 0 <= microsecond d <= 999999
  /\ (forall m, utcoffset d = Some m -> -1439 <= m <= 1439).
Proof.
  unfold valid, between. intros H.
  repeat (apply andb_true_iff in H as [H ?]).
  assert (Hdim : days_in_month (year d) (month d) <= 31).
  { unfold days_in_month.
    repeat match goal with |- context [if ?c then _ else _] => destruct c end;
      lia. }
  do 7 (split; [lia|]).
  intros m Hm. rewrite Hm in *. lia.
Qed.

Lemma parse_offset_text (o : option Z) :
  (forall m, o = Some m -> -1439 <= m <= 1439) ->
  parse_offset (offset_text o) = Ok o.
Proof.
  intros Ho. destruct o as [m|]; [|reflexivity].
  specialize (Ho m eq_refl). unfold offset_text.
  assert (Hh : 0 <= Z.abs m / 60 < 10 ^ Z.of_nat 2).
  { split; [apply Z.div_pos; lia|]. apply Z.div_lt_upper_bound; lia. }
  assert (Hm : 0 <= Z.abs m mod 60 < 10 ^ Z.of_nat 2).
  { pose proof (Z.mod_pos_bound (Z.abs m) 60). lia. }
  pose proof (Z.div_mod (Z.abs m) 60 ltac:(lia)) as Hdm.
  destruct (m <? 0) eqn:Hneg;
    cbn [String.append parse_offset Ascii.eqb Bool.eqb andb bind];
    rewrite take_digits_zpad by assumption;
    cbn [String.append bind expect Ascii.eqb Bool.eqb andb];
    rewrite take_digits_zpad_end by assumption;
    cbn [bind]; do 2 f_equal.
  - apply Z.ltb_lt in Hneg. lia.
  - apply Z.ltb_ge in Hneg. lia.
Qed.

Lemma parse_fraction_offset (o : option Z) :
  parse_fraction (offset_text o) = Ok (0, offset_text o).
Proof.
  destruct o as [m|]; [|reflexivity].
  unfold offset_text. destruct (m <? 0); reflexivity.
Qed.

(** [fromisoformat] reads back what [isoformat] wrote. *)
Lemma fromisoformat_isoformat (d : datetime) :
  valid d = true -> fromisoformat (isoformat d) = Ok d.
Proof.
  intros Hv. destruct (valid_ranges d Hv) as (Hy & Hmo & Hd & Hh & Hmi & Hs & Hus & Ho).
  assert (Hfrac :
    parse_fraction
      ((if microsecond d =? 0 then "" else "." +++ zpad 6 (microsecond d))
       +++ offset_text (utcoffset d))
    = Ok (microsecond d, offset_text (utcoffset d))).
  { destruct (microsecond d =? 0) eqn:Hz.
    - apply Z.eqb_eq in Hz. rewrite Hz. cbn [String.append].
      apply parse_fraction_offset.
    - cbn [String.append parse_fraction].
      rewrite take_digits_zpad by (cbn; lia). reflexivity. }
  unfold fromisoformat, isoformat.
  rewrite take_digits_zpad by (cbn; lia).
  cbn [bind expect any_char String.append Ascii.eqb Bool.eqb andb].
  repeat (rewrite take_digits_zpad by (cbn; lia);
          cbn [bind expect any_char String.append Ascii.eqb Bool.eqb andb]).
  cbn [String.append] in Hfrac. rewrite Hfrac. cbn [bind].
  rewrite parse_offset_text by assumption. cbn [bind].
  replace (0 * 10 ^ Z.of_nat 4 + year d) with (year d) by lia.
  repeat match goal with
         | |- context [0 * 10 ^ Z.of_nat 2 + ?x] =>
             replace (0 * 10 ^ Z.of_nat 2 + x) with x by lia
         end.
  destruct d. cbn [year month day hour minute second microsecond utcoffset] in *.
  rewrite Hv. reflexivity.
Qed.

(** *** The order of the texts is the order of the instants *)

Lemma ascii_compare_digit (x y : Z) :
  0 <= x <= 9 -> 0 <= y <= 9 -> Ascii.compare (digit x) (digit y) = (x ?= y).
Proof.
  intros Hx Hy. unfold Ascii.compare.
  rewrite <- N2Z.inj_compare, !digit_code by assumption.
  apply Z.add_compare_mono_l.
Qed.

Lemma string_compare_refl (s : string) : String.compare s s = Eq.
Proof.
  induction s as [|c s IH]; cbn [String.compare]; [reflexivity|].
  unfold Ascii.compare. rewrite N.compare_refl. exact IH.
Qed.

Lemma string_compare_cons (c : ascii) (x y : string) :
  String.compare (String c x) (String c y) = String.compare x y.
Proof.
  cbn [String.compare]. unfold Ascii.compare. rewrite N.compare_refl.
  reflexivity.
Qed.

(** Two numbers written with the same width compare as their digits do. *)
Lemma compare_zpad (w : nat) :
  forall (a b : Z) (x y : string),
    0 <= a < 10 ^ Z.of_nat w -> 0 <= b < 10 ^ Z.of_nat w ->
    String.compare (zpad w a +++ x) (zpad w b +++ y)
    = match a ?= b with
      | Eq => String.compare x y
      | c => c
      end.
Proof.
  induction w as [|w IH]; intros a b x y Ha Hb.
  - cbn in Ha, Hb. replace a with 0 by lia. replace b with 0 by lia.
    reflexivity.
  - destruct (leading_digit w a Ha) as (Hqa & Hra & Hsa).
    destruct (leading_digit w b Hb) as (Hqb & Hrb & Hsb).
    cbn [zpad String.append String.compare].
    rewrite ascii_compare_digit by assumption.
    rewrite IH by assumption.
    set (P := 10 ^ Z.of_nat w) in *.
    set (qa := a / P) in *. set (ra := a mod P) in *.
    set (qb := b / P) in *. set (rb := b mod P) in *.
    assert (Hab : (a ?= b) = match qa ?= qb with Eq => ra ?= rb | c => c end).
    { destruct (Z.compare_spec qa qb) as [Hq|Hq|Hq];
        [destruct (Z.compare_spec ra rb) as [Hr|Hr|Hr]| |].
      - apply Z.compare_eq_iff. congruence.
      - apply Z.compare_lt_iff. nia.
      - apply Z.compare_gt_iff. nia.
      - apply Z.compare_lt_iff. nia.
      - apply Z.compare_gt_iff. nia. }
    rewrite Hab. destruct (qa ?= qb), (ra ?= rb); reflexivity.
Qed.

Lemma compare_offset_dot (o : option Z) (s : string) :
  String.compare (offset_text o) (String "." s) = Lt.
Proof.
  destruct o as [m|]; [|reflexivity].
  unfold offset_text. destruct (m <? 0); reflexivity.
Qed.

Lemma compare_fraction (ua ub : Z) (o : option Z) :
  0 <= ua <= 999999 -> 0 <= ub <= 999999 ->
  String.compare
    ((if ua =? 0 then "" else "." +++ zpad 6 ua) +++ offset_text o)
    ((if ub =? 0 then "" else "." +++ zpad 6 ub) +++ offset_text o)
  = (ua ?= ub).
Proof.
  intros Ha Hb.
  destruct (Z.eqb_spec ua 0) as [->|Hna]; destruct (Z.eqb_spec ub 0) as [->|Hnb];
    cbn [String.append].
  - apply string_compare_refl.
  - rewrite compare_offset_dot. symmetry. apply Z.compare_lt_iff. lia.
  - rewrite String.compare_antisym, compare_offset_dot. cbn [CompOpp].
    symmetry. apply Z.compare_gt_iff. lia.
  - rewrite string_compare_cons, compare_zpad by (cbn; lia).
    rewrite string_compare_refl. destruct (ua ?= ub); reflexivity.
Qed.

(** On two valid objects with the same offset, comparing the texts of
    [isoformat] is comparing the objects. *)
Lemma compare_isoformat (a b : datetime) :
  valid a = true -> valid b = true -> utcoffset a = utcoffset b ->
  String.compare (isoformat a) (isoformat b) = DateTime.compare a b.
Proof.
  intros Hva Hvb Ho.
  destruct (valid_ranges a Hva) as (? & ? & ? & ? & ? & ? & ? & _).
  destruct (valid_ranges b Hvb) as (? & ? & ? & ? & ? & ? & ? & _).
  unfold isoformat, DateTime.compare, fields. rewrite Ho.
  cbn [lex_compare].
  rewrite compare_zpad by (cbn; lia).
  cbn [String.append]. rewrite string_compare_cons.
  do 5 (rewrite compare_zpad by (cbn; lia);
        cbn [String.append]; rewrite ?string_compare_cons).
  pose proof (compare_fraction (microsecond a) (microsecond b) (utcoffset b)
                ltac:(lia) ltac:(lia)) as Hf.
  cbn [String.append] in Hf. rewrite Hf.
  destruct (microsecond a ?= microsecond b); reflexivity.
Qed.

Lemma leb_isoformat (a b : datetime) :
  valid a = true -> valid b = true -> utcoffset a = utcoffset b ->
  String.leb (isoformat a) (isoformat b) = DateTime.leb a b.
Proof.
  intros Hva Hvb Ho. unfold String.leb, DateTime.leb.
  rewrite compare_isoformat by assumption. reflexivity.
Qed.

Lemma lex_compare_le_trans (a : list Z) :
  forall b c,
    List.length a = List.length b -> List.length b = List.length c ->
    lex_compare a b <> Gt -> lex_compare b c <> Gt -> lex_compare a c <> Gt.
Proof.
  induction a as [|x a IH]; intros [|y b] [|z c]; cbn [List.length lex_compare];
    try discriminate; try congruence.
  intros Hab Hbc. injection Hab as Hab. injection Hbc as Hbc.
  destruct (Z.compare_spec x y) as [Hxy|Hxy|Hxy];
    destruct (Z.compare_spec y z) as [Hyz|Hyz|Hyz];
    intros H1 H2; try congruence.
  all: try (subst; rewrite Z.compare_refl; eapply IH; eassumption).
  all: replace (x ?= z) with Lt by (symmetry; apply Z.compare_lt_iff; lia);
    discriminate.
Qed.

Lemma leb_trans (a b c : datetime) :
  DateTime.leb a b = true -> DateTime.leb b c = true -> DateTime.leb a c = true.
Proof.
  unfold DateTime.leb, DateTime.compare. intros Hab Hbc.
  pose proof (lex_compare_le_trans (fields a) (fields b) (fields c)
                eq_refl eq_refl) as H.
  destruct (lex_compare (fields a) (fields c)) eqn:Hac; try reflexivity.
  exfalso. apply H; [| |reflexivity].
  - intros E. rewrite E in Hab. discriminate.
  - intros E. rewrite E in Hbc. discriminate.
Qed.

End DateTimeFacts.

(* ================================================================== *)
(** ** The collection *)

Module StoreFacts.

Import DateTimeFacts.

Lemma insert_desc_perm (doc : Document) (l : list Document) :
  Permutation (insert_desc doc l) (doc :: l).
Proof.
  induction l as [|x l IH]; cbn [insert_desc]; [reflexivity|].
  destruct (String.leb (timestamp x) (timestamp doc)); [reflexivity|].
  rewrite IH. apply perm_swap.
Qed.

Lemma sort_desc_perm (l : list Document) : Permutation (sort_desc l) l.
Proof.
  induction l as [|x l IH]; cbn [sort_desc fold_right]; [reflexivity|].
  fold (sort_desc l). rewrite insert_desc_perm. constructor. exact IH.
Qed.

Lemma insert_desc_head (y doc : Document) (l : list Document) :
  HdRel text_desc y l -> text_desc y doc -> HdRel text_desc y (insert_desc doc l).
Proof.
  intros Hl Hd. destruct l as [|x l]; cbn [insert_desc].
  - constructor. exact Hd.
  - destruct (String.leb (timestamp x) (timestamp doc)); constructor;
      [exact Hd | eapply HdRel_inv, Hl].
Qed.

Lemma insert_desc_sorted (doc : Document) (l : list Document) :
  Sorted text_desc l -> Sorted text_desc (insert_desc doc l).
Proof.
  induction 1 as [|x l Hs IH Hh]; cbn [insert_desc].
  - repeat constructor.
  - destruct (String.leb (timestamp x) (timestamp doc)) eqn:Hle.
    + constructor; [constructor; assumption|]. constructor. exact Hle.
    + constructor; [exact IH|]. apply insert_desc_head; [exact Hh|].
      unfold text_desc.
      destruct (String.leb_total (timestamp x) (timestamp doc)); congruence.
Qed.

(** [sort_desc] puts the documents in decreasing order of [timestamp]. *)
Lemma sort_desc_sorted (l : list Document) : Sorted text_desc (sort_desc l).
Proof.
  induction l as [|x l IH]; cbn [sort_desc fold_right]; [constructor|].
  apply insert_desc_sorted, IH.
Qed.

Lemma with_timestamp_back (a : Analysis) :
  with_timestamp (dump a) (timestamp a) = a.
Proof. destruct a. reflexivity. Qed.

(** Reading back a document written from a record gives the record. *)
Lemma load_dump (a : Analysis) : well_stamped a -> load (dump a) = Ok a.
Proof.
  intros Hv. unfold load. cbn [dump with_timestamp timestamp].
  rewrite fromisoformat_isoformat by exact Hv. cbn [bind].
  f_equal. apply with_timestamp_back.
Qed.

Lemma load_all_dump (records : list Analysis) :
  Forall well_stamped records -> load_all (map dump records) = Ok records.
Proof.
  induction 1 as [|a records Ha _ IH]; cbn [map load_all]; [reflexivity|].
  rewrite load_dump by exact Ha. cbn [bind]. rewrite IH. reflexivity.
Qed.

Lemma load_all_inv (docs : list Document) :
  forall out,
    load_all docs = Ok out -> Forall2 (fun doc a => load doc = Ok a) docs out.
Proof.
  induction docs as [|doc docs IH]; cbn [load_all]; intros out.
  - intros [= <-]. constructor.
  - destruct (load doc) as [a|] eqn:Ha; [|discriminate]. cbn [bind].
    destruct (load_all docs) as [rest|]; [|discriminate]. cbn [bind].
    intros [= <-]. constructor; [exact Ha | apply IH; reflexivity].
Qed.

(** Sorting a collection written from [records] gives the documents of a
    rearrangement of [records]. *)
Lemma sort_desc_dump (records : list Analysis) :
  exists sorted,
    sort_desc (map dump records) = map dump sorted
    /\ Permutation records sorted.
Proof. apply Permutation_map_inv, sort_desc_perm. Qed.

Lemma utc_well_stamped (records : list Analysis) :
  Forall utc_stamped records -> Forall well_stamped records.
Proof. apply Forall_impl. intros a [H _]. exact H. Qed.

Lemma not_older_of_text (a b : Analysis) :
  utc_stamped a -> utc_stamped b ->
  text_desc (dump a) (dump b) -> not_older a b.
Proof.
  intros [Hva Hoa] [Hvb Hob]. unfold text_desc, not_older.
  cbn [dump with_timestamp timestamp].
  rewrite leb_isoformat by congruence. auto.
Qed.

Lemma sorted_of_text (records : list Analysis) :
  Forall utc_stamped records ->
  Sorted text_desc (map dump records) -> Sorted not_older records.
Proof.
  induction 1 as [|a records Ha Hall IH]; cbn [map]; intros Hs; [constructor|].
  apply Sorted_inv in Hs as [Hs Hh]. constructor; [apply IH, Hs|].
  destruct Hall as [|b records Hb _]; cbn [map] in Hh; constructor.
  apply not_older_of_text; [assumption..|]. eapply HdRel_inv, Hh.
Qed.

Lemma not_older_trans : Relations_1.Transitive not_older.
Proof.
  intros a b c Hab Hbc. unfold not_older in *.
  eapply leb_trans; eassumption.
Qed.

Lemma StronglySorted_firstn {A} (R : A -> A -> Prop) (n : nat) (l : list A) :
  StronglySorted R l -> StronglySorted R (firstn n l).
Proof.
  intros H. revert n. induction H as [|x l Hs IH Hx]; intros [|n];
    cbn [firstn]; constructor.
  - apply IH.
  - apply ScoringFacts.Forall_firstn, Hx.
Qed.

Lemma Forall_perm {A} (P : A -> Prop) (l l' : list A) :
  Permutation l l' -> Forall P l -> Forall P l'.
Proof.
  intros Hperm Hall. apply Forall_forall. intros a Ha.
  apply (proj1 (Forall_forall _ _) Hall).
  eapply Permutation_in; [apply Permutation_sym, Hperm | exact Ha].
Qed.

(** GET /api/analyses on a collection written from [records]: the first
    ten of a rearrangement of [records] ... *)
Lemma get_recent_dump (records : list Analysis) :
  Forall well_stamped records ->
  exists sorted,
    Permutation records sorted
    /\ sort_desc (map dump records) = map dump sorted
    /\ get_recent_analyses (map dump records) = Http200 (firstn 10 sorted).
Proof.
  intros Hall.
  destruct (sort_desc_dump records) as (sorted & Hsort & Hperm).
  exists sorted. split; [exact Hperm|]. split; [exact Hsort|].
  unfold get_recent_analyses. rewrite Hsort, firstn_map.
  rewrite load_all_dump; [reflexivity|].
  apply ScoringFacts.Forall_firstn. eapply Forall_perm; eassumption.
Qed.

(** ... which is in order when the records are UTC-stamped. *)
Lemma sorted_newest_first (sorted : list Analysis) :
  Forall utc_stamped sorted ->
  Sorted text_desc (map dump sorted) -> newest_first sorted.
Proof.
  intros Hall Hs. apply Sorted_StronglySorted; [exact not_older_trans|].
  apply sorted_of_text; assumption.
Qed.

Lemma make_Analysis_timestamp (w : World) (username : string)
    (github_data : Summary) (ai_analysis breakdown : json) (overall : Z)
    (analysis : Analysis) :
  make_Analysis w username github_data ai_analysis breakdown overall
  = Ok analysis ->
  timestamp analysis = utcnow w.
Proof.
  unfold make_Analysis.
  repeat match goal with
         | |- context [bind ?m _] =>
             destruct m; cbn [bind]; [|discriminate]
         end.
  intros [= <-]. reflexivity.
Qed.

(** What POST /api/analyze does to the collection: nothing, or it appends
    the document of the record it answers with, stamped by the clock. *)
Lemma analyze_store (json_loads : string -> option json) (w : World)
    (db : list Document) (request : AnalyzeRequest) :
  snd (analyze_github_profile json_loads w db request) = db
  \/ exists analysis,
       analyze_github_profile json_loads w db request
       = (Http200 analysis, insert_one db (dump analysis))
       /\ timestamp analysis = utcnow w.
Proof.
  unfold analyze_github_profile, analyze_try.
  destruct (derive_username (github_url request)) as [username|e];
    cbn [bind]; [|destruct e; left; reflexivity].
  destruct (analyze_profile w username) as [github_data|e];
    cbn [bind]; [|destruct e; left; reflexivity].
  destruct (generate_analysis json_loads w github_data) as [ai|e];
    cbn [bind]; [|destruct e; left; reflexivity].
  destruct (calculate_overall_score ai) as [[breakdown overall]|e];
    cbn [bind]; [|destruct e; left; reflexivity].
  destruct (make_Analysis w username github_data ai breakdown overall)
    as [analysis|e] eqn:Hm; cbn [bind]; [|destruct e; left; reflexivity].
  right. exists analysis. split; [reflexivity|].
  eapply make_Analysis_timestamp, Hm.
Qed.

(** Every reachable collection was written from UTC-stamped records. *)
Lemma reachable_written (json_loads : string -> option json)
    (db : list Document) :
  reachable json_loads db ->
  exists records, db = map dump records /\ Forall utc_stamped records.
Proof.
  induction 1 as [|w db request Hreach IH Hclock].
  - exists []. split; [reflexivity | constructor].
  - destruct IH as (records & -> & Hall).
    destruct (analyze_store json_loads w (map dump records) request)
      as [-> | (analysis & -> & Hts)].
    + exists records. auto.
    + exists (records ++ [analysis]). cbn [snd]. unfold insert_one.
      rewrite map_app. split; [reflexivity|].
      apply Forall_app. split; [exact Hall|]. constructor; [|constructor].
      unfold utc_stamped. rewrite Hts. exact Hclock.
Qed.

Lemma twelve_posts_reachable :
  reachable Samples.loads_brackets Cases.twelve_posts.
Proof.
  unfold Cases.twelve_posts, Cases.posts. cbn [fold_left].
  repeat (apply reachable_analyze; [|split; reflexivity]).
  apply reachable_empty.
Qed.

End StoreFacts.

Section Collection.

Import DateTimeFacts StoreFacts.

Variable json_loads : string -> option json.

(** C8, as amended: GET /api/analyses never answers more than 10
    records, and what it answers are the first documents in decreasing
    order of their stored [timestamp] text, each with that text read
    back into a [datetime].  On every collection that the server has
    written (POST /api/analyze with a UTC clock, from the empty
    collection) it answers 200 with ten records, or all when there are
    fewer; each record is a stored document with the instant that its
    text was written from; and the timestamps do not increase from the
    first record to the last (newest first).  On other collections the
    order of the texts need not be the order of the instants. *)
Theorem recent_analyses_newest_first (db : list Document) :
  Permutation (sort_desc db) db
  /\ Sorted text_desc (sort_desc db)
  /\ (forall out,
        get_recent_analyses db = Http200 out ->
        (List.length out <= 10)%nat
        /\ Forall2 (fun doc a => load doc = Ok a) (firstn 10 (sort_desc db)) out)
  /\ (reachable json_loads db ->
      exists out,
        get_recent_analyses db = Http200 out
        /\ (List.length out <= 10)%nat
        /\ List.length out = Nat.min 10 (List.length db)
        /\ Forall utc_stamped out
        /\ newest_first out
        /\ map dump out = firstn 10 (sort_desc db)
        /\ Forall2 (fun doc a =>
                      fromisoformat (timestamp doc) = Ok (timestamp a)
                      /\ with_timestamp doc (timestamp a) = a)
             (firstn 10 (sort_desc db)) out).
Proof.
  split; [apply sort_desc_perm|]. split; [apply sort_desc_sorted|]. split.
  { intros out. unfold get_recent_analyses.
    destruct (load_all (firstn 10 (sort_desc db))) as [l|] eqn:Hl;
      [|discriminate].
    intros [= <-]. apply load_all_inv in Hl. split; [|exact Hl].
    rewrite <- (Forall2_length Hl). apply firstn_le_length. }
  intros Hreach.
  destruct (reachable_written _ _ Hreach) as (records & -> & Hall).
  destruct (get_recent_dump records (utc_well_stamped _ Hall))
    as (sorted & Hperm & Hsort & Hget).
  assert (Hall' : Forall utc_stamped sorted) by (eapply Forall_perm; eassumption).
  exists (firstn 10 sorted). split; [exact Hget|].
  split; [apply firstn_le_length|].
  split.
  { rewrite length_firstn, length_map, (Permutation_length Hperm).
    reflexivity. }
  split; [apply ScoringFacts.Forall_firstn, Hall'|].
  split.
  { apply StronglySorted_firstn, sorted_newest_first; [exact Hall'|].
    rewrite <- Hsort. apply sort_desc_sorted. }
  split; [rewrite Hsort, firstn_map; reflexivity|].
  rewrite Hsort, firstn_map.
  generalize (ScoringFacts.Forall_firstn _ 10 _ Hall').
  generalize (firstn 10 sorted) as l.
  induction 1 as [|a l [Ha _] _ IH]; cbn [map]; constructor; [|exact IH].
  cbn [dump with_timestamp timestamp]. split.
  - apply fromisoformat_isoformat, Ha.
  - apply with_timestamp_back.
Qed.

End Collection.

(** The order of the texts is not the order of the instants on a
    collection with a text that [isoformat()] did not write: in
    [mixed_store] the document of the evening sorts after the one of
    12:30, and GET /api/analyses answers the older record first. *)
Lemma recent_analyses_older_first :
  exists older newer,
    get_recent_analyses Cases.mixed_store = Http200 [older; newer]
    /\ DateTime.leb (timestamp older) (timestamp newer) = true
    /\ DateTime.leb (timestamp newer) (timestamp older) = false.
Proof. eexists. eexists. split; [reflexivity|]. split; reflexivity. Qed.

(** C9: a record written to the collection and read back by
    GET /api/analyses comes back with the timestamp it had, microseconds
    included: the ISO-8601 text of a valid [datetime] parses to the same
    [datetime], every record that is read back is one of the records that
    were written, and the record just written is among them at least when
    fewer than ten were there before. *)
Theorem timestamp_round_trip (records : list Analysis) (a : Analysis) :
  Forall well_stamped records -> well_stamped a ->
  fromisoformat (timestamp (dump a)) = Ok (timestamp a)
  /\ load (dump a) = Ok a
  /\ exists out,
       get_recent_analyses (insert_one (map dump records) (dump a))
       = Http200 out
       /\ (forall x, In x out -> In x (records ++ [a]))
       /\ ((List.length records < 10)%nat -> In a out).
Proof.
  intros Hall Ha.
  split; [apply DateTimeFacts.fromisoformat_isoformat, Ha|].
  split; [apply StoreFacts.load_dump, Ha|].
  assert (Hall' : Forall well_stamped (records ++ [a])).
  { apply Forall_app. split; [exact Hall | repeat constructor; exact Ha]. }
  destruct (StoreFacts.get_recent_dump _ Hall') as (sorted & Hperm & _ & Hget).
  exists (firstn 10 sorted). unfold insert_one.
  change [dump a] with (map dump [a]). rewrite <- map_app.
  split; [exact Hget|]. split.
  - intros x Hx. eapply Permutation_in; [apply Permutation_sym, Hperm|].
    revert Hx. generalize 10%nat. generalize sorted.
    induction sorted0 as [|y l IH]; intros [|n]; cbn [firstn In]; try tauto.
    intros [->|Hx]; [left; reflexivity | right; eapply IH, Hx].
  - intros Hlen. rewrite firstn_all2.
    + eapply Permutation_in; [exact Hperm|]. apply in_or_app. right. left.
      reflexivity.
    + rewrite <- (Permutation_length Hperm), length_app. cbn. lia.
Qed.

(* ================================================================== *)
(** ** The theorems at work on the sample environments *)

Section Instances.

Import Samples.

Lemma overall_score_floor_mean_witness :
  calculate_overall_score (JDict [("score_breakdown", JDict swapped_breakdown)])
  = Ok (JDict swapped_breakdown, 58).
Proof.
  exact (proj1 (overall_score_floor_mean
                  [("score_breakdown", JDict swapped_breakdown)]
                  swapped_breakdown 60 65 55 60 50 60 eq_refl
                  (perm_swap _ _ _))).
Defined.

Lemma scoring_failure_defaults_witness :
  exists analysis,
    analyze_github_profile loads_brackets (world [hello_world] LlmRaises)
      [dump record] octocat_request
    = (Http200 analysis, [dump record; dump analysis])
    /\ score_breakdown analysis = default_scores
    /\ overall_score analysis = 58.
Proof.
  edestruct (scoring_failure_defaults loads_brackets
               (world [hello_world] LlmRaises) [dump record] octocat_request)
    as (analysis & Hpost & _ & Hscores & Hoverall & _).
  - reflexivity.
  - reflexivity.
  - reflexivity.
  - left. reflexivity.
  - exists analysis. split; [exact Hpost|]. split; assumption.
Defined.

Lemma profile_not_found_witness :
  analyze_github_profile loads_brackets world_404 [] octocat_request
  = (HttpError 404 "GitHub user not found", []).
Proof.
  exact (profile_not_found loads_brackets world_404 [] octocat_request
           "octocat" None eq_refl eq_refl).
Defined.

Lemma generate_analysis_returns_witness :
  exists github_data,
    analyze_profile (world [hello_world] (LlmText "[]")) "octocat"
    = Ok github_data
    /\ exists payload,
         generate_analysis loads_brackets (world [hello_world] (LlmText "[]"))
           github_data
         = Ok payload.
Proof.
  eexists. split; [reflexivity|].
  destruct (proj1 (generate_analysis_returns loads_brackets
                     (world [hello_world] (LlmText "[]")) "octocat" _
                     eq_refl) eq_refl eq_refl) as (payload & Hp & _).
  exists payload. exact Hp.
Defined.

Lemma analyze_profile_aggregate_witness :
  exists github_data,
    analyze_profile (world dozen LlmRaises) "octocat" = Ok github_data
    /\ total_stars (stats github_data) = 36
    /\ total_forks (stats github_data) = 12
    /\ tally_get (JStr "Python") (languages (stats github_data)) = 10
    /\ repos_with_description (stats github_data) = 10
    /\ repos_with_readme (stats github_data) = 10
    /\ List.length (top_repos (stats github_data)) = 10%nat.
Proof.
  destruct (analyze_profile_aggregate (world dozen LlmRaises) "octocat"
              octocat dozen (List.repeat 3 12) (List.repeat 1 12)
              eq_refl eq_refl eq_refl eq_refl eq_refl)
    as (github_data & Hgd & _ & _ & Hs & Hf & Hl & Hd & Hr & Ht & _).
  exists github_data. split; [exact Hgd|].
  split; [exact Hs|]. split; [exact Hf|].
  split; [exact (Hl (JStr "Python"))|].
  split; [exact Hd|]. split; [exact Hr|].
  rewrite Ht. reflexivity.
Defined.

Lemma recent_analyses_newest_first_witness :
  exists out,
    List.length Cases.twelve_posts = 12%nat
    /\ get_recent_analyses Cases.twelve_posts = Http200 out
    /\ List.length out = 10%nat
    /\ newest_first out
    /\ map (fun a => second (timestamp a)) out
       = [11; 10; 9; 8; 7; 6; 5; 4; 3; 2].
Proof.
  destruct (proj2 (proj2 (proj2
              (recent_analyses_newest_first loads_brackets _)))
              StoreFacts.twelve_posts_reachable)
    as (out & Hget & _ & Hlen & _ & Hsorted & _).
  exists out. split; [vm_compute; reflexivity|]. split; [exact Hget|].
  split; [rewrite Hlen; vm_compute; reflexivity|].
  split; [exact Hsorted|].
  vm_compute in Hget. injection Hget as <-. reflexivity.
Defined.

Lemma timestamp_round_trip_witness :
  fromisoformat (timestamp (dump record)) = Ok (timestamp record)
  /\ load (dump record) = Ok record
  /\ exists out,
       get_recent_analyses (insert_one (map dump []) (dump record))
       = Http200 out
       /\ (forall x, In x out -> In x ([] ++ [record]))
       /\ ((List.length (@nil Analysis) < 10)%nat -> In record out).
Proof.
  exact (timestamp_round_trip [] record (Forall_nil _) eq_refl).
Defined.

Lemma misshapen_payload_fails_witness :
  exists e,
    analyze_github_profile loads_brackets (world [hello_world] (LlmText "[]"))
      [] octocat_request
    = (HttpAnalysisFailed e, [])
    /\ status (fst (analyze_github_profile loads_brackets
                      (world [hello_world] (LlmText "[]")) [] octocat_request))
       = 500.
Proof.
  edestruct (misshapen_payload_fails loads_brackets
               (world [hello_world] (LlmText "[]")) [] octocat_request)
    as (_ & H & _).
  - reflexivity.
  - reflexivity.
  - reflexivity.
  - reflexivity.
  - reflexivity.
  - reflexivity.
  - exact (H eq_refl).
Defined.

End Instances.

(* ================================================================== *)
(** * Further properties *)

(** ** The fetchers and the status of POST /api/analyze *)

Module FetchFacts.

(** The outcomes of [get_user_profile], by what the request does. *)
Lemma get_user_profile_cases (w : World) (username : string) :
  match http_get_user w username with
  | BadURL => get_user_profile w username = Raise InvalidURL
  | NoReply =>
      get_user_profile w username
      = Raise (HTTPException 500 "Failed to fetch GitHub profile")
  | Reply status_code body =>
      if status_code =? 404 then
        get_user_profile w username
        = Raise (HTTPException 404 "GitHub user not found")
      else if between 200 status_code 299 then
        get_user_profile w username = json_body body
      else
        get_user_profile w username
        = Raise (HTTPException 500 "Failed to fetch GitHub profile")
  end.
Proof.
  unfold get_user_profile, raise_for_status.
  destruct (http_get_user w username) as [| |status_code body];
    [reflexivity|reflexivity|].
  destruct (status_code =? 404); [reflexivity|].
  destruct (between 200 status_code 299); [|reflexivity].
  cbn [bind]. destruct body; reflexivity.
Qed.

(** [get_repositories] raises nothing but the [InvalidURL] of the client
    and the [ValueError] of a body that does not decode. *)
Lemma get_repositories_cases (w : World) (username : string) :
  match http_get_repos w username with
  | BadURL => get_repositories w username = Raise InvalidURL
  | NoReply => get_repositories w username = Ok []
  | Reply status_code body =>
      if between 200 status_code 299 then
        get_repositories w username = json_body body
      else get_repositories w username = Ok []
  end.
Proof.
  unfold get_repositories, raise_for_status.
  destruct (http_get_repos w username) as [| |status_code body];
    [reflexivity|reflexivity|].
  destruct (between 200 status_code 299); [|reflexivity].
  cbn [bind]. destruct body; reflexivity.
Qed.

Lemma no_http_get_repositories (w : World) (username : string) :
  raises_no_http (get_repositories w username).
Proof.
  pose proof (get_repositories_cases w username) as H.
  destruct (http_get_repos w username) as [| |status_code body].
  - rewrite H. (cbn; auto).
  - rewrite H. (cbn; auto).
  - destruct (between 200 status_code 299); rewrite H; [|(cbn; auto)].
    destruct body; cbn; auto.
Qed.

Lemma no_http_for_each {A S} (body : S -> A -> result S) (xs : list A) :
  (forall st x, raises_no_http (body st x)) ->
  forall st, raises_no_http (for_each body xs st).
Proof.
  intros Hbody. induction xs as [|x xs IH]; intros st; cbn [for_each].
  - (cbn; auto).
  - apply no_http_bind; [apply Hbody | exact IH].
Qed.

Lemma no_http_scan_repo (w : World) (username : string) (st : Scan)
    (repo : dict) :
  raises_no_http (scan_repo w username st repo).
Proof.
  unfold scan_repo.
  apply no_http_bind.
  - destruct (truthy (get_none repo "language")); [|(cbn; auto)].
    apply no_http_bind; [apply no_http_item|]. intros language.
    destruct (hashable language); (cbn; auto).
  - intros languages'. apply no_http_bind; [apply no_http_item|].
    intros name. (cbn; auto).
Qed.

(** After the profile is fetched, [analyze_profile] raises no
    [HTTPException]. *)
Lemma analyze_profile_after_fetch (w : World) (username : string) :
  match get_user_profile w username with
  | Raise e => analyze_profile w username = Raise e
  | Ok _ => raises_no_http (analyze_profile w username)
  end.
Proof.
  unfold analyze_profile.
  destruct (get_user_profile w username) as [user|e]; [|reflexivity].
  cbn [bind].
  apply no_http_bind; [apply no_http_get_repositories|]. intros repos.
  apply no_http_bind; [apply no_http_sum|]. intros stars.
  apply no_http_bind; [apply no_http_sum|]. intros forks.
  apply no_http_bind; [|intros st; (cbn; auto)].
  apply no_http_for_each. intros st repo. apply no_http_scan_repo.
Qed.

Lemma no_http_strings_of (xs : list json) : raises_no_http (strings_of xs).
Proof.
  induction xs as [|x xs IH]; cbn [strings_of]; [(cbn; auto)|].
  destruct x; try (cbn; auto).
  apply no_http_bind; [exact IH | intros ss; (cbn; auto)].
Qed.

Lemma no_http_build_prompt (github_data : Summary) :
  raises_no_http (build_prompt github_data).
Proof.
  unfold build_prompt, join, format_repos.
  apply no_http_bind;
    [unfold str_int; destruct (_ <=? _); (cbn; auto) | intros stars].
  apply no_http_bind;
    [unfold str_int; destruct (_ <=? _); (cbn; auto) | intros forks].
  apply no_http_bind.
  - apply no_http_bind; [apply no_http_strings_of | intros ss; (cbn; auto)].
  - intros languages_used. apply no_http_bind; [|intros top; (cbn; auto)].
    apply no_http_for_each. intros lines repo.
    apply no_http_bind; [apply no_http_item | intros name; (cbn; auto)].
Qed.

Lemma no_http_generate_analysis (json_loads : string -> option json)
    (w : World) (github_data : Summary) :
  raises_no_http (generate_analysis json_loads w github_data).
Proof.
  unfold generate_analysis.
  apply no_http_bind; [apply no_http_build_prompt|]. intros prompt.
  unfold try_except.
  destruct (send_message w prompt) as [|response]; [(cbn; auto)|].
  destruct (x <- json_text response ;; loads json_loads x); (cbn; auto).
Qed.

(** Every [HTTPException] of the analyze handler is one that
    [get_user_profile] raised. *)
Lemma analyze_try_http (json_loads : string -> option json) (w : World)
    (db : list Document) (request : AnalyzeRequest) (username : string) :
  derive_username (github_url request) = Ok username ->
  match get_user_profile w username with
  | Raise e => analyze_try json_loads w db request = Raise e
  | Ok _ => raises_no_http (analyze_try json_loads w db request)
  end.
Proof.
  intros Hu. unfold analyze_try. rewrite Hu. cbn [bind].
  pose proof (analyze_profile_after_fetch w username) as Hap.
  destruct (get_user_profile w username) as [user|e].
  - apply no_http_bind; [exact Hap|]. intros github_data.
    apply no_http_bind; [apply no_http_generate_analysis|]. intros ai.
    apply (no_http_conclude w db username github_data ai).
  - rewrite Hap. reflexivity.
Qed.

End FetchFacts.

Section Status.

Import FetchFacts.

Variable json_loads : string -> option json.

Lemma make_Analysis_fields (w : World) (username : string)
    (github_data : Summary) (ai_analysis breakdown : json) (overall : Z)
    (analysis : Analysis) :
  make_Analysis w username github_data ai_analysis breakdown overall
  = Ok analysis ->
  id analysis = uuid4 w
  /\ Model.username analysis = username
  /\ overall_score analysis = overall
  /\ timestamp analysis = utcnow w
  /\ pd_total_stars (profile_data analysis) = total_stars (stats github_data)
  /\ pd_languages (profile_data analysis) = languages (stats github_data).
Proof.
  unfold make_Analysis.
  repeat match goal with
         | |- context [bind ?m _] =>
             destruct m; cbn [bind]; [|discriminate]
         end.
  intros [= <-]. repeat split.
Qed.

(** The response of the handler, by the outcome of its steps. *)
Lemma analyze_outcome (w : World) (db : list Document)
    (request : AnalyzeRequest) :
  match analyze_try json_loads w db request with
  | Ok (analysis, db') =>
      analyze_github_profile json_loads w db request = (Http200 analysis, db')
  | Raise (HTTPException status_code detail) =>
      analyze_github_profile json_loads w db request
      = (HttpError status_code detail, db)
  | Raise e =>
      analyze_github_profile json_loads w db request
      = (HttpAnalysisFailed e, db)
  end.
Proof.
  unfold analyze_github_profile.
  destruct (analyze_try json_loads w db request) as [[analysis db']|e];
    [reflexivity|].
  destruct e; reflexivity.
Qed.

(** X1: the two ways in which the profile request fails without a
    reply of 404.  When the request raises an [httpx.HTTPError], or
    GitHub answers a status outside 200..299 other than 404,
    POST /api/analyze answers 500 with the detail
    "Failed to fetch GitHub profile" (the [HTTPException] of the fetcher,
    not the "Analysis failed" wrapper).  When the client refuses the URL
    with [httpx.InvalidURL], which the fetcher does not catch, the
    answer is the 500 of the "Analysis failed" wrapper.  In both cases
    the collection is left as it was. *)
Theorem profile_fetch_failure
    (w : World) (db : list Document) (request : AnalyzeRequest)
    (username : string) :
  derive_username (github_url request) = Ok username ->
  (http_get_user w username = NoReply
   \/ (exists status_code body,
         http_get_user w username = Reply status_code body
         /\ status_code <> 404
         /\ between 200 status_code 299 = false) ->
   analyze_github_profile json_loads w db request
   = (HttpError 500 "Failed to fetch GitHub profile", db))
  /\ (http_get_user w username = BadURL ->
      analyze_github_profile json_loads w db request
      = (HttpAnalysisFailed InvalidURL, db)).
Proof.
  intros Hu.
  pose proof (analyze_try_http json_loads w db request username Hu) as Ht.
  pose proof (analyze_outcome w db request) as Ho.
  pose proof (get_user_profile_cases w username) as H.
  split.
  - intros Hfail.
    assert (Hg : get_user_profile w username
                 = Raise (HTTPException 500 "Failed to fetch GitHub profile")).
    { destruct Hfail as [Hn | (status_code & body & Hr & Hne & Hbad)].
      - rewrite Hn in H. exact H.
      - rewrite Hr in H. apply Z.eqb_neq in Hne. rewrite Hne, Hbad in H.
        exact H. }
    rewrite Hg in Ht. rewrite Ht in Ho. exact Ho.
  - intros Hbad. rewrite Hbad in H. rewrite H in Ht. rewrite Ht in Ho.
    exact Ho.
Qed.

(** The statuses of the handler, once the request is validated. *)
Lemma handler_status (w : World) (db : list Document)
    (request : AnalyzeRequest) :
  let answer := fst (analyze_github_profile json_loads w db request) in
  (status answer = 200 \/ status answer = 404 \/ status answer = 500)
  /\ (status answer = 404 <->
      exists username body,
        derive_username (github_url request) = Ok username
        /\ http_get_user w username = Reply 404 body).
Proof.
  cbv zeta.
  destruct (derive_username_total (github_url request)) as [username Hu].
  pose proof (analyze_try_http json_loads w db request username Hu) as Ht.
  pose proof (get_user_profile_cases w username) as Hg.
  pose proof (analyze_outcome w db request) as Ho.
  assert (Hrhs : forall P : Prop,
            (forall body, http_get_user w username = Reply 404 body -> P) ->
            (exists username' body,
               derive_username (github_url request) = Ok username'
               /\ http_get_user w username' = Reply 404 body) -> P).
  { intros P HP (username' & body & Hu' & Hr). rewrite Hu in Hu'.
    injection Hu' as <-. eapply HP, Hr. }
  destruct (http_get_user w username) as [| |status_code body] eqn:Hr.
  - rewrite Hg in Ht. rewrite Ht in Ho. rewrite Ho. cbn [fst status].
    split; [auto|]. split; [discriminate|].
    intros Hex. exfalso. apply (Hrhs False); [|exact Hex].
    intros body' Hb. discriminate Hb.
  - rewrite Hg in Ht. rewrite Ht in Ho. rewrite Ho. cbn [fst status].
    split; [auto|]. split; [discriminate|].
    intros Hex. exfalso. apply (Hrhs False); [|exact Hex].
    intros body' Hb. discriminate Hb.
  - destruct (Z.eqb_spec status_code 404) as [->|Hne].
    + rewrite Hg in Ht. rewrite Ht in Ho. rewrite Ho. cbn [fst status].
      split; [auto|]. split; [|reflexivity]. intros _. exists username, body.
      auto.
    + assert (Hno : ~ exists username' body',
                derive_username (github_url request) = Ok username'
                /\ http_get_user w username' = Reply 404 body').
      { intros Hex. apply (Hrhs False); [|exact Hex].
        intros body' Hb. congruence. }
      assert (H500 : status
                       (fst (analyze_github_profile json_loads w db request))
                     = 200
                     \/ status
                          (fst (analyze_github_profile json_loads w db request))
                        = 500).
      { destruct (between 200 status_code 299).
        - rewrite Hg in Ht.
          destruct body as [user|]; cbn [json_body] in Ht.
          + destruct (analyze_try json_loads w db request) as [[a db']|e].
            * rewrite Ho. left. reflexivity.
            * cbn in Ht. destruct e; try discriminate; rewrite Ho; right;
                reflexivity.
          + rewrite Ht in Ho. rewrite Ho. right. reflexivity.
        - rewrite Hg in Ht. rewrite Ht in Ho. rewrite Ho. right. reflexivity. }
      split; [tauto|]. split; [|tauto].
      intros H404. destruct H500 as [H|H]; rewrite H in H404; discriminate.
Qed.

(** X2: the route POST /api/analyze answers 200, 400, 404, 422 or 500
    and nothing else.  It answers 400 exactly when the body of the
    request cannot be read, and 422 exactly when the body is not an
    [AnalyzeRequest] (no JSON, no object, or no string under
    "github_url"); the handler does not run in these cases and the
    collection is left as it was.  It answers 404 exactly when the body
    is an [AnalyzeRequest] and GitHub answers 404 to the request for the
    profile of the derived username. *)
Theorem analyze_status_codes
    (w : World) (db : list Document) (body : request_body) :
  let served := post_analyze json_loads w db body in
  (served_status (fst served) = 200 \/ served_status (fst served) = 400
   \/ served_status (fst served) = 404 \/ served_status (fst served) = 422
   \/ served_status (fst served) = 500)
  /\ (served_status (fst served) = 400 <-> body = BodyUnreadable)
  /\ (served_status (fst served) = 422
      <-> body = BodyNotJson
          \/ exists value,
               body = BodyJson value /\ validate_AnalyzeRequest value = None)
  /\ (served_status (fst served) = 400 \/ served_status (fst served) = 422 ->
      snd served = db)
  /\ (served_status (fst served) = 404 <->
      exists value request username reply,
        body = BodyJson value
        /\ validate_AnalyzeRequest value = Some request
        /\ derive_username (github_url request) = Ok username
        /\ http_get_user w username = Reply 404 reply).
Proof.
  cbv zeta. unfold post_analyze.
  destruct body as [| |value].
  - cbn [fst snd served_status]. split; [auto|]. split; [tauto|].
    split.
    { split; [discriminate|].
      intros [H|(value & H & _)]; discriminate H. }
    split; [reflexivity|]. split; [discriminate|].
    intros (value & _ & _ & _ & H & _). discriminate H.
  - cbn [fst snd served_status]. split; [auto 6|].
    split; [split; discriminate|]. split; [tauto|].
    split; [reflexivity|]. split; [discriminate|].
    intros (value & _ & _ & _ & H & _). discriminate H.
  - destruct (validate_AnalyzeRequest value) as [request|] eqn:Hv.
    + destruct (handler_status w db request) as [Hcodes H404].
      destruct (analyze_github_profile json_loads w db request)
        as [answer db'].
      cbn [fst snd served_status] in *.
      assert (Hno : status answer <> 400 /\ status answer <> 422).
      { destruct Hcodes as [H|[H|H]]; rewrite H; split; discriminate. }
      split; [tauto|].
      split; [split; [tauto | discriminate]|].
      split.
      { split; [tauto|].
        intros [H|(value' & [= <-] & H)]; [discriminate H | congruence]. }
      split; [tauto|].
      rewrite H404. split.
      * intros (username & reply & Hu & Hr).
        exists value, request, username, reply. auto.
      * intros (value' & request' & username & reply & [= <-] & Hv' & Hu & Hr).
        rewrite Hv in Hv'. injection Hv' as <-. exists username, reply. auto.
    + cbn [fst snd served_status]. split; [auto 6|].
      split; [split; discriminate|].
      split; [split; [|reflexivity]; intros _; right; exists value; auto|].
      split; [reflexivity|]. split; [discriminate|].
      intros (value' & request & _ & _ & [= <-] & Hv' & _). congruence.
Qed.

(** X3: POST /api/analyze only ever appends to the collection.  When it
    answers 200 the collection grows by exactly the document of the
    record in the answer, whose [id], [timestamp] and [username] are the
    fresh uuid, the clock and the derived username; with any other
    answer the collection is left as it was. *)
Theorem analyze_appends
    (w : World) (db : list Document) (request : AnalyzeRequest) :
  (exists analysis,
     analyze_github_profile json_loads w db request
     = (Http200 analysis, db ++ [dump analysis])
     /\ id analysis = uuid4 w
     /\ timestamp analysis = utcnow w
     /\ derive_username (github_url request) = Ok (Model.username analysis))
  \/ (snd (analyze_github_profile json_loads w db request) = db
      /\ status (fst (analyze_github_profile json_loads w db request)) <> 200).
Proof.
  pose proof (analyze_outcome w db request) as Ho.
  destruct (derive_username_total (github_url request)) as [username Hu].
  pose proof (analyze_try_http json_loads w db request username Hu) as Ht.
  destruct (analyze_try json_loads w db request) as [[analysis db']|e] eqn:Htry.
  - left. exists analysis. unfold analyze_try in Htry. rewrite Hu in Htry.
    cbn [bind] in Htry.
    destruct (analyze_profile w username) as [github_data|]; [|discriminate].
    cbn [bind] in Htry.
    destruct (generate_analysis json_loads w github_data) as [ai|];
      [|discriminate].
    cbn [bind] in Htry.
    destruct (calculate_overall_score ai) as [[breakdown overall]|];
      [|discriminate].
    cbn [bind] in Htry.
    destruct (make_Analysis w username github_data ai breakdown overall)
      as [analysis'|] eqn:Hm; [|discriminate].
    cbn [bind] in Htry. injection Htry as <- <-.
    destruct (make_Analysis_fields _ _ _ _ _ _ _ Hm) as (Hid & Hn & _ & Hts & _).
    rewrite Ho. unfold insert_one. rewrite Hn. auto.
  - right. destruct e; rewrite Ho; split; try reflexivity; cbn [fst status];
      try discriminate.
    pose proof (get_user_profile_cases w username) as Hg.
    destruct (get_user_profile w username) as [user|e'].
    + cbn in Ht. discriminate Ht.
    + injection Ht as <-.
      destruct (http_get_user w username) as [| |st body].
      * discriminate Hg.
      * injection Hg as -> _. discriminate.
      * destruct (st =? 404); [injection Hg as -> _; discriminate|].
        destruct (between 200 st 299);
          [destruct body; discriminate | injection Hg as -> _; discriminate].
Qed.

End Status.

(* ================================================================== *)
(** ** The aggregator on failing or odd repository data *)

Module AggregateMore.

Import JsonFacts AggregateFacts FetchFacts.

Lemma repos_unavailable_empty (w : World) (username : string) :
  repos_unavailable w username -> get_repositories w username = Ok [].
Proof.
  intros Hfail. pose proof (get_repositories_cases w username) as H.
  destruct Hfail as [Hn | (status_code & body & Hr & Hbad)].
  - rewrite Hn in H. exact H.
  - rewrite Hr in H. unfold success in Hbad. rewrite Hbad in H. exact H.
Qed.

Lemma count_bounds {A} (f : A -> bool) (l : list A) :
  0 <= count f l <= Z.of_nat (List.length l).
Proof.
  induction l as [|x l IH]; [cbn; lia|].
  rewrite count_cons. cbn [List.length]. destruct (f x); lia.
Qed.

(** One round of the loop in two environments: the README reply changes
    neither the exception nor the tally and the description count. *)
Lemma scan_repo_readme (w1 w2 : World) (username : string) (repo : dict)
    (st1 st2 : Scan) :
  scan_languages st1 = scan_languages st2 ->
  scan_description st1 = scan_description st2 ->
  match scan_repo w1 username st1 repo, scan_repo w2 username st2 repo with
  | Ok r1, Ok r2 =>
      scan_languages r1 = scan_languages r2
      /\ scan_description r1 = scan_description r2
  | Raise e1, Raise e2 => e1 = e2
  | _, _ => False
  end.
Proof.
  intros Hl Hd. unfold scan_repo. rewrite Hl, Hd.
  destruct (truthy (get_none repo "language")).
  - destruct (item repo "language") as [language|e]; cbn [bind]; [|reflexivity].
    destruct (hashable language); cbn [bind]; [|reflexivity].
    destruct (item repo "name") as [name|e]; cbn [bind]; [|reflexivity].
    split; reflexivity.
  - cbn [bind].
    destruct (item repo "name") as [name|e]; cbn [bind]; [|reflexivity].
    split; reflexivity.
Qed.

(** Two runs of the loop over the same entries, with different README
    replies, raise the same exception or end with the same tally and the
    same description count. *)
Lemma scan_loop_readme (w1 w2 : World) (username : string) (repos : list dict) :
  forall st1 st2,
    scan_languages st1 = scan_languages st2 ->
    scan_description st1 = scan_description st2 ->
    match for_each (scan_repo w1 username) repos st1,
          for_each (scan_repo w2 username) repos st2 with
    | Ok r1, Ok r2 =>
        scan_languages r1 = scan_languages r2
        /\ scan_description r1 = scan_description r2
    | Raise e1, Raise e2 => e1 = e2
    | _, _ => False
    end.
Proof.
  induction repos as [|repo repos IH]; intros st1 st2 Hl Hd; cbn [for_each].
  - auto.
  - pose proof (scan_repo_readme w1 w2 username repo st1 st2 Hl Hd) as Hstep.
    destruct (scan_repo w1 username st1 repo) as [r1|e1];
      destruct (scan_repo w2 username st2 repo) as [r2|e2];
      cbn [bind]; try contradiction; [|exact Hstep].
    destruct Hstep as [Hl' Hd']. apply IH; assumption.
Qed.

(** What [tally_incr] keeps. *)
Lemma tally_incr_In (l : json) (t : tally) (k : json) (n : Z) :
  In (k, n) (tally_incr l t) ->
  (k = l /\ n = 1) \/ (exists m, In (k, m) t /\ (n = m \/ n = m + 1)).
Proof.
  induction t as [|[k' m] t IH]; cbn [tally_incr].
  - intros [[= <- <-]|[]]. left. auto.
  - destruct (key_eqb k' l).
    + intros [[= <- <-]|Hin]; right.
      * exists m. split; [left; reflexivity | right; reflexivity].
      * exists n. split; [right; exact Hin | left; reflexivity].
    + intros [[= <- <-]|Hin].
      * right. exists m. split; [left; reflexivity | left; reflexivity].
      * destruct (IH Hin) as [Hnew | (m' & Hin' & Hm)]; [left; exact Hnew|].
        right. exists m'. split; [right; exact Hin' | exact Hm].
Qed.

Lemma tally_incr_keys (l : json) (t : tally) (k : json) (n : Z) :
  In (k, n) (tally_incr l t) -> k = l \/ exists m, In (k, m) t.
Proof.
  intros H. destruct (tally_incr_In _ _ _ _ H) as [[-> _]|(m & Hin & _)];
    [left; reflexivity | right; eauto].
Qed.

Lemma tally_incr_distinct (l : json) (t : tally) :
  distinct_keys t -> distinct_keys (tally_incr l t).
Proof.
  induction t as [|[k m] t IH]; cbn [tally_incr distinct_keys].
  - intros _. split; [intros k' n []|exact I].
  - intros [Hk Ht]. destruct (key_eqb k l) eqn:Hkl; cbn [distinct_keys].
    + split; assumption.
    + split; [|apply IH, Ht].
      intros k' n Hin. destruct (tally_incr_keys _ _ _ _ Hin) as [->|[m' Hin']].
      * exact Hkl.
      * eapply Hk, Hin'.
Qed.

Lemma tally_incr_total (l : json) (t : tally) :
  total (map snd (tally_incr l t)) = total (map snd t) + 1.
Proof.
  induction t as [|[k m] t IH]; cbn [tally_incr]; [reflexivity|].
  unfold total in *.
  destruct (key_eqb k l); cbn [map snd fold_right] in *; lia.
Qed.

Lemma scan_repo_tally (w : World) (username : string) (st st' : Scan)
    (repo : dict) (seen : list dict) (n : Z) :
  scan_repo w username st repo = Ok st' ->
  tally_ok seen (scan_languages st) n ->
  tally_ok (seen ++ [repo]) (scan_languages st')
    (n + (if with_language repo then 1 else 0)).
Proof.
  unfold scan_repo, with_language. intros Hscan [Hd Hp Ht Hf].
  assert (Hseen : forall k m, In (k, m) (scan_languages st) ->
            truthy k = true /\ hashable k = true
            /\ exists r, In r (seen ++ [repo]) /\ get_none r "language" = k).
  { intros k m Hin. destruct (Hf k m Hin) as (H1 & H2 & r & Hr & Hk).
    repeat split; try assumption. exists r. split; [|exact Hk].
    apply in_or_app. left. exact Hr. }
  destruct (truthy (get_none repo "language")) eqn:Htruthy.
  - rewrite (truthy_present _ _ Htruthy) in Hscan. cbn [bind] in Hscan.
    destruct (hashable (get_none repo "language")) eqn:Hhash; [|discriminate].
    cbn [bind] in Hscan.
    destruct (item repo "name"); [|discriminate]. cbn [bind] in Hscan.
    injection Hscan as <-. cbn [scan_languages]. constructor.
    + apply tally_incr_distinct, Hd.
    + intros k m Hin.
      destruct (tally_incr_In _ _ _ _ Hin) as [[_ ->]|(m' & Hin' & Hm)]; [lia|].
      specialize (Hp k m' Hin'). lia.
    + rewrite tally_incr_total. lia.
    + intros k m Hin.
      destruct (tally_incr_keys _ _ _ _ Hin) as [->|[m' Hin']].
      * repeat split; try assumption. exists repo.
        split; [apply in_or_app; right; left; reflexivity | reflexivity].
      * eapply Hseen, Hin'.
  - cbn [bind] in Hscan.
    destruct (item repo "name"); [|discriminate]. cbn [bind] in Hscan.
    injection Hscan as <-. cbn [scan_languages]. constructor; try assumption.
    lia.
Qed.

Lemma scan_loop_tally (w : World) (username : string) (repos : list dict) :
  forall (st st' : Scan) (seen : list dict) (n : Z),
    for_each (scan_repo w username) repos st = Ok st' ->
    tally_ok seen (scan_languages st) n ->
    tally_ok (seen ++ repos) (scan_languages st') (n + count with_language repos).
Proof.
  induction repos as [|repo repos IH]; intros st st' seen n; cbn [for_each].
  - intros [= <-] H. rewrite app_nil_r, count_nil. replace (n + 0) with n by lia.
    exact H.
  - destruct (scan_repo w username st repo) as [st1|] eqn:H1; [|discriminate].
    cbn [bind]. intros Hloop Hok.
    pose proof (scan_repo_tally _ _ _ _ _ _ _ H1 Hok) as Hok1.
    pose proof (IH _ _ _ _ Hloop Hok1) as Hok'.
    rewrite <- app_assoc in Hok'. cbn [app] in Hok'.
    rewrite count_cons. replace (n + ((if with_language repo then 1 else 0)
                                     + count with_language repos))
      with (n + (if with_language repo then 1 else 0)
            + count with_language repos) by lia.
    exact Hok'.
Qed.

End AggregateMore.

Section AggregateExtras.

Import JsonFacts AggregateFacts FetchFacts AggregateMore ScoringFacts.

Variable json_loads : string -> option json.

(** X4: when the request for the repositories fails (the client raises,
    or GitHub answers a status outside 200..299) the user is analysed as
    one without repositories: [analyze_profile] gives the aggregate with
    zero totals, an empty tally and an empty top list, and
    [generate_analysis] has a payload for it. *)
Theorem repositories_unavailable
    (w : World) (username : string) (user : dict) :
  get_user_profile w username = Ok user ->
  repos_unavailable w username ->
  exists github_data,
    analyze_profile w username = Ok github_data
    /\ profile github_data = user
    /\ repositories github_data = []
    /\ total_stars (stats github_data) = 0
    /\ total_forks (stats github_data) = 0
    /\ languages (stats github_data) = []
    /\ repos_with_readme (stats github_data) = 0
    /\ repos_with_description (stats github_data) = 0
    /\ top_repos (stats github_data) = []
    /\ exists payload,
         generate_analysis json_loads w github_data = Ok payload.
Proof.
  intros Hu Hfail.
  assert (Hap : exists github_data,
            analyze_profile w username = Ok github_data
            /\ profile github_data = user
            /\ repositories github_data = []
            /\ stats github_data
               = {| public_repos := get user "public_repos" (JInt 0);
                    followers := get user "followers" (JInt 0);
                    following := get user "following" (JInt 0);
                    total_stars := 0; total_forks := 0; languages := [];
                    repos_with_readme := 0; repos_with_description := 0;
                    top_repos := [] |}).
  { unfold analyze_profile.
    rewrite Hu, (repos_unavailable_empty _ _ Hfail). cbn [bind].
    eexists. split; [reflexivity|]. repeat split. }
  destruct Hap as (github_data & Hgd & Hp & Hr & Hs).
  exists github_data. split; [exact Hgd|]. rewrite Hs.
  do 8 (split; [assumption || reflexivity|]).
  destruct (build_prompt_ok w username github_data Hgd) as [prompt Hprompt].
  { unfold totals_writable. rewrite Hs. reflexivity. }
  { unfold languages_are_strings. rewrite Hs. reflexivity. }
  rewrite (generate_analysis_cases json_loads w _ _ Hprompt). eauto.
Qed.

(** X5: a body that does not decode as JSON is not forgiven: when the
    profile or the repository listing comes with a status of success and
    such a body, POST /api/analyze answers 500 through the
    "Analysis failed" wrapper (the exception is a [ValueError]) and
    stores nothing, although a failed repository request would have
    counted as no repositories. *)
Theorem undecodable_body
    (w : World) (db : list Document) (request : AnalyzeRequest)
    (username : string) :
  derive_username (github_url request) = Ok username ->
  (exists status_code,
     http_get_user w username = Reply status_code None
     /\ success status_code = true)
  \/ (exists user status_code,
        get_user_profile w username = Ok user
        /\ http_get_repos w username = Reply status_code None
        /\ success status_code = true) ->
  analyze_github_profile json_loads w db request
  = (HttpAnalysisFailed ValueError, db).
Proof.
  intros Hu Hbad.
  assert (Hap : analyze_profile w username = Raise ValueError).
  { unfold analyze_profile.
    destruct Hbad as [(st & Hr & Hs) | (user & st & Hg & Hr & Hs)].
    - pose proof (get_user_profile_cases w username) as H. rewrite Hr in H.
      unfold success, between in Hs. apply andb_true_iff in Hs as [H1 H2].
      apply Z.leb_le in H1, H2.
      destruct (Z.eqb_spec st 404) as [->|_]; [lia|].
      unfold between in H.
      rewrite (proj2 (Z.leb_le _ _) H1), (proj2 (Z.leb_le _ _) H2) in H.
      cbn [andb json_body] in H. rewrite H. reflexivity.
    - pose proof (get_repositories_cases w username) as H. rewrite Hr in H.
      unfold success in Hs. rewrite Hs in H. rewrite Hg, H. reflexivity. }
  unfold analyze_github_profile, analyze_try.
  rewrite Hu. cbn [bind]. rewrite Hap. reflexivity.
Qed.

(** X6: the README requests never decide the fate of an analysis: in two
    environments that give the same profile and the same repository
    listing, [analyze_profile] raises the same exception, or produces two
    aggregates that agree on everything but the README count. *)
Theorem readme_never_fails (w1 w2 : World) (username : string) :
  http_get_user w1 username = http_get_user w2 username ->
  http_get_repos w1 username = http_get_repos w2 username ->
  match analyze_profile w1 username, analyze_profile w2 username with
  | Ok g1, Ok g2 => same_but_readme g1 g2
  | Raise e1, Raise e2 => e1 = e2
  | _, _ => False
  end.
Proof.
  intros Hu Hr. unfold analyze_profile, get_user_profile, get_repositories.
  rewrite Hu, Hr.
  destruct (except_HTTPError _ _) as [user|e]; cbn [bind]; [|reflexivity].
  destruct (except_HTTPError _ _) as [repos|e]; cbn [bind]; [|reflexivity].
  destruct (sum _) as [stars|e]; cbn [bind]; [|reflexivity].
  destruct (sum _) as [forks|e]; cbn [bind]; [|reflexivity].
  pose proof (scan_loop_readme w1 w2 username (firstn 10 repos)
                {| scan_languages := []; scan_readme := 0;
                   scan_description := 0 |}
                {| scan_languages := []; scan_readme := 0;
                   scan_description := 0 |} eq_refl eq_refl) as Hloop.
  destruct (for_each (scan_repo w1 username) _ _) as [r1|e1];
    destruct (for_each (scan_repo w2 username) _ _) as [r2|e2];
    cbn [bind]; try contradiction; [|exact Hloop].
  destruct Hloop as [Hl Hd]. unfold same_but_readme. cbn.
  repeat split; assumption.
Qed.

(** X7: in every aggregate of [analyze_profile] the top list is the first
    ten repositories at most, and the README count, the description
    count and each count of the language tally lie between 0 and the
    length of the top list. *)
Theorem aggregate_bounds
    (w : World) (username : string) (github_data : Summary) :
  analyze_profile w username = Ok github_data ->
  let top := top_repos (stats github_data) in
  top = firstn 10 (repositories github_data)
  /\ (List.length top <= 10)%nat
  /\ 0 <= repos_with_readme (stats github_data) <= Z.of_nat (List.length top)
  /\ 0 <= repos_with_description (stats github_data)
       <= Z.of_nat (List.length top)
  /\ forall key,
       0 <= tally_get key (languages (stats github_data))
         <= Z.of_nat (List.length top).
Proof.
  intros Hgd. cbv zeta.
  destruct (analyze_profile_inv _ _ _ Hgd)
    as (st & _ & _ & _ & _ & Hloop & Hl & Hr & Hd & Htop).
  pose proof (scan_loop_inv _ _ _ _ _ Hloop) as Hscan.
  destruct (scan_loop_ok w username _ Hscan
              {| scan_languages := []; scan_readme := 0;
                 scan_description := 0 |}) as (st' & Hloop' & Hl' & Hd' & Hr').
  rewrite Hloop in Hloop'. injection Hloop' as <-.
  cbn [scan_languages scan_description scan_readme tally_get] in Hl', Hd', Hr'.
  rewrite Htop, Hl, Hr, Hd, Hd', Hr'.
  split; [reflexivity|]. split; [apply firstn_le_length|].
  split; [apply count_bounds|]. split; [apply count_bounds|].
  intros key. rewrite Hl'. apply count_bounds.
Qed.

(** X8: the language tally of an aggregate is a proper dict of counts:
    its keys are pairwise different, each key is the truthy, hashable
    language of one of the top repositories, each count is at least 1,
    and the counts add up to the number of top repositories that have a
    language. *)
Theorem language_tally_sound
    (w : World) (username : string) (github_data : Summary) :
  analyze_profile w username = Ok github_data ->
  let tally := languages (stats github_data) in
  let top := top_repos (stats github_data) in
  distinct_keys tally
  /\ (forall key n, In (key, n) tally ->
      1 <= n /\ truthy key = true /\ hashable key = true
      /\ exists repo, In repo top /\ get_none repo "language" = key)
  /\ total (map snd tally) = count with_language top.
Proof.
  clear json_loads. intros Hgd. cbv zeta.
  destruct (analyze_profile_inv _ _ _ Hgd)
    as (st & _ & _ & _ & _ & Hloop & Hl & _ & _ & Htop).
  assert (H0 : tally_ok [] [] 0).
  { constructor; cbn; tauto || reflexivity. }
  destruct (scan_loop_tally _ _ _ _ _ _ _ Hloop H0) as [Hd Hp Ht Hf].
  cbn [app] in Hf. rewrite Hl, Htop.
  split; [exact Hd|]. split; [|lia].
  intros key n Hin. split; [eapply Hp, Hin | eapply Hf, Hin].
Qed.

(** X9: once the profile and the repository list are fetched,
    [analyze_profile] produces an aggregate exactly when every star
    count and every fork count of the whole list is a number and each of
    the first ten entries has a name and a language that is absent,
    falsy or hashable; entries after the tenth need no name. *)
Theorem analyze_profile_succeeds_iff
    (w : World) (username : string) (user : dict) (repos : list dict) :
  get_user_profile w username = Ok user ->
  get_repositories w username = Ok repos ->
  (exists github_data, analyze_profile w username = Ok github_data)
  <-> forallb is_number (map stars_of repos) = true
      /\ forallb is_number (map forks_of repos) = true
      /\ forallb scannable (firstn 10 repos) = true.
Proof.
  intros Hu Hr. split.
  - intros [github_data Hgd].
    destruct (analyze_profile_inv _ _ _ Hgd)
      as (st & Hu' & Hr' & Hs & Hf & Hloop & _).
    rewrite Hr in Hr'. injection Hr' as Hr'. rewrite <- Hr' in Hs, Hf, Hloop.
    rewrite sum_ints in Hs, Hf.
    split; [|split].
    + apply ints_of_numbers.
      destruct (ints_of (map stars_of repos)); [eauto | discriminate].
    + apply ints_of_numbers.
      destruct (ints_of (map forks_of repos)); [eauto | discriminate].
    + eapply scan_loop_inv, Hloop.
  - intros (Hs & Hf & Hscan).
    apply ints_of_numbers in Hs as [stars Hs].
    apply ints_of_numbers in Hf as [forks Hf].
    unfold analyze_profile. rewrite Hu, Hr. cbn [bind].
    change (fun repo : dict => get repo "stargazers_count" (JInt 0))
      with stars_of.
    change (fun repo : dict => get repo "forks_count" (JInt 0)) with forks_of.
    rewrite !sum_ints, Hs, Hf. cbn [bind].
    destruct (scan_loop_ok w username _ Hscan
                {| scan_languages := []; scan_readme := 0;
                   scan_description := 0 |}) as (st & -> & _).
    cbn [bind]. eauto.
Qed.

End AggregateExtras.

(* ================================================================== *)
(** ** The prompt, the parsed text and the score *)

Module PromptFacts.

Import PyStr PyStrFacts JsonFacts AggregateFacts ScoringFacts.

Lemma named_item (repo : dict) :
  named repo = true -> item repo "name" = Ok (get_none repo "name").
Proof.
  unfold named, present, item, get_none, get.
  destruct (lookup "name" repo); [reflexivity | discriminate].
Qed.

Lemma unnamed_item (repo : dict) :
  named repo = false -> item repo "name" = Raise (KeyError "name").
Proof.
  unfold named, present, item.
  destruct (lookup "name" repo); [discriminate | reflexivity].
Qed.

(** The loop of [_format_repos], from any list of lines. *)
Lemma format_loop (repos : list dict) :
  forall lines,
    for_each
      (fun lines repo =>
         name <- item repo "name" ;;
         Ok (lines ++ [ {| rl_name := name;
                           rl_description :=
                             get repo "description" (JStr "No description");
                           rl_stars := get repo "stargazers_count" (JInt 0);
                           rl_language := get repo "language" (JStr "N/A") |} ]))
      repos lines
    = if forallb named repos then Ok (lines ++ map line_of repos)
      else Raise (KeyError "name").
Proof.
  induction repos as [|repo repos IH]; intros lines; cbn [for_each forallb map].
  - rewrite app_nil_r. reflexivity.
  - destruct (named repo) eqn:Hn; cbn [andb].
    + rewrite (named_item _ Hn). cbn [bind]. rewrite IH.
      destruct (forallb named repos); [|reflexivity].
      rewrite <- app_assoc. reflexivity.
    + rewrite (unnamed_item _ Hn). reflexivity.
Qed.

Lemma part_of_refl (s : string) : part_of s s.
Proof. exists "", "". cbn. rewrite append_empty_r. reflexivity. Qed.

Lemma part_of_trans (a b c : string) : part_of a b -> part_of b c -> part_of a c.
Proof.
  intros (l1 & r1 & ->) (l2 & r2 & ->). exists (l2 +++ l1), (r1 +++ r2).
  rewrite !append_assoc. reflexivity.
Qed.

Lemma trimmed_part (p : ascii -> bool) (s t : string) :
  trimmed p s t -> part_of t s.
Proof. intros (l & r & Hs & _). exists l, r. exact Hs. Qed.

Lemma strip_part (p : ascii -> bool) (s : string) : part_of (strip p s) s.
Proof. apply (trimmed_part p), strip_spec. Qed.

Lemma first_cut_parts (sep s b a : string) :
  first_cut sep s b a -> part_of b s /\ part_of a s.
Proof.
  intros [-> _]. split.
  - exists "", (sep +++ a). reflexivity.
  - exists (b +++ sep), "". rewrite append_empty_r, append_assoc. reflexivity.
Qed.

Lemma upto_part (sep s b : string) : upto sep s b -> part_of b s.
Proof.
  intros [[a Hcut]|[_ ->]]; [apply (first_cut_parts _ _ _ _ Hcut)|].
  apply part_of_refl.
Qed.

(** A text that holds [sep] is part of texts that hold [sep] only. *)
Lemma contains_part (sep t s : string) :
  part_of t s -> contains sep t = true -> contains sep s = true.
Proof.
  intros (l & r & ->) Hc. apply contains_iff in Hc as (b & a & ->).
  apply contains_iff. exists (l +++ b), (a +++ r).
  rewrite !append_assoc. reflexivity.
Qed.

Lemma clean_part (sep t s : string) :
  part_of t s -> contains sep s = false -> contains sep t = false.
Proof.
  intros Hp Hs. destruct (contains sep t) eqn:Ht; [|reflexivity].
  rewrite (contains_part _ _ _ Hp Ht) in Hs. discriminate.
Qed.

End PromptFacts.

Section PromptExtras.

Import PyStr PyStrFacts JsonFacts AggregateFacts ScoringFacts PromptFacts.

(** X10: [_format_repos] gives one line per repository, in the order of
    the list, when every entry has a name: the name, and the description,
    star count and language of the entry, each replaced by its
    placeholder only when the key is missing (a null description stays
    null).  When one entry has no name it raises [KeyError] for "name". *)
Theorem format_repos_lines (repos : list dict) :
  (forallb named repos = true ->
   format_repos repos = Ok (map line_of repos))
  /\ (forallb named repos = false ->
      format_repos repos = Raise (KeyError "name"))
  /\ (forall repo,
        lookup "description" repo = Some JNull ->
        rl_description (line_of repo) = JNull).
Proof.
  unfold format_repos. rewrite format_loop.
  split; [intros ->; reflexivity|]. split; [intros ->; reflexivity|].
  intros repo H. unfold line_of, get. cbn [rl_description]. rewrite H.
  reflexivity.
Qed.

(** X11: on an aggregate of [analyze_profile] the prompt can be built
    exactly when the two totals have at most 4300 digits each and
    every tallied language is a string.  The prompt then shows the first
    five repositories of the listing (all of them when there are fewer),
    in order, the totals over the whole listing and the two counts over
    the top list. *)
Theorem prompt_contents
    (w : World) (username : string) (github_data : Summary) :
  analyze_profile w username = Ok github_data ->
  ((exists prompt, build_prompt github_data = Ok prompt)
   <-> totals_writable github_data = true
       /\ languages_are_strings github_data = true)
  /\ forall prompt,
       build_prompt github_data = Ok prompt ->
       p_top_repos prompt = map line_of (firstn 5 (repositories github_data))
       /\ (List.length (p_top_repos prompt) <= 5)%nat
       /\ join ", " (map fst (languages (stats github_data)))
          = Ok (p_languages prompt)
       /\ p_total_stars prompt = total_stars (stats github_data)
       /\ p_total_forks prompt = total_forks (stats github_data)
       /\ p_repos_with_readme prompt = repos_with_readme (stats github_data)
       /\ p_repos_with_description prompt
          = repos_with_description (stats github_data).
Proof.
  intros Hgd. split.
  - split.
    + intros [prompt Hp]. eapply build_prompt_inv, Hp.
    + intros [Hw Hs]. eapply build_prompt_ok; eassumption.
  - intros prompt Hp.
    destruct (analyze_profile_inv _ _ _ Hgd)
      as (st & _ & _ & _ & _ & Hloop & _ & _ & _ & Htop).
    apply scan_loop_inv in Hloop.
    unfold build_prompt, format_repos in Hp. rewrite format_loop in Hp.
    remember (firstn 5 (top_repos (stats github_data))) as top5 eqn:Htop5.
    rewrite !DigitFacts.str_int_writable in Hp.
    destruct (writable (total_stars (stats github_data))); [|discriminate].
    cbn [bind] in Hp.
    destruct (writable (total_forks (stats github_data))); [|discriminate].
    cbn [bind] in Hp.
    destruct (join ", " (map fst (languages (stats github_data))))
      as [text|] eqn:Hj; [|discriminate].
    cbn [bind] in Hp.
    destruct (forallb named top5); [|discriminate].
    cbn [bind app] in Hp. injection Hp as <-.
    cbn [p_top_repos p_languages p_total_stars p_total_forks
         p_repos_with_readme p_repos_with_description].
    rewrite Htop, firstn_firstn in Htop5.
    change (Nat.min 5 10) with 5%nat in Htop5. subst top5.
    split; [reflexivity|].
    split; [rewrite length_map; apply firstn_le_length|].
    repeat split.
Qed.

(** X12: whatever the response, the text handed to [json.loads] is a
    contiguous part of the response, has no whitespace at either end and
    holds no [fence] marker. *)
Theorem json_text_clean (response : string) :
  exists text,
    json_text response = Ok text
    /\ part_of text response
    /\ strip_ws text = text
    /\ contains fence text = false.
Proof.
  pose proof (strip_part isspace response) as Hstripped.
  fold (strip_ws response) in Hstripped.
  assert (Hbody : forall body,
            part_of body (strip_ws response) ->
            contains fence body = false ->
            part_of (strip_ws body) response
            /\ strip_ws (strip_ws body) = strip_ws body
            /\ contains fence (strip_ws body) = false).
  { intros body Hp Hc. split; [|split].
    - eapply part_of_trans; [apply strip_part|].
      eapply part_of_trans; eassumption.
    - apply strip_ws_idem.
    - eapply clean_part; [apply strip_part | exact Hc]. }
  unfold json_text, fenced_text.
  destruct (contains fence_json (strip_ws response)) eqn:Hj.
  - destruct (fenced_pick _ _ fence_json_not_empty Hj)
      as (before & rest & piece & body & Hcut & Hpiece & Hb & ->).
    cbn [bind]. exists (strip_ws body). split; [reflexivity|]. apply Hbody.
    + eapply part_of_trans; [eapply upto_part, Hb|].
      eapply part_of_trans; [eapply upto_part, Hpiece|].
      apply (first_cut_parts _ _ _ _ Hcut).
    + eapply upto_clean; [apply fence_not_empty | exact Hb].
  - destruct (contains fence (strip_ws response)) eqn:Hf.
    + destruct (fenced_pick _ _ fence_not_empty Hf)
        as (before & rest & piece & body & Hcut & Hpiece & Hb & ->).
      cbn [bind]. exists (strip_ws body). split; [reflexivity|]. apply Hbody.
      * eapply part_of_trans; [eapply upto_part, Hb|].
        eapply part_of_trans; [eapply upto_part, Hpiece|].
        apply (first_cut_parts _ _ _ _ Hcut).
      * eapply upto_clean; [apply fence_not_empty | exact Hb].
    + cbn [bind]. exists (strip_ws (strip_ws response)).
      split; [reflexivity|]. rewrite !strip_ws_idem.
      split; [exact Hstripped|]. split; [reflexivity | exact Hf].
Qed.

(** X13: on a payload whose [score_breakdown] is an object, lines
    310-311 average every entry of the breakdown, not the six fields
    only: the score is the floor of the sum of all the values (a boolean
    counting 0 or 1) over the number of entries.  A value that is not a
    number makes the sum raise [TypeError], and an empty breakdown makes
    the division raise [ZeroDivisionError]. *)
Theorem overall_score_averages_all (payload breakdown : dict) :
  lookup "score_breakdown" payload = Some (JDict breakdown) ->
  calculate_overall_score (JDict payload)
  = match ints_of (values breakdown) with
    | None => Raise TypeError
    | Some numbers =>
        match breakdown with
        | [] => Raise ZeroDivisionError
        | _ :: _ =>
            Ok (JDict breakdown,
                total numbers / Z.of_nat (List.length breakdown))
        end
    end.
Proof.
  intros Hsb. unfold calculate_overall_score, subscript, item.
  rewrite Hsb. cbn [bind values_of len]. rewrite sum_ints.
  destruct (ints_of (values breakdown)) as [numbers|]; [|reflexivity].
  cbn [bind]. destruct breakdown as [|entry breakdown].
  - cbn in *. destruct numbers; reflexivity.
  - unfold floordiv.
    destruct (Z.eqb_spec (Z.of_nat (List.length (entry :: breakdown))) 0)
      as [E|_]; [cbn [List.length] in E; lia | reflexivity].
Qed.

(** X14: the username that the handler derives never contains
    "github.com/", and it is a contiguous part of the [github_url] of the
    request. *)
Theorem derive_username_no_host (github_url : string) :
  exists username,
    derive_username github_url = Ok username
    /\ contains "github.com/" username = false
    /\ part_of username github_url.
Proof.
  pose proof (strip_part isspace github_url) as Hstripped.
  fold (strip_ws github_url) in Hstripped.
  unfold derive_username.
  destruct (contains "github.com/" (strip_ws github_url)) eqn:Hc.
  - assert (Hhost : "github.com/" <> "") by discriminate.
    destruct (split_index_last "github.com/" Hhost (strip_ws github_url))
      as (t & -> & Hclean & _ & Hsome).
    destruct (Hsome Hc) as [p Hp]. cbn [bind].
    exists (strip_chars "/" t). split; [reflexivity|]. split.
    + eapply clean_part; [apply strip_part | exact Hclean].
    + eapply part_of_trans; [apply strip_part|].
      eapply part_of_trans; [|exact Hstripped].
      exists (p +++ "github.com/"), "".
      rewrite append_empty_r, append_assoc. exact Hp.
  - exists (strip_ws github_url). auto.
Qed.

End PromptExtras.

(* ================================================================== *)
(** ** The collection: which records come back *)

Module StoreMore.

Import DateTimeFacts StoreFacts.

Lemma StronglySorted_app_inv {A} (R : A -> A -> Prop) (l1 l2 : list A) :
  StronglySorted R (l1 ++ l2) ->
  forall x y, In x l1 -> In y l2 -> R x y.
Proof.
  induction l1 as [|a l1 IH]; cbn [app]; intros Hs x y Hx Hy; [contradiction|].
  apply StronglySorted_inv in Hs as [Hs Ha]. destruct Hx as [<-|Hx].
  - apply (proj1 (Forall_forall _ _) Ha). apply in_or_app. right. exact Hy.
  - eapply IH; eassumption.
Qed.

(** GET /api/analyses on a collection written from UTC-stamped records:
    the records that come back are among those written, and a record
    stays behind only when ten records that are not older come back. *)
Lemma recent_of_records (records : list Analysis) :
  Forall utc_stamped records ->
  exists out,
    get_recent_analyses (map dump records) = Http200 out
    /\ (forall x, In x out -> In x records)
    /\ ((List.length records <= 10)%nat -> Permutation records out)
    /\ forall r, In r records ->
         In r out
         \/ (List.length out = 10%nat /\ forall x, In x out -> not_older x r).
Proof.
  intros Hall.
  destruct (get_recent_dump records (utc_well_stamped _ Hall))
    as (sorted & Hperm & Hsort & Hget).
  assert (Hall' : Forall utc_stamped sorted) by (eapply Forall_perm; eassumption).
  assert (Hnew : newest_first sorted).
  { apply sorted_newest_first; [exact Hall'|]. rewrite <- Hsort.
    apply sort_desc_sorted. }
  exists (firstn 10 sorted). split; [exact Hget|]. split; [|split].
  - intros x Hx. eapply Permutation_in; [apply Permutation_sym, Hperm|].
    rewrite <- (firstn_skipn 10 sorted). apply in_or_app. left. exact Hx.
  - intros Hlen. rewrite firstn_all2; [exact Hperm|].
    rewrite <- (Permutation_length Hperm). exact Hlen.
  - intros r Hr. apply (Permutation_in _ Hperm) in Hr.
    rewrite <- (firstn_skipn 10 sorted) in Hr.
    apply in_app_or in Hr as [Hr|Hr]; [left; exact Hr|]. right.
    split.
    + apply firstn_length_le.
      destruct (Nat.le_gt_cases 10 (List.length sorted)) as [H|H]; [exact H|].
      rewrite skipn_all2 in Hr by lia. contradiction.
    + intros x Hx. unfold newest_first in Hnew.
      rewrite <- (firstn_skipn 10 sorted) in Hnew.
      eapply StronglySorted_app_inv; eassumption.
Qed.

End StoreMore.

Section StoreExtras.

Import DateTimeFacts StoreFacts StoreMore.

Variable json_loads : string -> option json.

(** X16: on every collection that the server can have written,
    GET /api/analyses answers the most recent records: each record that
    comes back is one that was written, and a written record stays
    behind only when ten records that are not older than it come back. *)
Theorem recent_are_latest (db : list Document) :
  reachable json_loads db ->
  exists records out,
    db = map dump records
    /\ Forall utc_stamped records
    /\ get_recent_analyses db = Http200 out
    /\ (forall x, In x out -> In x records)
    /\ forall r, In r records ->
         In r out
         \/ (List.length out = 10%nat /\ forall x, In x out -> not_older x r).
Proof.
  intros Hreach.
  destruct (reachable_written _ _ Hreach) as (records & -> & Hall).
  destruct (recent_of_records records Hall) as (out & Hget & Hin & _ & Hlatest).
  exists records, out. auto.
Qed.

(** X17: a record does not get lost between the two routes.  After
    POST /api/analyze answers 200 with a record, on a collection the
    server wrote and with a UTC clock, GET /api/analyses answers 200 and
    the record is in the list, unless ten records that are not older
    come back; it is always there when fewer than ten documents were
    stored before. *)
Theorem read_your_writes
    (w : World) (db db' : list Document) (request : AnalyzeRequest)
    (analysis : Analysis) :
  reachable json_loads db ->
  utc_clock w ->
  analyze_github_profile json_loads w db request = (Http200 analysis, db') ->
  exists out,
    get_recent_analyses db' = Http200 out
    /\ (In analysis out
        \/ (List.length out = 10%nat
            /\ forall x, In x out -> not_older x analysis))
    /\ ((List.length db < 10)%nat -> In analysis out).
Proof.
  intros Hreach Hclock Hpost.
  destruct (reachable_written _ _ Hreach) as (records & -> & Hall).
  destruct (analyze_store json_loads w (map dump records) request)
    as [Hsame | (analysis' & Hpost' & Hts)].
  - rewrite Hpost in Hsame. cbn [snd] in Hsame. subst db'.
    exfalso. unfold analyze_github_profile in Hpost.
    destruct (analyze_try json_loads w (map dump records) request)
      as [[a d]|e] eqn:Htry.
    + unfold analyze_try in Htry.
      repeat match type of Htry with
             | bind ?m _ = _ => destruct m as [?|?]; cbn [bind] in Htry;
                                [|discriminate]
             | (let (_, _) := ?p in _) = _ => destruct p
             end.
      injection Htry as _ Hd. injection Hpost as _ Hd'. rewrite <- Hd in Hd'.
      unfold insert_one in Hd'. apply (f_equal (@List.length _)) in Hd'.
      rewrite length_app in Hd'. cbn in Hd'. lia.
    + destruct e; discriminate.
  - rewrite Hpost in Hpost'. injection Hpost' as <- ->.
    assert (Hall' : Forall utc_stamped (records ++ [analysis])).
    { apply Forall_app. split; [exact Hall|]. repeat constructor;
        unfold utc_stamped; rewrite Hts; apply Hclock. }
    destruct (recent_of_records _ Hall') as (out & Hget & _ & Hsmall & Hlatest).
    exists out. unfold insert_one. change [dump analysis] with (map dump [analysis]).
    rewrite <- map_app. split; [exact Hget|].
    assert (Hin : In analysis (records ++ [analysis])).
    { apply in_or_app. right. left. reflexivity. }
    split; [apply Hlatest, Hin|].
    intros Hlen. rewrite length_map in Hlen.
    eapply Permutation_in; [apply Hsmall|exact Hin].
    rewrite length_app. cbn. lia.
Qed.

(** X18: storing the timestamp as ISO-8601 text keeps the order and the
    identity of UTC instants: the stored texts of two records compare as
    their timestamps do, and two records have the same stored text
    exactly when they have the same timestamp. *)
Theorem stored_order_is_time_order (a b : Analysis) :
  utc_stamped a -> utc_stamped b ->
  String.leb (timestamp (dump a)) (timestamp (dump b))
  = DateTime.leb (timestamp a) (timestamp b)
  /\ (timestamp (dump a) = timestamp (dump b) <-> timestamp a = timestamp b).
Proof.
  intros [Hva Hoa] [Hvb Hob]. cbn [dump with_timestamp timestamp]. split.
  - apply leb_isoformat; congruence.
  - split; [|intros ->; reflexivity].
    intros Heq. apply (f_equal fromisoformat) in Heq.
    rewrite !fromisoformat_isoformat in Heq by assumption.
    injection Heq as ->. reflexivity.
Qed.

End StoreExtras.

(* ================================================================== *)
(** ** The origins of the CORS middleware *)

Module SplitFacts.

Import PyStr Spec PyStrFacts.

Lemma split_not_nil (sep s : string) : sep <> "" -> split sep s <> [].
Proof.
  intros Hsep. rewrite split_eq by assumption.
  destruct (cut sep s) as [[b a]|]; discriminate.
Qed.

(** Joining the pieces with the separator gives the text back. *)
Lemma split_concat (sep s : string) :
  sep <> "" -> String.concat sep (split sep s) = s.
Proof.
  intros Hsep.
  assert (H : forall n s, (String.length s <= n)%nat ->
              String.concat sep (split sep s) = s).
  { induction n as [|n IH]; intros t Ht; rewrite split_eq by assumption;
      destruct (cut sep t) as [[b a]|] eqn:Hc; try reflexivity.
    - apply cut_shrinks in Hc; [lia | assumption].
    - pose proof (cut_shrinks _ _ _ _ Hsep Hc) as Hlt.
      pose proof (split_not_nil sep a Hsep) as Hnil.
      pose proof (IH a ltac:(lia)) as Hrec.
      destruct (split sep a) as [|x xs]; [congruence|].
      cbn [String.concat]. cbn [String.concat] in Hrec. rewrite Hrec.
      symmetry. apply cut_sound, Hc. }
  apply (H (String.length s)). lia.
Qed.

(** No piece holds the separator. *)
Lemma split_clean (sep s : string) :
  sep <> "" -> Forall (fun piece => contains sep piece = false) (split sep s).
Proof.
  intros Hsep.
  assert (H : forall n s, (String.length s <= n)%nat ->
              Forall (fun piece => contains sep piece = false) (split sep s)).
  { induction n as [|n IH]; intros t Ht; rewrite split_eq by assumption;
      pose proof (cut_upto sep t) as Hup; pose proof (contains_cut sep t) as Hin;
      destruct (cut sep t) as [[b a]|] eqn:Hc;
      try (repeat constructor; assumption).
    - apply cut_shrinks in Hc; [lia | assumption].
    - pose proof (cut_shrinks _ _ _ _ Hsep Hc) as Hlt. constructor.
      + eapply upto_clean; eassumption.
      + apply IH. lia. }
  apply (H (String.length s)). lia.
Qed.

End SplitFacts.

Section CorsExtras.

Import PyStr PyStrFacts SplitFacts Rest.

(** X19: the origins handed to the CORS middleware are the setting of
    [CORS_ORIGINS] cut at its commas and nothing else: there is at least
    one origin, none holds a comma, and joined with commas they give the
    setting back character for character (so spaces around a comma stay
    in the origins, and an empty setting gives one empty origin).
    Without the variable the only origin is "*". *)
Theorem allow_origins_round_trip (cors_origins : option string) :
  allow_origins cors_origins <> []
  /\ Forall (fun origin => contains "," origin = false)
       (allow_origins cors_origins)
  /\ String.concat "," (allow_origins cors_origins)
     = match cors_origins with Some setting => setting | None => "*" end
  /\ allow_origins None = ["*"].
Proof.
  assert (Hsep : "," <> "") by discriminate. unfold allow_origins.
  split; [apply split_not_nil, Hsep|].
  split; [apply split_clean, Hsep|].
  split; [apply split_concat, Hsep | reflexivity].
Qed.

End CorsExtras.

Section StatusInstances.

Import Samples Cases.

Lemma profile_fetch_failure_witness :
  analyze_github_profile loads_brackets world_offline [] octocat_request
  = (HttpError 500 "Failed to fetch GitHub profile", [])
  /\ analyze_github_profile loads_brackets world_bad_url [] tab_request
     = (HttpAnalysisFailed InvalidURL, []).
Proof.
  split.
  - exact (proj1 (profile_fetch_failure loads_brackets world_offline []
                    octocat_request "octocat" eq_refl)
             (or_introl eq_refl)).
  - exact (proj2 (profile_fetch_failure loads_brackets world_bad_url []
                    tab_request (github_url tab_request) eq_refl)
             eq_refl).
Defined.

Lemma repositories_unavailable_witness :
  exists github_data,
    analyze_profile (world_with NoReply NoReply) "octocat" = Ok github_data
    /\ repositories github_data = []
    /\ top_repos (stats github_data) = []
    /\ exists payload,
         generate_analysis loads_brackets (world_with NoReply NoReply)
           github_data
         = Ok payload.
Proof.
  destruct (repositories_unavailable loads_brackets
              (world_with NoReply NoReply) "octocat" octocat
              eq_refl (or_introl eq_refl))
    as (github_data & Hgd & _ & Hrepos & _ & _ & _ & _ & _ & Htop & Hpay).
  exists github_data. auto.
Defined.

Lemma undecodable_body_witness :
  analyze_github_profile loads_brackets (world_with (Reply 200 None) NoReply)
    [] octocat_request
  = (HttpAnalysisFailed ValueError, []).
Proof.
  apply (undecodable_body loads_brackets (world_with (Reply 200 None) NoReply)
           [] octocat_request "octocat" eq_refl).
  right. exists octocat, 200. repeat split; reflexivity.
Defined.

Lemma readme_never_fails_witness :
  exists g1 g2,
    analyze_profile
      (world_with (Reply 200 (Some [hello_world])) (Reply 200 "# hello"))
      "octocat" = Ok g1
    /\ analyze_profile
         (world_with (Reply 200 (Some [hello_world])) NoReply)
         "octocat" = Ok g2
    /\ same_but_readme g1 g2
    /\ repos_with_readme (stats g1) = 1
    /\ repos_with_readme (stats g2) = 0.
Proof.
  eexists. eexists. split; [reflexivity|]. split; [reflexivity|].
  split; [|split; reflexivity].
  exact (readme_never_fails
           (world_with (Reply 200 (Some [hello_world])) (Reply 200 "# hello"))
           (world_with (Reply 200 (Some [hello_world])) NoReply)
           "octocat" eq_refl eq_refl).
Defined.

Lemma aggregate_bounds_witness :
  exists github_data,
    analyze_profile (world dozen LlmRaises) "octocat" = Ok github_data
    /\ top_repos (stats github_data) = firstn 10 (repositories github_data)
    /\ (List.length (top_repos (stats github_data)) <= 10)%nat.
Proof.
  eexists. split; [cbv; reflexivity|].
  destruct (aggregate_bounds (world dozen LlmRaises) "octocat" _
              ltac:(vm_compute; reflexivity))
    as (Htop & Hlen & _).
  split; [exact Htop | exact Hlen].
Defined.

Lemma language_tally_sound_witness :
  exists github_data,
    analyze_profile (world [hello_world; odd_repo; hello_world] LlmRaises)
      "octocat" = Ok github_data
    /\ languages (stats github_data) = [(JStr "Python", 2); (JInt 5, 1)]
    /\ distinct_keys (languages (stats github_data))
    /\ total (map snd (languages (stats github_data)))
       = count with_language (top_repos (stats github_data)).
Proof.
  eexists. split; [cbv; reflexivity|]. split; [reflexivity|].
  destruct (language_tally_sound
              (world [hello_world; odd_repo; hello_world] LlmRaises)
              "octocat" _ ltac:(vm_compute; reflexivity))
    as (Hkeys & _ & Htotal).
  split; [exact Hkeys | exact Htotal].
Defined.

Lemma analyze_profile_succeeds_iff_witness :
  exists github_data,
    analyze_profile (world (dozen ++ [nameless]) LlmRaises) "octocat"
    = Ok github_data.
Proof.
  apply (proj2 (analyze_profile_succeeds_iff
                  (world (dozen ++ [nameless]) LlmRaises) "octocat"
                  octocat (dozen ++ [nameless]) eq_refl eq_refl)).
  split; [reflexivity|]. split; reflexivity.
Defined.

Lemma prompt_contents_witness :
  exists github_data prompt,
    analyze_profile (world dozen LlmRaises) "octocat" = Ok github_data
    /\ build_prompt github_data = Ok prompt
    /\ p_top_repos prompt = map line_of (firstn 5 dozen)
    /\ (List.length (p_top_repos prompt) <= 5)%nat
    /\ p_total_stars prompt = 36.
Proof.
  eexists. eexists. split; [cbv; reflexivity|].
  split; [cbv; reflexivity|].
  destruct (proj2 (prompt_contents (world dozen LlmRaises) "octocat" _
                     ltac:(vm_compute; reflexivity))
              _ ltac:(vm_compute; reflexivity))
    as (Htop & Hlen & _ & Hstars & _).
  split; [exact Htop|]. split; [exact Hlen | exact Hstars].
Defined.

Lemma overall_score_averages_all_witness :
  calculate_overall_score (JDict [("score_breakdown", JDict short_breakdown)])
  = Ok (JDict short_breakdown, 5).
Proof.
  exact (overall_score_averages_all
           [("score_breakdown", JDict short_breakdown)] short_breakdown
           eq_refl).
Defined.

Lemma recent_are_latest_witness :
  exists records out,
    twelve_posts = map dump records
    /\ map (fun a => second (timestamp a)) records
       = [0; 1; 2; 3; 4; 5; 6; 7; 8; 9; 10; 11]
    /\ get_recent_analyses twelve_posts = Http200 out
    /\ map (fun a => second (timestamp a)) out
       = [11; 10; 9; 8; 7; 6; 5; 4; 3; 2]
    /\ forall r, In r records ->
         In r out
         \/ (List.length out = 10%nat /\ forall x, In x out -> not_older x r).
Proof.
  destruct (recent_are_latest loads_brackets _
              StoreFacts.twelve_posts_reachable)
    as (records & out & Hdb & Hall & Hget & _ & Hlatest).
  exists records, out. split; [exact Hdb|].
  pose proof (StoreFacts.load_all_dump records
                (StoreFacts.utc_well_stamped _ Hall)) as Hload.
  rewrite <- Hdb in Hload. vm_compute in Hload. injection Hload as <-.
  split; [reflexivity|]. split; [exact Hget|].
  vm_compute in Hget. injection Hget as <-.
  split; [reflexivity | exact Hlatest].
Defined.

Lemma read_your_writes_witness :
  exists analysis db' out,
    analyze_github_profile loads_brackets (world [hello_world] LlmRaises) []
      octocat_request
    = (Http200 analysis, db')
    /\ get_recent_analyses db' = Http200 out
    /\ In analysis out.
Proof.
  eexists. eexists.
  destruct (read_your_writes loads_brackets (world [hello_world] LlmRaises)
              [] _ octocat_request _
              (reachable_empty loads_brackets) (conj eq_refl eq_refl) eq_refl)
    as (out & Hget & _ & Hin).
  exists out. split; [reflexivity|]. split; [exact Hget|].
  apply Hin. cbn. lia.
Defined.

Lemma stored_order_is_time_order_witness :
  String.leb (timestamp (dump record)) (timestamp (dump later_record)) = true
  /\ String.leb (timestamp (dump later_record)) (timestamp (dump record))
     = false.
Proof.
  split.
  - exact (proj1 (stored_order_is_time_order record later_record
                    (conj eq_refl eq_refl) (conj eq_refl eq_refl))).
  - exact (proj1 (stored_order_is_time_order later_record record
                    (conj eq_refl eq_refl) (conj eq_refl eq_refl))).
Defined.

End StatusInstances.
